(** * A ticket-desk client (app.py): shallow embedding and verified properties

    The program is a Streamlit front end over a remote ticket API.  The
    embedding follows app.py function by function:

    - decoded JSON values are [pyval]; a Python dict is a [gmap string pyval];
    - Python exceptions are a [result] type; code that talks to the network
      or to Streamlit runs in the monad [M], which threads the list of
      requests sent, the list of Streamlit calls made and [st.session_state];
    - an f-string is kept as the list of its literal and interpolated parts
      ([fstring]), so no assumption on Python's [str()] is made;
    - the network is a variable [network] of the section: any function from
      the requests sent so far and the current request to an outcome.

    Characters are modelled as [ascii]; [lower()] acts on A-Z only. *)

From Stdlib Require Import Ascii ZArith Lia.
From stdpp Require Import base option list sorting gmap strings.

#[local] Set Warnings "-register-all,-clear-no-such-hyp".

(** ** Strings: the [str] methods app.py uses *)

Module PyStr.

(** [s.lower()] on the letters A-Z, the other bytes being kept: what the
    extension tests need, which look for ASCII needles in the result. *)
Definition lower_char (c : ascii) : ascii :=
  let n := nat_of_ascii c in
  if (65 <=? n)%nat && (n <=? 90)%nat then ascii_of_nat (n + 32) else c.

Fixpoint lower (s : string) : string :=
  match s with
  | EmptyString => EmptyString
  | String c s' => String (lower_char c) (lower s')
  end.

(** [s.startswith(p)] *)
Definition startswith (p s : string) : bool := String.prefix p s.

(** [needle in hay] for two strings *)
Fixpoint contains (needle hay : string) : bool :=
  String.prefix needle hay ||
  match hay with
  | EmptyString => false
  | String _ hay' => contains needle hay'
  end.

(** [s.split(sep)] for a one-character separator: never the empty list *)
Fixpoint split (sep : ascii) (s : string) : list string :=
  match s with
  | EmptyString => [EmptyString]
  | String c s' =>
      if Ascii.eqb c sep then EmptyString :: split sep s'
      else match split sep s' with
           | p :: ps => String c p :: ps
           | [] => [String c EmptyString]
           end
  end.

(** [sep.join(parts)] *)
Fixpoint join (sep : string) (parts : list string) : string :=
  match parts with
  | [] => EmptyString
  | [p] => p
  | p :: ps => p +:+ sep +:+ join sep ps
  end.

(** [s.replace(old, new)] for a non-empty [old]: occurrences are replaced
    from left to right and do not overlap; [skip] counts the characters of the
    occurrence just replaced that are still to be dropped. *)
Fixpoint replace_from (old new : string) (skip : nat) (s : string) : string :=
  match s with
  | EmptyString => EmptyString
  | String c s' =>
      match skip with
      | S k => replace_from old new k s'
      | O =>
          if String.prefix old s
          then new +:+ replace_from old new (String.length old - 1) s'
          else String c (replace_from old new 0 s')
      end
  end.

Definition replace (old new s : string) : string := replace_from old new 0 s.

(** [s[:n]] *)
Fixpoint take (n : nat) (s : string) : string :=
  match n, s with
  | S k, String c s' => String c (take k s')
  | _, _ => EmptyString
  end.

(** [a < b] on strings: lexicographic on code points *)
Definition ltb (a b : string) : bool := String.ltb a b.
Definition leb (a b : string) : bool := String.leb a b.

(** [parts[-1] if parts else d] *)
Definition last_or (d : string) (parts : list string) : string :=
  List.last parts d.

(** [s.strip()].  A string is held as its UTF-8 bytes.  The white space of
    [str] is U+0009-000D, U+001C-0020, U+0085, U+00A0, U+1680, U+2000-200A,
    U+2028, U+2029, U+202F, U+205F and U+3000: one byte for the first ten,
    C2 85 and C2 A0, E1 9A 80, E2 80 80-8A, E2 80 A8, E2 80 A9, E2 80 AF,
    E2 81 9F and E3 80 80. *)
Definition is_space (c : ascii) : bool :=
  let n := nat_of_ascii c in
  ((9 <=? n)%nat && (n <=? 13)%nat) || ((28 <=? n)%nat && (n <=? 32)%nat).

Definition is_space2 (c1 c2 : ascii) : bool :=
  let n2 := nat_of_ascii c2 in
  (nat_of_ascii c1 =? 194)%nat && ((n2 =? 133)%nat || (n2 =? 160)%nat).

Definition is_space3 (c1 c2 c3 : ascii) : bool :=
  let n1 := nat_of_ascii c1 in
  let n2 := nat_of_ascii c2 in
  let n3 := nat_of_ascii c3 in
  ((n1 =? 225)%nat && (n2 =? 154)%nat && (n3 =? 128)%nat)
  || ((n1 =? 226)%nat && (n2 =? 128)%nat
      && (((128 <=? n3)%nat && (n3 <=? 138)%nat)
          || (n3 =? 168)%nat || (n3 =? 169)%nat || (n3 =? 175)%nat))
  || ((n1 =? 226)%nat && (n2 =? 129)%nat && (n3 =? 159)%nat)
  || ((n1 =? 227)%nat && (n2 =? 128)%nat && (n3 =? 128)%nat).

Fixpoint lstrip (s : string) : string :=
  match s with
  | EmptyString => EmptyString
  | String c1 s1 =>
      if is_space c1 then lstrip s1
      else
        match s1 with
        | EmptyString => s
        | String c2 s2 =>
            if is_space2 c1 c2 then lstrip s2
            else
              match s2 with
              | EmptyString => s
              | String c3 s3 => if is_space3 c1 c2 c3 then lstrip s3 else s
              end
        end
  end.

(** The end of the string is cut where only white space follows. *)
Fixpoint rstrip (s : string) : string :=
  match s with
  | EmptyString => EmptyString
  | String c s' =>
      match lstrip s with
      | EmptyString => EmptyString
      | _ => String c (rstrip s')
      end
  end.

Definition strip (s : string) : string := rstrip (lstrip s).

End PyStr.

(** ** Python values and exceptions *)

(** A value decoded from JSON ([response.json()]); numbers are integers. *)
Inductive pyval : Type :=
  | PNone
  | PBool (b : bool)
  | PInt (z : Z)
  | PStr (s : string)
  | PList (l : list pyval)
  | PDict (d : gmap string pyval).

Inductive exn : Type :=
  | RequestException (detail : string)   (* raised by [requests] *)
  | JSONDecodeError (detail : string)    (* raised by [response.json()] *)
  | AttributeError
  | TypeError
  | KeyError
  | MediaError (detail : string)         (* raised by [st.image] *)
  | RerunException.                      (* raised by [st.rerun()] *)

Inductive result (A : Type) : Type :=
  | Ok (a : A)
  | Raise (e : exn).
Arguments Ok {A} a.
Arguments Raise {A} e.

#[global] Instance result_ret : MRet result := λ A a, Ok a.
#[global] Instance result_bind : MBind result := λ A B f r,
  match r with
  | Ok a => f a
  | Raise e => Raise e
  end.

(** [except Exception] does not catch Streamlit's rerun signal, which derives
    from [BaseException]; a bare [except:] catches everything. *)
Definition is_Exception (e : exn) : bool :=
  match e with
  | RerunException => false
  | _ => true
  end.

Module Py.

(** Truth value of an object, as [if v:] and [v or w] test it. *)
Definition truthy (v : pyval) : bool :=
  match v with
  | PNone => false
  | PBool b => b
  | PInt z => negb (z =? 0)%Z
  | PStr s => negb (String.eqb s "")
  | PList l => negb (Nat.eqb (length l) 0)
  | PDict d => negb (Nat.eqb (size d) 0)
  end.

Definition str_truthy (s : string) : bool := negb (String.eqb s "").

(** [v == 'literal'] *)
Definition eq_str (v : pyval) (s : string) : bool :=
  match v with
  | PStr s' => String.eqb s' s
  | _ => false
  end.

(** [v.get(k)] and [v.get(k, dflt)]: only a dict has the method. *)
Definition get (v : pyval) (k : string) (dflt : pyval) : result pyval :=
  match v with
  | PDict d => Ok (default dflt (d !! k))
  | _ => Raise AttributeError
  end.

(** [v[k]] for a string key *)
Definition getitem (v : pyval) (k : string) : result pyval :=
  match v with
  | PDict d =>
      match d !! k with
      | Some x => Ok x
      | None => Raise KeyError
      end
  | _ => Raise TypeError
  end.

(** A [str] method called on [v]: anything but a string has no such
    attribute. *)
Definition as_str (v : pyval) : result string :=
  match v with
  | PStr s => Ok s
  | _ => Raise AttributeError
  end.

(** [v[:n]]: strings and lists can be sliced; the other values raise (a
    [TypeError]; for a dict a [KeyError] from Python 3.12 on: the only use is
    under a bare [except:], which does not look at the class). *)
Definition slice_to (n : nat) (v : pyval) : result pyval :=
  match v with
  | PStr s => Ok (PStr (PyStr.take n s))
  | PList l => Ok (PList (firstn n l))
  | _ => Raise TypeError
  end.

End Py.

(** ** f-strings, Streamlit calls and HTTP requests *)

(** One part of an f-string: literal text, an interpolated value [{v}], or an
    interpolated exception [{e}]. *)
Inductive fpart : Type :=
  | Lit (s : string)
  | Val (v : pyval)
  | Exc (e : exn).

Definition fstring : Type := list fpart.

(** The Streamlit calls of app.py that draw something. *)
Inductive ui_event : Type :=
  | StError (msg : fstring)
  | StSuccess (msg : fstring)
  | StInfo (msg : fstring)
  | StWarning (msg : fstring)
  | StMarkdown (body : fstring)
  | StImage (image : pyval) (caption : fstring)
  | StBalloons.

Inductive http_method : Type := GET | POST | PATCH.

(** A field of a [json=] payload: a value, or a string built by an f-string. *)
Inductive jarg : Type :=
  | JValue (v : pyval)
  | JText (f : fstring).

Inductive req_body : Type :=
  | NoBody
  | JsonBody (data : gmap string jarg)                   (* [json=data] *)
  | FilesBody (filename : string) (content : list Byte.byte). (* [files=] *)

Record request : Type := Request {
  req_method : http_method;
  req_url : fstring;
  req_body_of : req_body;
  req_timeout : option Z
}.

(** What [response.json()] gives: the decoded value, or a decoding error. *)
Inductive body : Type :=
  | NotJson (detail : string)
  | JsonOf (v : pyval).

Record response : Type := Response {
  status_code : Z;
  content : body
}.

(** What a call to [requests] gives: a response, or a transport failure. *)
Inductive outcome : Type :=
  | Fails (detail : string)
  | Responds (r : response).

(** The state a page run threads: the requests sent (oldest first), the
    Streamlit calls made (oldest first) and [st.session_state]. *)
Record world : Type := World {
  calls : list request;
  ui : list ui_event;
  session_state : gmap string pyval
}.

Definition M (A : Type) : Type := world → result A * world.

#[global] Instance M_ret : MRet M := λ A a w, (Ok a, w).
#[global] Instance M_bind : MBind M := λ A B f m w,
  match m w with
  | (Ok a, w') => f a w'
  | (Raise e, w') => (Raise e, w')
  end.

Definition lift {A} (r : result A) : M A := λ w, (r, w).

Definition raise {A} (e : exn) : M A := λ w, (Raise e, w).

(** [try: m except Exception as e: h e] *)
Definition try_except_Exception {A} (m : M A) (h : exn → M A) : M A := λ w,
  match m w with
  | (Ok a, w') => (Ok a, w')
  | (Raise e, w') => if is_Exception e then h e w' else (Raise e, w')
  end.

(** [try: m except: h] *)
Definition try_except {A} (m : M A) (h : M A) : M A := λ w,
  match m w with
  | (Ok a, w') => (Ok a, w')
  | (Raise _, w') => h w'
  end.

(** [for x in l: body x] *)
Fixpoint for_each {A} (l : list A) (body : A → M unit) : M unit :=
  match l with
  | [] => mret tt
  | x :: l' => body x ;; for_each l' body
  end.

Definition emit (e : ui_event) : M unit := λ w,
  (Ok tt, World (calls w) (ui w ++ [e]) (session_state w)).

Definition st_error (msg : fstring) : M unit := emit (StError msg).
Definition st_success (msg : fstring) : M unit := emit (StSuccess msg).
Definition st_info (msg : fstring) : M unit := emit (StInfo msg).
Definition st_warning (msg : fstring) : M unit := emit (StWarning msg).
Definition st_markdown (body : fstring) : M unit := emit (StMarkdown body).
Definition st_balloons : M unit := emit StBalloons.
Definition st_rerun {A} : M A := raise RerunException.

Definition response_json (r : response) : M pyval :=
  match content r with
  | JsonOf v => mret v
  | NotJson detail => raise (JSONDecodeError detail)
  end.

(** ** The API helper functions (app.py, lines 19-138) *)

Section Client.

(** The configured base URL and the remote side. *)
Variable API_BASE_URL : string.
Variable network : list request → request → outcome.

(** [requests.get/post/patch]: the request is recorded, then answered. *)
Definition send (r : request) : M response := λ w,
  let w' := World (calls w ++ [r]) (ui w) (session_state w) in
  match network (calls w) r with
  | Responds resp => (Ok resp, w')
  | Fails detail => (Raise (RequestException detail), w')
  end.

Definition requests_get (url : fstring) (timeout : option Z) : M response :=
  send (Request GET url NoBody timeout).
Definition requests_post (url : fstring) (b : req_body) : M response :=
  send (Request POST url b None).
Definition requests_patch (url : fstring) (b : req_body) : M response :=
  send (Request PATCH url b None).

Definition test_api_connection : M bool :=
  try_except
    (response ← requests_get [Lit API_BASE_URL; Lit "/health"] (Some 10%Z);
     mret (status_code response =? 200)%Z)
    (mret false).

Definition get_all_tickets : M pyval :=
  try_except_Exception
    (response ← requests_get [Lit API_BASE_URL; Lit "/tickets/"] None;
     if (status_code response =? 200)%Z then response_json response
     else
       st_error [Lit "Failed to fetch tickets: ";
                 Val (PInt (status_code response))] ;;
       mret (PList []))
    (λ e, st_error [Lit "Error connecting to API: "; Exc e] ;;
          mret (PList [])).

Definition create_ticket (ticket_data : gmap string jarg) : M pyval :=
  try_except_Exception
    (response ← requests_post [Lit API_BASE_URL; Lit "/tickets/"]
                              (JsonBody ticket_data);
     if (status_code response =? 200)%Z || (status_code response =? 201)%Z
     then response_json response
     else
       st_error [Lit "Failed to create ticket: ";
                 Val (PInt (status_code response))] ;;
       mret PNone)
    (λ e, st_error [Lit "Error creating ticket: "; Exc e] ;; mret PNone).

Definition get_ticket_by_id (ticket_id : pyval) : M pyval :=
  try_except_Exception
    (response ← requests_get
                  [Lit API_BASE_URL; Lit "/tickets/"; Val ticket_id] None;
     if (status_code response =? 200)%Z then response_json response
     else
       st_error [Lit "Failed to fetch ticket: ";
                 Val (PInt (status_code response))] ;;
       mret PNone)
    (λ e, st_error [Lit "Error fetching ticket: "; Exc e] ;; mret PNone).

Definition upload_file_via_api (file_content : list Byte.byte)
    (filename : string) (ticket_id : pyval) : M pyval :=
  try_except_Exception
    (response ← requests_post
                  [Lit API_BASE_URL; Lit "/tickets/"; Val ticket_id;
                   Lit "/attachment"]
                  (FilesBody filename file_content);
     if (status_code response =? 200)%Z then
       response_data ← response_json response;
       signed ← lift (Py.get response_data "signed_url" PNone);
       if Py.truthy signed then mret signed
       else lift (Py.get response_data "attachment_url" PNone)
     else
       st_error [Lit "Failed to upload file: ";
                 Val (PInt (status_code response))] ;;
       mret PNone)
    (λ e, st_error [Lit "Error uploading file: "; Exc e] ;; mret PNone).

Definition generate_ai_reply (ticket_id : pyval) (message : fstring)
    (image_base64 image_filename : pyval) : M pyval :=
  try_except_Exception
    (let payload : gmap string jarg :=
       {[ "ticket_id" := JValue ticket_id; "message" := JText message ]} in
     let payload :=
       if Py.truthy image_base64
       then <["image_filename" := JValue image_filename]>
              (<["image_base64" := JValue image_base64]> payload)
       else payload in
     response ← requests_post [Lit API_BASE_URL; Lit "/ai/reply"]
                              (JsonBody payload);
     if (status_code response =? 200)%Z then response_json response
     else
       st_error [Lit "Failed to generate AI reply: ";
                 Val (PInt (status_code response))] ;;
       mret PNone)
    (λ e, st_error [Lit "Error generating AI reply: "; Exc e] ;; mret PNone).

Definition send_email_via_api (ticket_id : pyval)
    (email_data : gmap string jarg) : M pyval :=
  try_except_Exception
    (response ← requests_post
                  [Lit API_BASE_URL; Lit "/tickets/"; Val ticket_id;
                   Lit "/send-email"]
                  (JsonBody email_data);
     mret (PBool (status_code response =? 200)%Z))
    (λ e, st_error [Lit "Error sending email: "; Exc e] ;;
          mret (PBool false)).

Definition add_reply_via_api (ticket_id : pyval)
    (reply_data : gmap string jarg) : M pyval :=
  try_except_Exception
    (response ← requests_post
                  [Lit API_BASE_URL; Lit "/tickets/"; Val ticket_id;
                   Lit "/replies"]
                  (JsonBody reply_data);
     if (status_code response =? 200)%Z then response_json response
     else
       st_error [Lit "Failed to add reply: ";
                 Val (PInt (status_code response))] ;;
       mret PNone)
    (λ e, st_error [Lit "Error adding reply: "; Exc e] ;; mret PNone).

Definition get_ticket_replies (ticket_id : pyval) : M pyval :=
  try_except_Exception
    (response ← requests_get
                  [Lit API_BASE_URL; Lit "/tickets/"; Val ticket_id] None;
     if (status_code response =? 200)%Z then
       ticket_data ← response_json response;
       lift (Py.get ticket_data "replies" (PList []))
     else mret (PList []))
    (λ e, st_error [Lit "Error fetching replies: "; Exc e] ;;
          mret (PList [])).

Definition update_ticket_status (ticket_id : pyval) (status : pyval)
    : M pyval :=
  try_except_Exception
    (response ← requests_patch
                  [Lit API_BASE_URL; Lit "/tickets/"; Val ticket_id;
                   Lit "/status"]
                  (JsonBody {[ "status" := JValue status ]});
     mret (PBool (status_code response =? 200)%Z))
    (λ e, st_error [Lit "Error updating ticket status: "; Exc e] ;;
          mret (PBool false)).

End Client.

(** ** Attachment file names (app.py, lines 442-473, 537-562, 713-738) *)

Module Attachment.

(** The double quote character, for HTML attributes. *)
Definition dq : string := String (ascii_of_nat 34) EmptyString.

Definition FILE_EXTS : list string :=
  [".png"; ".jpg"; ".jpeg"; ".gif"; ".webp"; ".bmp"; ".svg"; ".pdf"; ".txt";
   ".doc"; ".xlsx"].

Definition IMAGE_EXTS : list string :=
  [".png"; ".jpg"; ".jpeg"; ".gif"; ".webp"; ".bmp"; ".svg"].

(** The admin panel's list (line 738) has no [.svg]. *)
Definition ADMIN_IMAGE_EXTS : list string :=
  [".png"; ".jpg"; ".jpeg"; ".gif"; ".webp"; ".bmp"].

(** [any(ext in s.lower() for ext in exts)] *)
Definition any_ext_in (exts : list string) (s : string) : bool :=
  existsb (λ ext, PyStr.contains ext (PyStr.lower s)) exts.

(** The test of the loop: ['.' in part and any(ext in part.lower() ...)] *)
Definition has_file_ext (part : string) : bool :=
  PyStr.contains "." part && any_ext_in FILE_EXTS part.

(** The [for i, part in enumerate(parts)] loop: the index at which it breaks,
    if it does. *)
Fixpoint first_ext_index (parts : list string) : option nat :=
  match parts with
  | [] => None
  | part :: rest =>
      if has_file_ext part then Some 0%nat
      else S <$> first_ext_index rest
  end.

(** The file name the loop and its [else] compute, with the value the loop
    variable [i] is left with. *)
Definition name_from_parts (parts : list string) : string * nat :=
  match first_ext_index parts with
  | Some i => (PyStr.join "_" (drop i parts), i)
  | None => (PyStr.last_or "attachment" parts, (length parts - 1)%nat)
  end.

(** [url.split('?')[0].split('/')[-1]] *)
Definition path_part_of (url : string) : string :=
  let url_without_params := List.hd EmptyString (PyStr.split "?" url) in
  List.last (PyStr.split "/" url_without_params) EmptyString.

(** The name recovered from the path part, before the clean-up, and the value
    [i] has afterwards ([i0] when the loop is not run). *)
Definition name_of_path_part (path_part : string) (i0 : nat) : string * nat :=
  if PyStr.contains "_" path_part
     && (3 <=? length (PyStr.split "_" path_part))%nat
  then name_from_parts (PyStr.split "_" path_part)
  else (path_part, i0).

(** [file_name.replace('%20', ' ').replace('%2B', '+')] *)
Definition clean (file_name : string) : string :=
  PyStr.replace "%2B" "+" (PyStr.replace "%20" " " file_name).

(** The body of the [try] once the URL is known to be a string. *)
Definition extract (url : string) (i0 : nat) : string * nat :=
  let r := name_of_path_part (path_part_of url) i0 in
  (clean r.1, r.2).

(** Lines 442-470: the ticket's own attachment. *)
Definition ticket_file_name (attachment_url : pyval) : string :=
  match
    url ← Py.as_str attachment_url;
    if PyStr.startswith "http" url then mret (extract url 0).1
    else mret "attachment"
  with
  | Ok file_name => file_name
  | Raise _ => "attachment"
  end.

(** Lines 537-560 and 713-736: a reply's attachment, with the value of [i]
    after the [try]. *)
Definition reply_file_name (reply_attachment : pyval) (i0 : nat)
    : string * nat :=
  match url ← Py.as_str reply_attachment; mret (extract url i0) with
  | Ok r => r
  | Raise _ => ("attachment", i0)
  end.

Inductive media_kind : Type := image | document.

(** [any(ext in attachment_url.lower() for ext in exts)]: the branch taken
    by the display. *)
Definition attachment_kind (exts : list string) (attachment_url : pyval)
    : result media_kind :=
  url ← Py.as_str attachment_url;
  mret (if any_ext_in exts url then image else document).

End Attachment.

(** ** The reply normalizer (app.py, lines 504-514) *)

Section Sorting.

(** Python's [<] on two lists (lexicographic, through [==] and [<] of the
    elements): not used by any reply the theorems speak of, kept abstract. *)
Variable list_lt : list pyval → list pyval → result bool.

Definition as_number (v : pyval) : option Z :=
  match v with
  | PBool b => Some (Z.b2z b)
  | PInt z => Some z
  | _ => None
  end.

(** [a < b]: strings with strings, numbers with numbers, lists with lists;
    anything else is a [TypeError]. *)
Definition py_lt (a b : pyval) : result bool :=
  match a, b with
  | PStr x, PStr y => Ok (PyStr.ltb x y)
  | PList x, PList y => list_lt x y
  | _, _ =>
      match as_number a, as_number b with
      | Some x, Some y => Ok (x <? y)%Z
      | _, _ => Raise TypeError
      end
  end.

(** [sorted(l, key=key)] is a stable sort that uses only [<] on the keys and
    raises what a key or a comparison raises.  It is modelled as the stable
    insertion sort; the keys are computed first, as Python does. *)
Fixpoint insert_keyed (kx : pyval * pyval) (l : list (pyval * pyval))
    : result (list (pyval * pyval)) :=
  match l with
  | [] => Ok [kx]
  | ky :: l' =>
      b ← py_lt ky.1 kx.1;
      if b : bool then r ← insert_keyed kx l'; mret (ky :: r)
      else mret (kx :: ky :: l')
  end.

Fixpoint sort_keyed (l : list (pyval * pyval))
    : result (list (pyval * pyval)) :=
  match l with
  | [] => Ok []
  | kx :: l' => s ← sort_keyed l'; insert_keyed kx s
  end.

Fixpoint with_keys (key : pyval → result pyval) (l : list pyval)
    : result (list (pyval * pyval)) :=
  match l with
  | [] => Ok []
  | x :: l' => k ← key x; r ← with_keys key l'; mret ((k, x) :: r)
  end.

Definition py_sorted (key : pyval → result pyval) (l : list pyval)
    : result (list pyval) :=
  keyed ← with_keys key l;
  s ← sort_keyed keyed;
  mret (s.*2).

(** [lambda x: x.get('created_at', x.get('timestamp', ''))] *)
Definition sort_key (x : pyval) : result pyval :=
  ts ← Py.get x "timestamp" (PStr "");
  Py.get x "created_at" ts.

(** Lines 505-508: [try: sorted(...) except: replies]. *)
Definition sorted_replies (replies : list pyval) : list pyval :=
  match py_sorted sort_key replies with
  | Ok l => l
  | Raise _ => replies
  end.

End Sorting.

(** Lines 512-514 (and 700-701): [reply.get(a) or reply.get(b, dflt)]. *)
Definition get_or (reply : pyval) (a b : string) (dflt : pyval)
    : result pyval :=
  first ← Py.get reply a PNone;
  if Py.truthy first then mret first else Py.get reply b dflt.

Definition resolve_role (reply : pyval) : result pyval :=
  get_or reply "role" "reply_type" (PStr "user").

Definition resolve_text (reply : pyval) : result pyval :=
  get_or reply "text" "content" (PStr "").

Definition resolve_timestamp (reply : pyval) : result pyval :=
  get_or reply "created_at" "timestamp" (PStr "").

(** ** The pages (app.py, lines 287-349, 418-577, 640-744) *)

Record uploaded_file : Type := UploadedFile {
  file_name_of : string;            (* [uploaded_file.name] *)
  getvalue : list Byte.byte         (* [uploaded_file.getvalue()] *)
}.

Section Pages.

Variable API_BASE_URL : string.
Variable network : list request → request → outcome.
Variable list_lt : list pyval → list pyval → result bool.

(** Whether [st.image] can show the given image; when it cannot it raises. *)
Variable image_loads : pyval → bool.

Definition st_image (image : pyval) (caption : fstring) : M unit :=
  if image_loads image then emit (StImage image caption)
  else raise (MediaError "st.image").

Definition nl : string := String (ascii_of_nat 10) EmptyString.

(** Lines 330-332: the body of [for uploaded_file in uploaded_files]. *)
Definition upload_one (new_ticket : pyval) (uploaded_file : uploaded_file)
    : M unit :=
  id ← lift (Py.getitem new_ticket "id");
  file_url ← upload_file_via_api API_BASE_URL network
               (getvalue uploaded_file) (file_name_of uploaded_file) id;
  if Py.truthy file_url then
    st_info [Lit "📎 File '"; Val (PStr (file_name_of uploaded_file));
             Lit "' uploaded successfully!"]
  else mret tt.

(** *** [create_ticket_page], lines 309-349: the form has been filled with
    the given values and [submit] tells whether the button was pressed. *)
Definition create_ticket_page (title category created_by priority email
    description : string) (uploaded_files : list uploaded_file)
    (submit : bool) : M unit :=
  if submit then
    if negb (forallb Py.str_truthy [title; category; description; created_by])
    then st_error [Lit "Please fill in all required fields (*)"]
    else
      let ticket_data : gmap string jarg :=
        {[ "title" := JValue (PStr title);
           "description" := JValue (PStr description);
           "category" := JValue (PStr category) ]} in
      new_ticket ← create_ticket API_BASE_URL network ticket_data;
      if Py.truthy new_ticket then
        id ← lift (Py.getitem new_ticket "id");
        st_success [Lit "✅ Ticket #"; Val id; Lit " created successfully!"] ;;
        (if negb (Nat.eqb (length uploaded_files) 0) then
           for_each uploaded_files (upload_one new_ticket)
         else mret tt) ;;
        id ← lift (Py.getitem new_ticket "id");
        ai_response ← generate_ai_reply API_BASE_URL network id
                        [Lit "New ticket: "; Val (PStr title);
                         Lit (nl +:+ nl); Val (PStr description)]
                        PNone PNone;
        (if Py.truthy ai_response
         then st_info [Lit "🤖 AI assistant has reviewed your ticket!"]
         else mret tt) ;;
        st_balloons ;;
        if Py.str_truthy email then
          id1 ← lift (Py.getitem new_ticket "id");
          id2 ← lift (Py.getitem new_ticket "id");
          let email_data : gmap string jarg :=
            {[ "to_email" := JValue (PStr email);
               "subject" := JText [Lit "Ticket #"; Val id1;
                                   Lit " Created Successfully"];
               "message" := JText [Lit "Your ticket '"; Val (PStr title);
                                   Lit "' has been created and assigned ID #";
                                   Val id2;
                                   Lit ". We'll get back to you soon!"] ]} in
          id ← lift (Py.getitem new_ticket "id");
          sent ← send_email_via_api API_BASE_URL network id email_data;
          if Py.truthy sent then st_info [Lit "📧 Confirmation email sent!"]
          else mret tt
        else mret tt
      else mret tt
  else mret tt.

(** *** [show_ticket_details], lines 435-493: the ticket's attachment *)
Definition show_ticket_attachment (ticket : pyval) : M unit :=
  present ← lift (Py.get ticket "attachment_url" PNone);
  if Py.truthy present then
    st_markdown [Lit "---"] ;;
    st_markdown [Lit "📎 **Original Ticket Attachment:**"] ;;
    attachment_url ← lift (Py.getitem ticket "attachment_url");
    let file_name := PStr (Attachment.ticket_file_name attachment_url) in
    kind ← lift (Attachment.attachment_kind Attachment.IMAGE_EXTS
                   attachment_url);
    match kind with
    | Attachment.image =>
        try_except_Exception
          (st_image attachment_url [Lit "📷 "; Val file_name] ;;
           st_markdown [Lit "**File:** "; Val file_name] ;;
           st_markdown [Lit "**Type:** Image"] ;;
           st_markdown [Lit "[🔗 Open in new tab]("; Val attachment_url;
                        Lit ")"])
          (λ e,
           st_warning [Lit "Could not display image: "; Val file_name] ;;
           st_markdown [Lit "📎 [📥 Download "; Val file_name; Lit "](";
                        Val attachment_url; Lit ")"])
    | Attachment.document =>
        st_markdown [Lit "📄 **"; Val file_name; Lit "**"] ;;
        st_markdown [Lit "📎 [📥 Download File]("; Val attachment_url;
                     Lit ")"] ;;
        st_markdown [Lit "**Type:** Document"] ;;
        st_markdown [Lit "[🔗 Open Link]("; Val attachment_url; Lit ")"]
    end
  else mret tt.

(** *** [show_ticket_details], lines 510-575: one reply of the conversation *)

(** Lines 517-522: [time_str]; the empty f-string is the empty string. *)
Definition time_str_of (timestamp : pyval) : fstring :=
  if Py.truthy timestamp then
    match Py.slice_to 16 timestamp with
    | Ok t => [Lit " • "; Val t]
    | Raise _ => []
    end
  else [].

Definition chat_div (class : string) : string :=
  "<div class=" +:+ Attachment.dq +:+ "chat-message " +:+ class
  +:+ Attachment.dq +:+ ">".

(** Lines 524-529: the branches on the role. *)
Definition render_role_message (role : pyval) (time_str : fstring)
    (text : pyval) : M unit :=
  if Py.eq_str role "user" then
    st_markdown ([Lit (chat_div "user-message" +:+ "👤 <strong>User")]
                 ++ time_str ++ [Lit ":</strong><br>"; Val text; Lit "</div>"])
  else if Py.eq_str role "ai" then
    st_markdown ([Lit (chat_div "assistant-message"
                       +:+ "🤖 <strong>AI Assistant")]
                 ++ time_str ++ [Lit ":</strong><br>"; Val text; Lit "</div>"])
  else if Py.eq_str role "admin" then
    st_markdown ([Lit (chat_div "admin-message" +:+ "👨‍💼 <strong>Admin")]
                 ++ time_str ++ [Lit ":</strong><br>"; Val text; Lit "</div>"])
  else mret tt.

(** Lines 531-572: the reply's attachment; the result is the value of the
    loop variable [i], which the file-name loop of line 548 reuses. *)
Definition render_reply_attachment (reply : pyval) (i : nat) : M nat :=
  present ← lift (Py.get reply "attachment_url" PNone);
  if Py.truthy present then
    reply_attachment ← lift (Py.getitem reply "attachment_url");
    st_markdown [Lit "📎 **Attachment:**"] ;;
    let r := Attachment.reply_file_name reply_attachment i in
    let reply_file_name := PStr r.1 in
    kind ← lift (Attachment.attachment_kind Attachment.IMAGE_EXTS
                   reply_attachment);
    match kind with
    | Attachment.image =>
        try_except
          (st_image reply_attachment [Lit "📷 "; Val reply_file_name] ;;
           st_markdown [Lit "[🔗 View Full Size]("; Val reply_attachment;
                        Lit ")"])
          (st_markdown [Lit "📎 [📥 Download "; Val reply_file_name;
                        Lit "]("; Val reply_attachment; Lit ")"])
    | Attachment.document =>
        st_markdown [Lit "📎 [📥 Download "; Val reply_file_name; Lit "](";
                     Val reply_attachment; Lit ")"]
    end ;;
    mret r.2
  else mret i.

(** The body of [for i, reply in enumerate(sorted_replies)], [n] being
    [len(sorted_replies)]. *)
Definition render_reply (n : nat) (i : nat) (reply : pyval) : M unit :=
  role ← lift (resolve_role reply);
  text ← lift (resolve_text reply);
  timestamp ← lift (resolve_timestamp reply);
  let time_str := time_str_of timestamp in
  render_role_message role time_str text ;;
  i' ← render_reply_attachment reply i;
  if (Z.of_nat i' <? Z.of_nat n - 1)%Z then st_markdown [Lit "<br>"]
  else mret tt.

(** Lines 501-577: the conversation, given the replies fetched. *)
Definition show_conversation (replies : list pyval) : M unit :=
  if Py.truthy (PList replies) && (0 <? length replies)%nat then
    st_success [Lit "� "; Val (PInt (Z.of_nat (length replies)));
                Lit " conversation messages found"] ;;
    let sorted := sorted_replies list_lt replies in
    for_each (imap (λ i reply, (i, reply)) sorted)
             (λ ir, render_reply (length sorted) ir.1 ir.2)
  else
    st_info
      [Lit "💭 No conversation messages yet. Be the first to add a reply!"].

(** *** [admin_panel], lines 698-744: one reply of the admin's view *)

(** Lines 703-708. *)
Definition admin_role_message (role : pyval) (text : pyval) : M unit :=
  if Py.eq_str role "user" then
    st_markdown [Lit (chat_div "user-message" +:+ "👤 <strong>User:</strong> ");
                 Val text; Lit "</div>"]
  else if Py.eq_str role "ai" then
    st_markdown [Lit (chat_div "assistant-message"
                      +:+ "🤖 <strong>AI:</strong> ");
                 Val text; Lit "</div>"]
  else if Py.eq_str role "admin" then
    st_markdown [Lit (chat_div "admin-message"
                      +:+ "👨‍💼 <strong>Admin:</strong> ");
                 Val text; Lit "</div>"]
  else mret tt.

Definition admin_render_reply (reply : pyval) : M unit :=
  role ← lift (resolve_role reply);
  text ← lift (resolve_text reply);
  admin_role_message role text ;;
  present ← lift (Py.get reply "attachment_url" PNone);
  if Py.truthy present then
    attachment_url ← lift (Py.getitem reply "attachment_url");
    let file_name := PStr (Attachment.reply_file_name attachment_url 0).1 in
    kind ← lift (Attachment.attachment_kind Attachment.ADMIN_IMAGE_EXTS
                   attachment_url);
    match kind with
    | Attachment.image =>
        try_except
          (st_image attachment_url [Lit "📷 "; Val file_name])
          (st_markdown [Lit "📎 [📥 "; Val file_name; Lit "](";
                        Val attachment_url; Lit ")"])
    | Attachment.document =>
        st_markdown [Lit "📎 [📥 "; Val file_name; Lit "](";
                     Val attachment_url; Lit ")"]
    end
  else mret tt.

(** *** [admin_panel], lines 643-660: the login gate.  [login] tells whether
    the Login button was pressed; [dashboard] is the rest of the page. *)
Definition session_get (k : string) : M pyval := λ w,
  match session_state w !! k with
  | Some v => (Ok v, w)
  | None => (Raise KeyError, w)
  end.

Definition session_set (k : string) (v : pyval) : M unit := λ w,
  (Ok tt, World (calls w) (ui w) (<[k := v]> (session_state w))).

Definition session_has (k : string) : M bool := λ w,
  (Ok (bool_decide (is_Some (session_state w !! k))), w).

Definition admin_panel (username password : string) (login : bool)
    (dashboard : M unit) : M unit :=
  known ← session_has "admin_authenticated";
  (if negb known then session_set "admin_authenticated" (PBool false)
   else mret tt) ;;
  authenticated ← session_get "admin_authenticated";
  if negb (Py.truthy authenticated) then
    if login then
      if String.eqb username "admin" && String.eqb password "admin" then
        session_set "admin_authenticated" (PBool true) ;;
        st_success [Lit "Logged in successfully!"] ;;
        st_rerun
      else st_error [Lit "Invalid credentials"]
    else mret tt
  else dashboard.

End Pages.

(** ** Vocabulary of the statements *)

(** The requests the helper functions send. *)
Definition tickets_request (base : string) : request :=
  Request GET [Lit base; Lit "/tickets/"] NoBody None.

Definition ticket_request (base : string) (ticket_id : pyval) : request :=
  Request GET [Lit base; Lit "/tickets/"; Val ticket_id] NoBody None.

Definition create_request (base : string) (ticket_data : gmap string jarg)
    : request :=
  Request POST [Lit base; Lit "/tickets/"] (JsonBody ticket_data) None.

Definition upload_request (base : string) (ticket_id : pyval)
    (f : uploaded_file) : request :=
  Request POST [Lit base; Lit "/tickets/"; Val ticket_id; Lit "/attachment"]
          (FilesBody (file_name_of f) (getvalue f)) None.

Definition ai_request (base : string) (ticket_id : pyval) (message : fstring)
    : request :=
  Request POST [Lit base; Lit "/ai/reply"]
          (JsonBody {[ "ticket_id" := JValue ticket_id;
                       "message" := JText message ]}) None.

Definition email_request (base : string) (ticket_id : pyval)
    (email_data : gmap string jarg) : request :=
  Request POST [Lit base; Lit "/tickets/"; Val ticket_id; Lit "/send-email"]
          (JsonBody email_data) None.

Definition reply_request (base : string) (ticket_id : pyval)
    (reply_data : gmap string jarg) : request :=
  Request POST [Lit base; Lit "/tickets/"; Val ticket_id; Lit "/replies"]
          (JsonBody reply_data) None.

Definition status_request (base : string) (ticket_id status : pyval)
    : request :=
  Request PATCH [Lit base; Lit "/tickets/"; Val ticket_id; Lit "/status"]
          (JsonBody {[ "status" := JValue status ]}) None.

(** The world a page run starts from: nothing sent, nothing shown, an empty
    session. *)
Definition fresh_world : world := World [] [] ∅.

(** The world after one more request and some more Streamlit calls. *)
Definition after (w : world) (r : request) (shown : list ui_event) : world :=
  World (calls w ++ [r]) (ui w ++ shown) (session_state w).

(** A fetch failed: the transport raised, or the code is not 200. *)
Definition fetch_failed (o : outcome) : Prop :=
  match o with
  | Fails _ => True
  | Responds r => status_code r ≠ 200%Z
  end.

(** The session counts as authenticated when the flag is set and true. *)
Definition authenticated (w : world) : bool :=
  match session_state w !! "admin_authenticated" with
  | Some v => Py.truthy v
  | None => false
  end.




(** A field of the answer offers a URL when it holds a truthy value; a field
    that is absent, null or empty offers none. *)
Definition offers (d : gmap string pyval) (k : string) (url : pyval) : Prop :=
  d !! k = Some url ∧ Py.truthy url = true.

Definition offers_none (d : gmap string pyval) (k : string) : Prop :=
  ∀ v, d !! k = Some v → Py.truthy v = false.



(** The payloads and messages of the creation workflow. *)
Definition ticket_data_of (title description category : string)
    : gmap string jarg :=
  {[ "title" := JValue (PStr title);
     "description" := JValue (PStr description);
     "category" := JValue (PStr category) ]}.

Definition ai_message (title description : string) : fstring :=
  [Lit "New ticket: "; Val (PStr title); Lit (nl +:+ nl);
   Val (PStr description)].

Definition email_data_of (email title : string) (id : pyval)
    : gmap string jarg :=
  {[ "to_email" := JValue (PStr email);
     "subject" := JText [Lit "Ticket #"; Val id;
                         Lit " Created Successfully"];
     "message" := JText [Lit "Your ticket '"; Val (PStr title);
                         Lit "' has been created and assigned ID #"; Val id;
                         Lit ". We'll get back to you soon!"] ]}.

Definition ticket_created (id : pyval) : ui_event :=
  StSuccess [Lit "✅ Ticket #"; Val id; Lit " created successfully!"].

(** The requests the workflow sends after a successful create, in order. *)
Definition follow_up_requests (base : string) (id : pyval)
    (title description email : string) (files : list uploaded_file)
    : list request :=
  (upload_request base id <$> files)
  ++ [ai_request base id (ai_message title description)]
  ++ (if Py.str_truthy email
      then [email_request base id (email_data_of email title id)]
      else []).

(** A helper that returns (never raises), records exactly its own request
    and only adds Streamlit calls. *)
Definition sends_one (op : M pyval) (req : request) : Prop :=
  ∀ w, ∃ v shown, op w = (Ok v, after w req shown).

(** [does m reqs post]: from any world, [m] returns a value satisfying
    [post] (it does not raise), sends exactly [reqs] in that order, only adds
    Streamlit calls and leaves the session alone. *)
Definition does {A} (m : M A) (reqs : list request) (post : A → Prop)
    : Prop :=
  ∀ w, ∃ a shown,
    m w = (Ok a, World (calls w ++ reqs) (ui w ++ shown) (session_state w))
    ∧ post a.

(** The resolution policy of lines 512-514: the first field wins when it is
    present with a truthy value; otherwise the second field's value when it
    is present, whatever it is; otherwise the default. *)
Definition resolves_first_truthy (resolve : pyval → result pyval)
    (a b : string) (dflt : pyval) : Prop :=
  ∀ d : gmap string pyval,
    (∀ v, d !! a = Some v → Py.truthy v = true → resolve (PDict d) = Ok v)
    ∧ ((∀ v, d !! a = Some v → Py.truthy v = false) →
       resolve (PDict d) = Ok (default dflt (d !! b))).

(** The policy as the specification words it: the first field that is
    present wins, whatever its value. *)
Definition first_present (d : gmap string pyval) (a b : string)
    (dflt : pyval) : pyval :=
  match d !! a with
  | Some v => v
  | None => default dflt (d !! b)
  end.

(** The three roles the conversation renders. *)
Definition known_role (role : pyval) : bool :=
  Py.eq_str role "user" || Py.eq_str role "ai" || Py.eq_str role "admin".

(** A Streamlit call that draws a chat message of one of the roles. *)
Definition is_chat_message (e : ui_event) : bool :=
  match e with
  | StMarkdown (Lit s :: _) => PyStr.contains "chat-message" s
  | _ => false
  end.

(** An attachment field the display can handle: absent, falsy, or a string. *)
Definition attachment_well_typed (d : gmap string pyval) : Prop :=
  match d !! "attachment_url" with
  | None => True
  | Some v => Py.truthy v = false ∨ ∃ url, v = PStr url
  end.

(** The file name the two views recover from a URL: [name] in a reply, and in
    the ticket view when the URL starts with [http]; the ticket view gives
    ["attachment"] for any other string. *)
Definition recovers (url name : string) : Prop :=
  (∀ i0, (Attachment.reply_file_name (PStr url) i0).1 = name)
  ∧ Attachment.ticket_file_name (PStr url)
    = (if PyStr.startswith "http" url then name else "attachment").

(** The scan as the specification words it: dotless extensions, with [docx]
    and [zip] among them. *)
Definition CLAIMED_EXTS : list string :=
  ["png"; "jpg"; "jpeg"; "gif"; "webp"; "bmp"; "svg"; "pdf"; "txt"; "doc";
   "xlsx"; "docx"; "zip"].

Definition claimed_recognized (part : string) : bool :=
  existsb (λ ext, PyStr.contains ext (PyStr.lower part)) CLAIMED_EXTS.

Fixpoint claimed_scan (parts : list string) : option string :=
  match parts with
  | [] => None
  | part :: rest =>
      if claimed_recognized part then Some (PyStr.join "_" parts)
      else claimed_scan rest
  end.

Definition claimed_name (parts : list string) : string :=
  default (List.last parts EmptyString) (claimed_scan parts).

(** The sort key of a reply when it is a string, as a timestamp is. *)
Definition str_key (x : pyval) : option string :=
  match sort_key x with
  | Ok (PStr s) => Some s
  | _ => None
  end.

Definition key_of (x : pyval) : string := default EmptyString (str_key x).

Definition key_le (x y : pyval) : Prop :=
  PyStr.leb (key_of x) (key_of y) = true.

Definition is_str (v : pyval) : bool :=
  match v with
  | PStr _ => true
  | _ => false
  end.

(** A reply with no timestamp at all: neither field is present. *)
Definition timestamp_missing (x : pyval) : Prop :=
  ∃ d : gmap string pyval,
    x = PDict d ∧ d !! "created_at" = None ∧ d !! "timestamp" = None.

(** The stable insertion sort on string keys, without exceptions: what
    [py_sorted] computes when every key is a string. *)
Fixpoint insert_by_key (x : pyval) (l : list pyval) : list pyval :=
  match l with
  | [] => [x]
  | y :: l' =>
      if PyStr.ltb (key_of y) (key_of x) then y :: insert_by_key x l'
      else x :: y :: l'
  end.

Fixpoint sort_by_key (l : list pyval) : list pyval :=
  match l with
  | [] => []
  | x :: l' => insert_by_key x (sort_by_key l')
  end.

(** A reply tagged with its string key, as [with_keys] does. *)
Definition tag (x : pyval) : pyval * pyval := (PStr (key_of x), x).

(** The request of the connectivity probe, with its bounded wait. *)
Definition health_request (base : string) : request :=
  Request GET [Lit base; Lit "/health"] NoBody (Some 10%Z).

(** ** More of the pages (app.py, lines 198-219, 234-237, 357-359, 601-638,
    669-671, 752-755, 776-805) *)

(** The style sheet of lines 150-196. *)
Definition CUSTOM_CSS : string := "
    <style>
        .main > div {
            background: linear-gradient(135deg, #667eea 0%, #764ba2 100%);
            min-height: 100vh;
        }
        .stApp > header {
            background-color: transparent;
        }
        .ticket-container {
            background: white;
            border-radius: 15px;
            padding: 20px;
            margin: 10px 0;
            box-shadow: 0 4px 6px rgba(0, 0, 0, 0.1);
            border-left: 5px solid #667eea;
        }
        .chat-message {
            padding: 10px 15px;
            border-radius: 10px;
            margin: 5px 0;
            max-width: 80%;
        }
        .user-message {
            background-color: #e3f2fd;
            margin-left: auto;
            border-bottom-right-radius: 5px;
        }
        .assistant-message {
            background-color: #f5f5f5;
            margin-right: auto;
            border-bottom-left-radius: 5px;
        }
        .admin-message {
            background-color: #fff3e0;
            margin-right: auto;
            border-bottom-left-radius: 5px;
            border-left: 3px solid #ff9800;
        }
        .status-open { color: #4caf50; font-weight: bold; }
        .status-in-progress { color: #ff9800; font-weight: bold; }
        .status-closed { color: #f44336; font-weight: bold; }
        .priority-high { color: #f44336; font-weight: bold; }
        .priority-medium { color: #ff9800; font-weight: bold; }
        .priority-low { color: #4caf50; font-weight: bold; }
    </style>
    ".

Section MorePages.

Variable API_BASE_URL : string.
Variable network : list request → request → outcome.

(** The text of a reply that has none: lines 616 and 788. *)
Definition shared_file_text (uploaded : option uploaded_file) : string :=
  "📎 Shared a file: "
  +:+ match uploaded with
      | Some f => file_name_of f
      | None => "attachment"
      end.

(** *** [show_ticket_details], lines 601-638: the reply form.  [new_reply] is
    the text typed, [uploaded] the file attached if any, [send] and [refresh]
    tell which button was pressed. *)
Definition reply_form (ticket : pyval) (new_reply : string)
    (uploaded : option uploaded_file) (send refresh : bool) : M unit :=
  (if send then
     if Py.str_truthy (PyStr.strip new_reply) || bool_decide (is_Some uploaded)
     then
       attachment_url ←
         match uploaded with
         | Some f =>
             id ← lift (Py.getitem ticket "id");
             url ← upload_file_via_api API_BASE_URL network (getvalue f)
                     (file_name_of f) id;
             (if Py.truthy url then
                st_success [Lit "📎 File '"; Val (PStr (file_name_of f));
                            Lit "' uploaded successfully!"]
              else
                st_error [Lit "❌ Failed to upload file. Sending reply without attachment."]) ;;
             mret url
         | None => mret PNone
         end;
       let reply_text :=
         if Py.str_truthy (PyStr.strip new_reply) then PyStr.strip new_reply
         else shared_file_text uploaded in
       let reply_data : gmap string jarg :=
         {[ "text" := JValue (PStr reply_text);
            "role" := JValue (PStr "user") ]} in
       let reply_data :=
         if Py.truthy attachment_url
         then <["attachment_url" := JValue attachment_url]> reply_data
         else reply_data in
       id ← lift (Py.getitem ticket "id");
       sent ← add_reply_via_api API_BASE_URL network id reply_data;
       if Py.truthy sent then
         (if Py.truthy attachment_url
          then st_success [Lit "✅ Reply with attachment sent successfully!"]
          else st_success [Lit "✅ Reply sent successfully!"]) ;;
         st_rerun
       else st_error [Lit "❌ Failed to send reply. Please try again."]
     else
       st_warning
         [Lit "⚠️ Please enter a reply or attach a file before sending."]
   else mret tt) ;;
  if refresh then st_rerun else mret tt.

(** *** [admin_panel], lines 752-755: the status update of one ticket. *)
Definition admin_update_status (ticket : pyval) (new_status : string)
    (pressed : bool) : M unit :=
  if pressed then
    id ← lift (Py.getitem ticket "id");
    updated ← update_ticket_status API_BASE_URL network id (PStr new_status);
    if Py.truthy updated then st_success [Lit "Status updated!"] ;; st_rerun
    else mret tt
  else mret tt.

(** *** [admin_panel], lines 776-805: the admin's reply form. *)
Definition admin_reply_form (ticket : pyval) (admin_reply : string)
    (admin_file : option uploaded_file) (send : bool) : M unit :=
  if send then
    if Py.str_truthy admin_reply || bool_decide (is_Some admin_file) then
      attachment_url ←
        match admin_file with
        | Some f =>
            id ← lift (Py.getitem ticket "id");
            url ← upload_file_via_api API_BASE_URL network (getvalue f)
                    (file_name_of f) id;
            (if Py.truthy url then
               st_info [Lit "📎 File '"; Val (PStr (file_name_of f));
                        Lit "' uploaded!"]
             else mret tt) ;;
            mret url
        | None => mret PNone
        end;
      let reply_text :=
        if Py.str_truthy admin_reply then admin_reply
        else shared_file_text admin_file in
      let reply_data : gmap string jarg :=
        {[ "text" := JValue (PStr reply_text);
           "role" := JValue (PStr "admin") ]} in
      let reply_data :=
        if Py.truthy attachment_url
        then <["attachment_url" := JValue attachment_url]> reply_data
        else reply_data in
      id ← lift (Py.getitem ticket "id");
      sent ← add_reply_via_api API_BASE_URL network id reply_data;
      if Py.truthy sent then
        (if Py.truthy attachment_url
         then st_success [Lit "✅ Admin reply with attachment sent!"]
         else st_success [Lit "✅ Admin reply sent!"]) ;;
        st_rerun
      else mret tt
    else st_warning [Lit "Please enter a reply or attach a file"]
  else mret tt.

(** *** [main], lines 149-219.  [page] is the page chosen in the sidebar;
    the five page functions are taken as they are.  The page configuration
    and the sidebar widgets draw no message and are not recorded. *)
Definition main (page : string) (show_dashboard create_ticket_page
    my_tickets_page search_tickets_page admin_panel : M unit) : M unit :=
  st_markdown [Lit CUSTOM_CSS] ;;
  connected ← test_api_connection API_BASE_URL network;
  if negb connected then
    st_error [Lit "⚠️ Cannot connect to API at "; Val (PStr API_BASE_URL)] ;;
    st_info [Lit "Please check if the API is running and the URL is correct."]
  else
    st_success [Lit "✅ Connected to API: "; Val (PStr API_BASE_URL)] ;;
    if String.eqb page "🏠 Dashboard" then show_dashboard
    else if String.eqb page "➕ Create Ticket" then create_ticket_page
    else if String.eqb page "👤 My Tickets" then my_tickets_page
    else if String.eqb page "🔍 Search Tickets" then search_tickets_page
    else if String.eqb page "👨‍💼 Admin Panel" then admin_panel
    else mret tt.

End MorePages.

(** *** [show_ticket_details], lines 495-577: the conversation section *)

Section TicketView.

Variable API_BASE_URL : string.
Variable network : list request → request → outcome.
Variable list_lt : list pyval → list pyval → result bool.
Variable image_loads : pyval → bool.

(** Lines 501-577 on whatever the fetch returned.  A list is rendered by
    [show_conversation].  A falsy value gives the "no messages" line.  A
    number or [True] has no [len()].  A non-empty string or dict passes the
    test and is counted; iterating it gives strings (its characters, its
    keys), [sorted] falls back since a string has no [get], and the first
    pass of the loop raises on [reply.get]. *)
Definition show_replies (replies : pyval) : M unit :=
  match replies with
  | PList l => show_conversation list_lt image_loads l
  | PStr _ | PDict _ =>
      if Py.truthy replies then
        st_success
          [Lit "� ";
           Val (PInt (Z.of_nat (match replies with
                                | PStr s => String.length s
                                | PDict d => size d
                                | _ => 0
                                end)));
           Lit " conversation messages found"] ;;
        raise AttributeError
      else
        st_info
          [Lit "💭 No conversation messages yet. Be the first to add a reply!"]
  | PNone | PBool _ | PInt _ =>
      if Py.truthy replies then raise TypeError
      else
        st_info
          [Lit "💭 No conversation messages yet. Be the first to add a reply!"]
  end.

(** Lines 495-577: fetch the replies of the ticket and show them. *)
Definition conversation_section (ticket : pyval) : M unit :=
  id ← lift (Py.getitem ticket "id");
  replies ← get_ticket_replies API_BASE_URL network id;
  st_markdown [Lit "---"] ;;
  show_replies replies.

End TicketView.

(** *** The ticket statistics, lines 234-237 and 669-671 *)

(** [len([t for t in tickets if t['status'] == status])] *)
Fixpoint count_status (status : string) (tickets : list pyval)
    : result nat :=
  match tickets with
  | [] => Ok 0%nat
  | t :: rest =>
      s ← Py.getitem t "status";
      n ← count_status status rest;
      mret (if Py.eq_str s status then S n else n)
  end.

(** The four figures shown: total, open, in progress, closed. *)
Definition ticket_counts (tickets : list pyval)
    : result (nat * nat * nat * nat) :=
  open_tickets ← count_status "Open" tickets;
  in_progress_tickets ← count_status "In Progress" tickets;
  closed_tickets ← count_status "Closed" tickets;
  mret (length tickets, open_tickets, in_progress_tickets, closed_tickets).

(** *** [my_tickets_page], line 359: the tickets of a user *)

Section MyTickets.

(** [str.lower] on any string: it follows the Unicode character database,
    which is not part of app.py. *)
Variable str_lower : string → string.

(** [[t for t in tickets
      if user_name.lower() in t.get('created_by', '').lower()]] *)
Fixpoint my_tickets_of (user_name : string) (tickets : list pyval)
    : result (list pyval) :=
  match tickets with
  | [] => Ok []
  | t :: rest =>
      created_by ← Py.get t "created_by" (PStr "");
      creator ← Py.as_str created_by;
      others ← my_tickets_of user_name rest;
      mret (if PyStr.contains (str_lower user_name) (str_lower creator)
            then t :: others else others)
  end.

End MyTickets.

(** The payload of a posted reply: text, role, and the attachment URL when
    the upload gave a truthy one. *)
Definition reply_data_of (text role : string) (attachment_url : pyval)
    : gmap string jarg :=
  let reply_data : gmap string jarg :=
    {[ "text" := JValue (PStr text); "role" := JValue (PStr role) ]} in
  if Py.truthy attachment_url
  then <["attachment_url" := JValue attachment_url]> reply_data
  else reply_data.

(** What the upload of the attached file, if any, returned. *)
Definition upload_returned (base : string)
    (net : list request → request → outcome) (id : pyval)
    (uploaded : option uploaded_file) (w : world) (url : pyval) : Prop :=
  match uploaded with
  | Some f =>
      (upload_file_via_api base net (getvalue f) (file_name_of f) id w).1
      = Ok url
  | None => url = PNone
  end.

(** The number of chat messages among some Streamlit calls, and the number
    of replies whose resolved role is one of the three. *)
Definition chat_messages (shown : list ui_event) : nat :=
  length (filter (λ e, is_chat_message e = true) shown).

Definition role_known (reply : pyval) : bool :=
  match resolve_role reply with
  | Ok role => known_role role
  | Raise _ => false
  end.

(** A reply the conversation can render: an object whose attachment field is
    absent, falsy or a string. *)
Definition renderable (reply : pyval) : Prop :=
  ∃ d : gmap string pyval, reply = PDict d ∧ attachment_well_typed d.

(** A ticket whose status can be read, and one whose status is one of the
    three the statistics count. *)
Definition has_status (t : pyval) : Prop :=
  ∃ s, Py.getitem t "status" = Ok s.

Definition tracked (t : pyval) : bool :=
  match Py.getitem t "status" with
  | Ok s =>
      Py.eq_str s "Open" || Py.eq_str s "In Progress" || Py.eq_str s "Closed"
  | Raise _ => false
  end.

(** A ticket created by someone whose name contains [user_name], letter case
    aside; a ticket without the field has the creator ''. *)
Definition creator_of (t : pyval) : option string :=
  match Py.get t "created_by" (PStr "") with
  | Ok (PStr creator) => Some creator
  | _ => None
  end.

Definition created_by_matches (str_lower : string → string)
    (user_name : string) (t : pyval) : bool :=
  match creator_of t with
  | Some creator =>
      PyStr.contains (str_lower user_name) (str_lower creator)
  | None => false
  end.

(** *** [admin_panel], lines 808-828: the "Generate AI Reply" button. *)

Section AdminAI.

Variable API_BASE_URL : string.
Variable network : list request → request → outcome.

(** [str.title] on any string: it follows the Unicode character database,
    which is not part of app.py. *)
Variable str_title : string → string.

(** Lines 817-819, the body of [for reply in replies]: the line added to
    [conversation_context]. *)
Definition context_line (reply : pyval) : result fstring :=
  role ← Py.get reply "role" (PStr "user");
  text ← Py.get reply "text" (PStr "");
  role ← Py.as_str role;
  mret [Val (PStr (str_title role)); Lit ": "; Val text; Lit nl].

Fixpoint context_lines (replies : list pyval) : result fstring :=
  match replies with
  | [] => mret []
  | reply :: rest =>
      line ← context_line reply;
      more ← context_lines rest;
      mret (line ++ more)
  end.

(** Lines 814-819 on whatever the fetch returned: what is added to
    [conversation_context].  Iterating a non-empty string or dict gives
    strings, which have no [get]; a number or [True] cannot be iterated. *)
Definition conversation_lines (replies : pyval) : result fstring :=
  if Py.truthy replies then
    match replies with
    | PList l =>
        lines ← context_lines l;
        mret (Lit ("Previous conversation:" +:+ nl) :: lines)
    | PStr _ | PDict _ => Raise AttributeError
    | PNone | PBool _ | PInt _ => Raise TypeError
    end
  else mret [].

(** [pressed] tells whether the button was pressed; the spinner draws no
    message and is not recorded. *)
Definition admin_ai_reply (ticket : pyval) (pressed : bool) : M unit :=
  if pressed then
    title ← lift (Py.getitem ticket "title");
    description ← lift (Py.getitem ticket "description");
    let conversation_context :=
      [Lit "Ticket: "; Val title; Lit (nl +:+ "Description: ");
       Val description; Lit (nl +:+ nl)] in
    id ← lift (Py.getitem ticket "id");
    replies ← get_ticket_replies API_BASE_URL network id;
    lines ← lift (conversation_lines replies);
    let conversation_context := conversation_context ++ lines in
    id ← lift (Py.getitem ticket "id");
    ai_response ←
      generate_ai_reply API_BASE_URL network id
        (Lit ("As a helpful customer service AI, provide a professional and helpful response to this ticket based on the conversation context:"
              +:+ nl +:+ nl)
         :: conversation_context)
        PNone PNone;
    if Py.truthy ai_response then
      st_success
        [Lit "🤖 AI reply automatically generated and added to the conversation!"] ;;
      st_info
        [Lit "💡 The AI analyzed the ticket content and conversation history to provide an intelligent, contextual response."] ;;
      st_rerun
    else st_error [Lit "Failed to generate AI reply. Please try again."]
  else mret tt.

End AdminAI.

(** [s.title()] on a string of ASCII characters: a letter that follows a
    letter is lowered, any other letter is raised. *)
Definition upper_char (c : ascii) : ascii :=
  let n := nat_of_ascii c in
  if (97 <=? n)%nat && (n <=? 122)%nat then ascii_of_nat (n - 32) else c.

Definition is_cased (c : ascii) : bool :=
  let n := nat_of_ascii c in
  ((65 <=? n)%nat && (n <=? 90)%nat) || ((97 <=? n)%nat && (n <=? 122)%nat).

Fixpoint title_from (previous_is_cased : bool) (s : string) : string :=
  match s with
  | EmptyString => EmptyString
  | String c s' =>
      String (if previous_is_cased then PyStr.lower_char c else upper_char c)
             (title_from (is_cased c) s')
  end.

Definition ascii_title (s : string) : string := title_from false s.

(** The prompt sent for a ticket, given the lines of its conversation. *)
Definition ai_prompt (title description : pyval) (lines : fstring)
    : fstring :=
  [Lit ("As a helpful customer service AI, provide a professional and helpful response to this ticket based on the conversation context:"
        +:+ nl +:+ nl);
   Lit "Ticket: "; Val title; Lit (nl +:+ "Description: "); Val description;
   Lit (nl +:+ nl)] ++ lines.

(** A reply the prompt can name the speaker of: an object whose role, when
    the field is present, is a string. *)
Definition has_speaker (reply : pyval) : Prop :=
  ∃ d : gmap string pyval,
    reply = PDict d ∧ ∀ v, d !! "role" = Some v → is_str v = true.

(** *** [show_dashboard], lines 268-271: the tickets listed under "Recent
    Tickets". *)

Section Recent.

Variable list_lt : list pyval → list pyval → result bool.

(** [sorted(l, key=key, reverse=True)]: the keys are computed first, in the
    order of the list; the list is reversed, sorted and reversed again, which
    keeps elements of equal keys in their order. *)
Definition py_sorted_reverse (key : pyval → result pyval) (l : list pyval)
    : result (list pyval) :=
  keyed ← with_keys key l;
  s ← sort_keyed list_lt (reverse keyed);
  mret (reverse (s.*2)).

(** [lambda x: x.get('created_at', '')] *)
Definition created_at_key (x : pyval) : result pyval :=
  Py.get x "created_at" (PStr "").

(** [sorted_tickets[:10]] *)
Definition recent_tickets (tickets : list pyval) : result (list pyval) :=
  sorted_tickets ← py_sorted_reverse created_at_key tickets;
  mret (take 10 sorted_tickets).

End Recent.

(** A ticket whose sort key is a string: an object whose created_at is a
    string, or absent. *)
Definition dated (t : pyval) : Prop :=
  ∃ s, created_at_key t = Ok (PStr s).





(** * Properties *)

(** ** The helper functions *)

Section ClientFacts.

Variable base : string.
Variable net : list request → request → outcome.

(** One request, as [send] performs it. *)
Lemma send_responds r resp w :
  net (calls w) r = Responds resp →
  send net r w = (Ok resp, after w r []).
Proof.
  intros H. unfold send, after. rewrite H, app_nil_r. reflexivity.
Qed.

Lemma send_fails r detail w :
  net (calls w) r = Fails detail →
  send net r w = (Raise (RequestException detail), after w r []).
Proof.
  intros H. unfold send, after. rewrite H, app_nil_r. reflexivity.
Qed.

(** What each helper does, by cases on what the network answers: the value
    returned, the request recorded and the Streamlit error shown. *)
Ltac run_helper :=
  unfold try_except_Exception, requests_get, requests_post, requests_patch,
    send, after, response_json, st_error, emit, raise, lift,
    mbind, M_bind, mret, M_ret;
  repeat match goal with
  | |- context [net ?c ?r] => destruct (net c r) as [?|[? [?|?]]]
  end;
  simpl; rewrite ?app_nil_r;
  repeat (case_match; simplify_eq/=; rewrite ?app_nil_r); try done.

Lemma get_all_tickets_run w :
  get_all_tickets base net w =
  let req := tickets_request base in
  match net (calls w) req with
  | Fails d =>
      (Ok (PList []),
       after w req [StError [Lit "Error connecting to API: ";
                             Exc (RequestException d)]])
  | Responds r =>
      if (status_code r =? 200)%Z then
        match content r with
        | JsonOf v => (Ok v, after w req [])
        | NotJson d =>
            (Ok (PList []),
             after w req [StError [Lit "Error connecting to API: ";
                                   Exc (JSONDecodeError d)]])
        end
      else
        (Ok (PList []),
         after w req [StError [Lit "Failed to fetch tickets: ";
                               Val (PInt (status_code r))]])
  end.
Proof. unfold get_all_tickets, tickets_request, response_json. run_helper. Qed.

Lemma create_ticket_run ticket_data w :
  create_ticket base net ticket_data w =
  let req := create_request base ticket_data in
  match net (calls w) req with
  | Fails d =>
      (Ok PNone,
       after w req [StError [Lit "Error creating ticket: ";
                             Exc (RequestException d)]])
  | Responds r =>
      if (status_code r =? 200)%Z || (status_code r =? 201)%Z then
        match content r with
        | JsonOf v => (Ok v, after w req [])
        | NotJson d =>
            (Ok PNone,
             after w req [StError [Lit "Error creating ticket: ";
                                   Exc (JSONDecodeError d)]])
        end
      else
        (Ok PNone,
         after w req [StError [Lit "Failed to create ticket: ";
                               Val (PInt (status_code r))]])
  end.
Proof. unfold create_ticket, create_request, response_json. run_helper. Qed.

Lemma get_ticket_by_id_run ticket_id w :
  get_ticket_by_id base net ticket_id w =
  let req := ticket_request base ticket_id in
  match net (calls w) req with
  | Fails d =>
      (Ok PNone,
       after w req [StError [Lit "Error fetching ticket: ";
                             Exc (RequestException d)]])
  | Responds r =>
      if (status_code r =? 200)%Z then
        match content r with
        | JsonOf v => (Ok v, after w req [])
        | NotJson d =>
            (Ok PNone,
             after w req [StError [Lit "Error fetching ticket: ";
                                   Exc (JSONDecodeError d)]])
        end
      else
        (Ok PNone,
         after w req [StError [Lit "Failed to fetch ticket: ";
                               Val (PInt (status_code r))]])
  end.
Proof.
  unfold get_ticket_by_id, ticket_request, response_json. run_helper.
Qed.

Lemma add_reply_via_api_run ticket_id reply_data w :
  add_reply_via_api base net ticket_id reply_data w =
  let req := reply_request base ticket_id reply_data in
  match net (calls w) req with
  | Fails d =>
      (Ok PNone,
       after w req [StError [Lit "Error adding reply: ";
                             Exc (RequestException d)]])
  | Responds r =>
      if (status_code r =? 200)%Z then
        match content r with
        | JsonOf v => (Ok v, after w req [])
        | NotJson d =>
            (Ok PNone,
             after w req [StError [Lit "Error adding reply: ";
                                   Exc (JSONDecodeError d)]])
        end
      else
        (Ok PNone,
         after w req [StError [Lit "Failed to add reply: ";
                               Val (PInt (status_code r))]])
  end.
Proof.
  unfold add_reply_via_api, reply_request, response_json. run_helper.
Qed.

Lemma generate_ai_reply_run ticket_id message w :
  generate_ai_reply base net ticket_id message PNone PNone w =
  let req := ai_request base ticket_id message in
  match net (calls w) req with
  | Fails d =>
      (Ok PNone,
       after w req [StError [Lit "Error generating AI reply: ";
                             Exc (RequestException d)]])
  | Responds r =>
      if (status_code r =? 200)%Z then
        match content r with
        | JsonOf v => (Ok v, after w req [])
        | NotJson d =>
            (Ok PNone,
             after w req [StError [Lit "Error generating AI reply: ";
                                   Exc (JSONDecodeError d)]])
        end
      else
        (Ok PNone,
         after w req [StError [Lit "Failed to generate AI reply: ";
                               Val (PInt (status_code r))]])
  end.
Proof.
  unfold generate_ai_reply, ai_request. cbn [Py.truthy]. cbv zeta.
  run_helper.
Qed.

Lemma send_email_via_api_run ticket_id email_data w :
  send_email_via_api base net ticket_id email_data w =
  let req := email_request base ticket_id email_data in
  match net (calls w) req with
  | Fails d =>
      (Ok (PBool false),
       after w req [StError [Lit "Error sending email: ";
                             Exc (RequestException d)]])
  | Responds r => (Ok (PBool (status_code r =? 200)%Z), after w req [])
  end.
Proof. unfold send_email_via_api, email_request. run_helper. Qed.

Lemma update_ticket_status_run ticket_id status w :
  update_ticket_status base net ticket_id status w =
  let req := status_request base ticket_id status in
  match net (calls w) req with
  | Fails d =>
      (Ok (PBool false),
       after w req [StError [Lit "Error updating ticket status: ";
                             Exc (RequestException d)]])
  | Responds r => (Ok (PBool (status_code r =? 200)%Z), after w req [])
  end.
Proof. unfold update_ticket_status, status_request. run_helper. Qed.

Lemma upload_file_via_api_run file_content filename ticket_id w :
  upload_file_via_api base net file_content filename ticket_id w =
  let req := upload_request base ticket_id
               (UploadedFile filename file_content) in
  match net (calls w) req with
  | Fails d =>
      (Ok PNone,
       after w req [StError [Lit "Error uploading file: ";
                             Exc (RequestException d)]])
  | Responds r =>
      if (status_code r =? 200)%Z then
        match content r with
        | JsonOf (PDict d) =>
            let signed := default PNone (d !! "signed_url") in
            (Ok (if Py.truthy signed then signed
                 else default PNone (d !! "attachment_url")),
             after w req [])
        | JsonOf _ =>
            (Ok PNone,
             after w req [StError [Lit "Error uploading file: ";
                                   Exc AttributeError]])
        | NotJson d =>
            (Ok PNone,
             after w req [StError [Lit "Error uploading file: ";
                                   Exc (JSONDecodeError d)]])
        end
      else
        (Ok PNone,
         after w req [StError [Lit "Failed to upload file: ";
                               Val (PInt (status_code r))]])
  end.
Proof.
  unfold upload_file_via_api, upload_request. cbn [file_name_of getvalue].
  run_helper.
Qed.

Lemma get_ticket_replies_run ticket_id w :
  get_ticket_replies base net ticket_id w =
  let req := ticket_request base ticket_id in
  match net (calls w) req with
  | Fails d =>
      (Ok (PList []),
       after w req [StError [Lit "Error fetching replies: ";
                             Exc (RequestException d)]])
  | Responds r =>
      if (status_code r =? 200)%Z then
        match content r with
        | JsonOf (PDict d) =>
            (Ok (default (PList []) (d !! "replies")), after w req [])
        | JsonOf _ =>
            (Ok (PList []),
             after w req [StError [Lit "Error fetching replies: ";
                                   Exc AttributeError]])
        | NotJson d =>
            (Ok (PList []),
             after w req [StError [Lit "Error fetching replies: ";
                                   Exc (JSONDecodeError d)]])
        end
      else (Ok (PList []), after w req [])
  end.
Proof. unfold get_ticket_replies, ticket_request. run_helper. Qed.

End ClientFacts.

(** C9.  When fetching all tickets or the replies of a ticket fails (the
    transport raises, or the response code is not 200) the helper returns the
    empty list, not [None] and not an exception: the same value it returns
    when the backend answers 200 with no tickets, or with a ticket that has
    no replies. *)
Theorem failed_fetch_returns_empty_list base net ticket_id w :
  (fetch_failed (net (calls w) (tickets_request base)) →
   (get_all_tickets base net w).1 = Ok (PList []) ∧
   ∀ net',
     net' (calls w) (tickets_request base)
       = Responds (Response 200 (JsonOf (PList []))) →
     (get_all_tickets base net' w).1 = (get_all_tickets base net w).1)
  ∧
  (fetch_failed (net (calls w) (ticket_request base ticket_id)) →
   (get_ticket_replies base net ticket_id w).1 = Ok (PList []) ∧
   ∀ net' d,
     net' (calls w) (ticket_request base ticket_id)
       = Responds (Response 200 (JsonOf (PDict d))) →
     d !! "replies" = Some (PList []) ∨ d !! "replies" = None →
     (get_ticket_replies base net' ticket_id w).1
       = (get_ticket_replies base net ticket_id w).1).
Proof.
  assert (Hall : fetch_failed (net (calls w) (tickets_request base)) →
                 (get_all_tickets base net w).1 = Ok (PList [])).
  { rewrite get_all_tickets_run. cbv zeta.
    destruct (net (calls w) (tickets_request base)) as [d|r]; simpl; [done|].
    intros Hc. apply Z.eqb_neq in Hc. by rewrite Hc. }
  assert (Hrep :
            fetch_failed (net (calls w) (ticket_request base ticket_id)) →
                 (get_ticket_replies base net ticket_id w).1 = Ok (PList [])).
  { rewrite get_ticket_replies_run. cbv zeta.
    destruct (net (calls w) (ticket_request base ticket_id)) as [d|r];
      simpl; [done|].
    intros Hc. apply Z.eqb_neq in Hc. by rewrite Hc. }
  split; intros Hf; (split; [auto|]).
  - intros net' Hn. rewrite (Hall Hf), get_all_tickets_run. cbv zeta.
    by rewrite Hn.
  - intros net' d Hn Hd. rewrite (Hrep Hf), get_ticket_replies_run. cbv zeta.
    rewrite Hn. simpl. by destruct Hd as [-> | ->].
Qed.

Lemma failed_fetch_returns_empty_list_witness :
  (get_all_tickets "http://api" (λ _ _, Fails "connection refused")
     fresh_world).1 = Ok (PList [])
  ∧ (get_ticket_replies "http://api"
       (λ _ _, Responds (Response 500 (NotJson "Internal Server Error")))
       (PInt 7) fresh_world).1 = Ok (PList []).
Proof.
  split.
  - apply (failed_fetch_returns_empty_list "http://api"
             (λ _ _, Fails "connection refused") (PInt 7) fresh_world).
    simpl. exact I.
  - apply (failed_fetch_returns_empty_list "http://api"
             (λ _ _, Responds (Response 500 (NotJson "Internal Server Error")))
             (PInt 7) fresh_world).
    simpl. lia.
Defined.



(** C7.  On a 200 response whose payload offers both a signed URL and a
    permanent URL, the upload helper returns the signed one; when the payload
    offers only one of the two, it returns that one.  A field offers a URL
    when it holds a truthy value: an absent, null or empty field offers
    none. *)
Theorem upload_prefers_signed_url base net file_content filename ticket_id w
    (d : gmap string pyval) (signed permanent : pyval) :
  net (calls w)
      (upload_request base ticket_id (UploadedFile filename file_content))
    = Responds (Response 200 (JsonOf (PDict d))) →
  let returned :=
    (upload_file_via_api base net file_content filename ticket_id w).1 in
  (offers d "signed_url" signed → offers d "attachment_url" permanent →
   returned = Ok signed)
  ∧ (offers d "signed_url" signed → offers_none d "attachment_url" →
     returned = Ok signed)
  ∧ (offers_none d "signed_url" → offers d "attachment_url" permanent →
     returned = Ok permanent).
Proof.
  intros Hnet returned. subst returned.
  rewrite upload_file_via_api_run. cbv zeta. rewrite Hnet. simpl.
  repeat split.
  - intros [-> Hs] _. simpl. by rewrite Hs.
  - intros [-> Hs] _. simpl. by rewrite Hs.
  - intros Hnone [-> _].
    destruct (d !! "signed_url") as [v|] eqn:Hv; simpl; [|done].
    by rewrite (Hnone v Hv).
Qed.

Lemma upload_prefers_signed_url_witness :
  let both : gmap string pyval :=
    {[ "signed_url" := PStr "https://cdn/f?sig=1";
       "attachment_url" := PStr "https://store/f" ]} in
  let null_signed : gmap string pyval :=
    {[ "signed_url" := PNone; "attachment_url" := PStr "https://store/f" ]} in
  let empty_signed : gmap string pyval :=
    {[ "signed_url" := PStr ""; "attachment_url" := PStr "https://store/f" ]} in
  let upload (d : gmap string pyval) :=
    (upload_file_via_api "http://api"
       (λ _ _, Responds (Response 200 (JsonOf (PDict d))))
       [] "f.txt" (PInt 7) fresh_world).1 in
  upload both = Ok (PStr "https://cdn/f?sig=1")
  ∧ upload null_signed = Ok (PStr "https://store/f")
  ∧ upload empty_signed = Ok (PStr "https://store/f").
Proof.
  intros both null_signed empty_signed upload.
  assert (Hnull : offers_none null_signed "signed_url").
  { intros v Hv. assert (Hlook : null_signed !! "signed_url" = Some PNone)
      by reflexivity. rewrite Hlook in Hv. by injection Hv as <-. }
  assert (Hempty : offers_none empty_signed "signed_url").
  { intros v Hv.
    assert (Hlook : empty_signed !! "signed_url" = Some (PStr ""))
      by reflexivity.
    rewrite Hlook in Hv. by injection Hv as <-. }
  assert (Hpermanent : ∀ d : gmap string pyval,
            d !! "attachment_url" = Some (PStr "https://store/f") →
            offers d "attachment_url" (PStr "https://store/f"))
    by (intros d Hd; by split).
  split; [|split].
  - destruct (upload_prefers_signed_url "http://api"
                (λ _ _, Responds (Response 200 (JsonOf (PDict both))))
                [] "f.txt" (PInt 7) fresh_world both
                (PStr "https://cdn/f?sig=1") (PStr "https://store/f")
                eq_refl) as (Hboth & _ & _).
    apply Hboth; [by split|by apply Hpermanent].
  - destruct (upload_prefers_signed_url "http://api"
                (λ _ _, Responds (Response 200 (JsonOf (PDict null_signed))))
                [] "f.txt" (PInt 7) fresh_world null_signed
                PNone (PStr "https://store/f") eq_refl) as (_ & _ & Honly).
    apply Honly; [done|by apply Hpermanent].
  - destruct (upload_prefers_signed_url "http://api"
                (λ _ _, Responds (Response 200 (JsonOf (PDict empty_signed))))
                [] "f.txt" (PInt 7) fresh_world empty_signed
                PNone (PStr "https://store/f") eq_refl) as (_ & _ & Honly).
    apply Honly; [done|by apply Hpermanent].
Defined.

(** ** The admin login gate *)

(** C10.  From an unauthenticated session, pressing Login leaves the session
    authenticated if and only if the username is "admin" and the password is
    "admin"; every other pair, and not pressing Login, leaves it
    unauthenticated, whatever the rest of the page would do. *)
Theorem admin_gate_iff_admin_admin (username password : string)
    (dashboard : M unit) (w : world) :
  authenticated w = false →
  (authenticated (admin_panel username password true dashboard w).2 = true
   ↔ username = "admin" ∧ password = "admin")
  ∧ authenticated (admin_panel username password false dashboard w).2 = false.
Proof.
  unfold authenticated, admin_panel, session_has, session_get, session_set,
    st_success, st_error, st_rerun, emit, raise, mbind, M_bind, mret, M_ret.
  intros Hw. simpl.
  destruct (session_state w !! "admin_authenticated") as [v|] eqn:Hv; simpl.
  - rewrite Hv. simpl. rewrite Hw. simpl. split; [|by rewrite Hv].
    destruct (String.eqb_spec username "admin") as [->|Hu]; simpl.
    + destruct (String.eqb_spec password "admin") as [->|Hp]; simpl.
      * rewrite lookup_insert_eq. simpl. tauto.
      * rewrite Hv, Hw. split; [done|]. intros [_ ?]. done.
    + rewrite Hv, Hw. split; [done|]. intros [? _]. done.
  - rewrite lookup_insert_eq. simpl. split; [|by rewrite lookup_insert_eq].
    destruct (String.eqb_spec username "admin") as [->|Hu]; simpl.
    + destruct (String.eqb_spec password "admin") as [->|Hp]; simpl.
      * rewrite lookup_insert_eq. simpl. tauto.
      * rewrite lookup_insert_eq. simpl. split; [done|]. intros [_ ?]. done.
    + rewrite lookup_insert_eq. simpl. split; [done|]. intros [? _]. done.
Qed.

Lemma admin_gate_iff_admin_admin_witness :
  authenticated (admin_panel "admin" "admin" true (mret tt)
                   fresh_world).2 = true
  ∧ authenticated (admin_panel "admin" "Admin" true (mret tt)
                     fresh_world).2 = false.
Proof.
  split.
  - apply (admin_gate_iff_admin_admin "admin" "admin" (mret tt)
             fresh_world); [reflexivity | split; reflexivity].
  - destruct (admin_gate_iff_admin_admin "admin" "Admin" (mret tt)
                fresh_world eq_refl) as [[Hto _] _].
    destruct (authenticated
                (admin_panel "admin" "Admin" true (mret tt)
                   fresh_world).2); [|reflexivity].
    destruct (Hto eq_refl) as [_ Hp]. discriminate Hp.
Defined.

(** ** The creation workflow *)

Section Workflow.

Variable base : string.
Variable net : list request → request → outcome.

Lemma create_ticket_sends_one ticket_data :
  sends_one (create_ticket base net ticket_data)
            (create_request base ticket_data).
Proof.
  intros w. rewrite create_ticket_run. cbv zeta.
  repeat case_match; eauto.
Qed.

Lemma upload_file_sends_one f ticket_id :
  sends_one (upload_file_via_api base net (getvalue f) (file_name_of f)
                                 ticket_id)
            (upload_request base ticket_id f).
Proof.
  intros w. rewrite upload_file_via_api_run. cbv zeta. destruct f as [n c].
  simpl. repeat case_match; eauto.
Qed.

Lemma generate_ai_reply_sends_one ticket_id message :
  sends_one (generate_ai_reply base net ticket_id message PNone PNone)
            (ai_request base ticket_id message).
Proof.
  intros w. rewrite generate_ai_reply_run. cbv zeta.
  repeat case_match; eauto.
Qed.

Lemma send_email_sends_one ticket_id email_data :
  sends_one (send_email_via_api base net ticket_id email_data)
            (email_request base ticket_id email_data).
Proof.
  intros w. rewrite send_email_via_api_run. cbv zeta.
  repeat case_match; eauto.
Qed.

Lemma bind_Ok {A B} (m : M A) (f : A → M B) w a w' :
  m w = (Ok a, w') → (m ≫= f) w = f a w'.
Proof. intros H. unfold mbind, M_bind. by rewrite H. Qed.

Lemma upload_one_run new_ticket id f w :
  Py.getitem new_ticket "id" = Ok id →
  ∃ shown,
    upload_one base net new_ticket f w
    = (Ok tt, after w (upload_request base id f) shown).
Proof.
  intros Hid. destruct (upload_file_sends_one f id w) as (v & shown & Hup).
  unfold upload_one. rewrite Hid.
  unfold mbind, M_bind, lift. rewrite Hup.
  destruct (Py.truthy v).
  - unfold st_info, emit, after. simpl. rewrite <- app_assoc. eauto.
  - unfold mret, M_ret. eauto.
Qed.

(** The upload loop of lines 329-332: one request per file, in order,
    whatever each upload returns. *)
Lemma upload_loop_run new_ticket id files w :
  Py.getitem new_ticket "id" = Ok id →
  ∃ shown,
    for_each files (upload_one base net new_ticket) w
    = (Ok tt, World (calls w ++ (upload_request base id <$> files))
                    (ui w ++ shown) (session_state w)).
Proof.
  intros Hid. revert w. induction files as [|f files IH]; intros w.
  - exists []. simpl. rewrite !app_nil_r. by destruct w.
  - destruct (upload_one_run new_ticket id f w Hid) as (shown & Hup).
    cbn [for_each]. rewrite (bind_Ok _ _ _ _ _ Hup).
    destruct (IH (after w (upload_request base id f) shown)) as [shown' ->].
    exists (shown ++ shown'). unfold after. simpl.
    by rewrite <- !app_assoc.
Qed.

Lemma truthy_dict_with (d : gmap string pyval) k v :
  d !! k = Some v → Py.truthy (PDict d) = true.
Proof.
  intros Hk. simpl. apply negb_true_iff, Nat.eqb_neq.
  intros Hsize. apply map_size_empty_iff in Hsize. by subst.
Qed.

(** The uploads, whether the list of files is empty or not. *)
Lemma uploads_run new_ticket id files w :
  Py.getitem new_ticket "id" = Ok id →
  ∃ shown,
    (if negb (Nat.eqb (length files) 0)
     then for_each files (upload_one base net new_ticket)
     else mret tt) w
    = (Ok tt, World (calls w ++ (upload_request base id <$> files))
                    (ui w ++ shown) (session_state w)).
Proof.
  intros Hid. destruct files as [|f files].
  - exists []. simpl. rewrite !app_nil_r. by destruct w.
  - apply (upload_loop_run _ _ _ _ Hid).
Qed.

(** Rules for [does]. *)
Lemma does_ret {A} (a : A) (post : A → Prop) :
  post a → does (mret a) [] post.
Proof.
  intros Hp w. exists a, []. rewrite !app_nil_r. by destruct w.
Qed.

Lemma does_lift {A} (r : result A) (a : A) (post : A → Prop) :
  r = Ok a → post a → does (lift r) [] post.
Proof.
  intros -> Hp w. exists a, []. rewrite !app_nil_r. by destruct w.
Qed.

Lemma does_emit (e : ui_event) : does (emit e) [] (λ _, True).
Proof.
  intros w. exists tt, [e]. by rewrite app_nil_r.
Qed.

Lemma does_bind {A B} (m : M A) (f : A → M B) r1 r2 P Q :
  does m r1 P → (∀ a, P a → does (f a) r2 Q) →
  does (m ≫= f) (r1 ++ r2) Q.
Proof.
  intros Hm Hf w. destruct (Hm w) as (a & shown1 & Hrun & Ha).
  destruct (Hf a Ha (World (calls w ++ r1) (ui w ++ shown1)
                           (session_state w)))
    as (b & shown2 & Hrun' & Hb).
  exists b, (shown1 ++ shown2). split; [|done].
  rewrite (bind_Ok _ _ _ _ _ Hrun), Hrun'. simpl. by rewrite !app_assoc.
Qed.

Lemma does_sends_one (op : M pyval) req :
  sends_one op req → does op [req] (λ _, True).
Proof.
  intros Hop w. destruct (Hop w) as (v & shown & Hrun). by exists v, shown.
Qed.

Lemma does_uploads new_ticket id files :
  Py.getitem new_ticket "id" = Ok id →
  does (if negb (Nat.eqb (length files) 0)
        then for_each files (upload_one base net new_ticket)
        else mret tt)
       (upload_request base id <$> files) (λ _, True).
Proof.
  intros Hid w. destruct (uploads_run new_ticket id files w Hid) as [shown H].
  by exists tt, shown.
Qed.

(** The part of the page after the success message (lines 327-349). *)
Lemma follow_up_run new_ticket id title description email files :
  Py.getitem new_ticket "id" = Ok id →
  does
    ((if negb (Nat.eqb (length files) 0)
      then for_each files (upload_one base net new_ticket)
      else mret tt) ;;
     id ← lift (Py.getitem new_ticket "id");
     ai_response ← generate_ai_reply base net id
                     [Lit "New ticket: "; Val (PStr title);
                      Lit (nl +:+ nl); Val (PStr description)]
                     PNone PNone;
     (if Py.truthy ai_response
      then st_info [Lit "🤖 AI assistant has reviewed your ticket!"]
      else mret tt) ;;
     st_balloons ;;
     if Py.str_truthy email then
       id1 ← lift (Py.getitem new_ticket "id");
       id2 ← lift (Py.getitem new_ticket "id");
       let email_data : gmap string jarg :=
         {[ "to_email" := JValue (PStr email);
            "subject" := JText [Lit "Ticket #"; Val id1;
                                Lit " Created Successfully"];
            "message" := JText [Lit "Your ticket '"; Val (PStr title);
                                Lit "' has been created and assigned ID #";
                                Val id2;
                                Lit ". We'll get back to you soon!"] ]} in
       id ← lift (Py.getitem new_ticket "id");
       sent ← send_email_via_api base net id email_data;
       if Py.truthy sent then st_info [Lit "📧 Confirmation email sent!"]
       else mret tt
     else mret tt)
    (follow_up_requests base id title description email files)
    (λ _, True).
Proof.
  intros Hid. unfold follow_up_requests.
  eapply does_bind; [by apply does_uploads|]. intros _ _.
  replace ([ai_request base id (ai_message title description)] ++
           (if Py.str_truthy email
            then [email_request base id (email_data_of email title id)]
            else []))
    with ([] ++ [ai_request base id (ai_message title description)] ++ [] ++
          [] ++ (if Py.str_truthy email
                 then [] ++ [] ++ [] ++
                      [email_request base id (email_data_of email title id)]
                      ++ []
                 else [])) by (by destruct (Py.str_truthy email)).
  eapply does_bind; [by apply (does_lift _ id (λ a, a = id))|].
  intros ? ->.
  eapply does_bind;
    [apply does_sends_one, generate_ai_reply_sends_one|].
  intros ai _.
  eapply does_bind.
  { instantiate (1 := λ _, True).
    destruct (Py.truthy ai); [apply does_emit | by apply does_ret]. }
  intros _ _.
  eapply does_bind; [apply does_emit|]. intros _ _.
  destruct (Py.str_truthy email); [|by apply does_ret].
  eapply does_bind; [by apply (does_lift _ id (λ a, a = id))|].
  intros ? ->.
  eapply does_bind; [by apply (does_lift _ id (λ a, a = id))|].
  intros ? ->. cbv zeta.
  eapply does_bind; [by apply (does_lift _ id (λ a, a = id))|].
  intros ? ->.
  eapply does_bind; [apply does_sends_one, send_email_sends_one|].
  intros sent _.
  destruct (Py.truthy sent); [apply does_emit | by apply does_ret].
Qed.

End Workflow.

(** C2.  Once the required fields are filled in and the form is submitted:
    if the create step returns no ticket, the create request is the only
    request the page sends (no upload, no AI reply, no email); if it returns a
    ticket with an id, the page then sends one upload per file, in order, the
    AI-reply request and, when an address was given, the email request,
    whatever the network answers to any of them (so whichever uploads fail),
    it does not raise, and the success message for the created ticket is
    shown. *)
Theorem creation_workflow base net (title category created_by priority email
    description : string) (files : list uploaded_file) (w : world) :
  forallb Py.str_truthy [title; category; description; created_by] = true →
  let ticket_data := ticket_data_of title description category in
  let run := create_ticket_page base net title category created_by priority
               email description files true w in
  ((create_ticket base net ticket_data w).1 = Ok PNone →
   run.1 = Ok tt
   ∧ calls run.2 = calls w ++ [create_request base ticket_data])
  ∧ (∀ d id,
       (create_ticket base net ticket_data w).1 = Ok (PDict d) →
       d !! "id" = Some id →
       run.1 = Ok tt
       ∧ calls run.2
         = calls w ++ [create_request base ticket_data]
           ++ follow_up_requests base id title description email files
       ∧ ticket_created id ∈ ui run.2).
Proof.
  intros Hvalid ticket_data run.
  destruct (create_ticket_sends_one base net ticket_data w)
    as (v & shown & Hc).
  assert (Hpage : run =
            (new_ticket ← create_ticket base net ticket_data;
             if Py.truthy new_ticket then
               id ← lift (Py.getitem new_ticket "id");
               st_success [Lit "✅ Ticket #"; Val id;
                           Lit " created successfully!"] ;;
               (if negb (Nat.eqb (length files) 0)
                then for_each files (upload_one base net new_ticket)
                else mret tt) ;;
               id ← lift (Py.getitem new_ticket "id");
               ai_response ← generate_ai_reply base net id
                               [Lit "New ticket: "; Val (PStr title);
                                Lit (nl +:+ nl); Val (PStr description)]
                               PNone PNone;
               (if Py.truthy ai_response
                then st_info [Lit "🤖 AI assistant has reviewed your ticket!"]
                else mret tt) ;;
               st_balloons ;;
               if Py.str_truthy email then
                 id1 ← lift (Py.getitem new_ticket "id");
                 id2 ← lift (Py.getitem new_ticket "id");
                 let email_data : gmap string jarg :=
                   {[ "to_email" := JValue (PStr email);
                      "subject" := JText [Lit "Ticket #"; Val id1;
                                          Lit " Created Successfully"];
                      "message" :=
                        JText [Lit "Your ticket '"; Val (PStr title);
                               Lit "' has been created and assigned ID #";
                               Val id2;
                               Lit ". We'll get back to you soon!"] ]} in
                 id ← lift (Py.getitem new_ticket "id");
                 sent ← send_email_via_api base net id email_data;
                 if Py.truthy sent
                 then st_info [Lit "📧 Confirmation email sent!"]
                 else mret tt
               else mret tt
             else mret tt) w).
  { subst run. unfold create_ticket_page. by rewrite Hvalid. }
  rewrite Hpage, (bind_Ok _ _ _ _ _ Hc), Hc. clear Hpage. cbn [fst].
  split.
  - intros [= ->]. cbn [Py.truthy]. by unfold mret, M_ret, after.
  - intros d id [= ->] Hid.
    rewrite (truthy_dict_with d "id" id Hid).
    assert (Hget : Py.getitem (PDict d) "id" = Ok id)
      by (simpl; by rewrite Hid).
    assert (Hl : ∀ w', lift (Py.getitem (PDict d) "id") w' = (Ok id, w'))
      by (intros w'; unfold lift; by rewrite Hget).
    rewrite (bind_Ok _ _ _ _ _ (Hl _)).
    unfold st_success. rewrite (bind_Ok (emit _) _ _ tt _ eq_refl).
    match goal with
    | |- context [ _ (World ?c ?u ?s) ] =>
        destruct (follow_up_run base net (PDict d) id title description email
                    files Hget (World c u s))
          as ([] & shown' & Hrun & _)
    end.
    cbv zeta in Hrun. cbv zeta. rewrite Hrun.
    cbn [fst snd calls ui after session_state].
    split; [done|]. split; [by rewrite <- app_assoc|].
    fold (ticket_created id). set_solver.
Qed.

Lemma creation_workflow_witness :
  let net : list request → request → outcome := λ _ r,
    match req_body_of r with
    | FilesBody _ _ => Responds (Response 500 (NotJson "upload failed"))
    | _ => Responds (Response 201
                       (JsonOf (PDict {[ "id" := PInt 7 ]})))
    end in
  let photo := UploadedFile "photo.png" [] in
  calls (create_ticket_page "http://api" net "Printer" "Technical" "Ana"
           "Low" "ana@example.org" "It is on fire" [photo] true
           fresh_world).2
  = [create_request "http://api"
       (ticket_data_of "Printer" "It is on fire" "Technical");
     upload_request "http://api" (PInt 7) photo;
     ai_request "http://api" (PInt 7) (ai_message "Printer" "It is on fire");
     email_request "http://api" (PInt 7)
       (email_data_of "ana@example.org" "Printer" (PInt 7))].
Proof.
  intros net photo.
  destruct (creation_workflow "http://api" net "Printer" "Technical" "Ana"
              "Low" "ana@example.org" "It is on fire" [photo] fresh_world
              eq_refl) as [_ Hok].
  destruct (Hok {[ "id" := PInt 7 ]} (PInt 7) eq_refl eq_refl)
    as (_ & Hcalls & _).
  exact Hcalls.
Defined.

(** ** The reply normalizer: fields *)

Lemma get_or_dict (d : gmap string pyval) a b dflt :
  get_or (PDict d) a b dflt
  = Ok (if Py.truthy (default PNone (d !! a)) then default PNone (d !! a)
        else default dflt (d !! b)).
Proof.
  unfold get_or. simpl. by destruct (Py.truthy (default PNone (d !! a))).
Qed.

Lemma get_or_first_truthy a b dflt :
  resolves_first_truthy (λ reply, get_or reply a b dflt) a b dflt.
Proof.
  intros d. rewrite get_or_dict. split.
  - intros v Hv Ht. rewrite Hv. simpl. by rewrite Ht.
  - intros Hfalsy. destruct (d !! a) as [v|] eqn:Hv; simpl; [|done].
    by rewrite (Hfalsy v eq_refl).
Qed.

(** C5, as stated, fails: a [role] field that is present but empty loses to
    [reply_type], and an empty [text] loses to [content]; truthiness, not
    presence, decides. *)
Lemma presence_does_not_decide :
  ¬ (∀ d : gmap string pyval,
       resolve_role (PDict d)
       = Ok (first_present d "role" "reply_type" (PStr "user")))
  ∧ ¬ (∀ d : gmap string pyval,
         resolve_text (PDict d)
         = Ok (first_present d "text" "content" (PStr ""))).
Proof.
  split; intros H.
  - specialize (H {[ "role" := PStr ""; "reply_type" := PStr "admin" ]}).
    vm_compute in H. discriminate H.
  - specialize (H {[ "text" := PStr ""; "content" := PStr "hi" ]}).
    vm_compute in H. discriminate H.
Qed.

(** C5, amended.  For every raw reply record the fields are resolved by
    first-truthy-wins: the role is the [role] field when it is present with a
    truthy value, else the [reply_type] field when present (whatever its
    value), else ["user"]; the text is [text], else [content], else the empty
    string; the timestamp is [created_at], else [timestamp], else the empty
    string, which stands for an absent timestamp. *)
Theorem fields_resolve_first_truthy :
  resolves_first_truthy resolve_role "role" "reply_type" (PStr "user")
  ∧ resolves_first_truthy resolve_text "text" "content" (PStr "")
  ∧ resolves_first_truthy resolve_timestamp "created_at" "timestamp"
                          (PStr "").
Proof. repeat split; apply get_or_first_truthy. Qed.

Lemma fields_resolve_first_truthy_witness :
  resolve_role (PDict {[ "reply_type" := PStr "admin";
                         "content" := PStr "hi" ]}) = Ok (PStr "admin")
  ∧ resolve_text (PDict {[ "role" := PStr "user"; "text" := PStr "hey" ]})
    = Ok (PStr "hey").
Proof.
  destruct fields_resolve_first_truthy as (Hrole & Htext & _).
  unfold resolves_first_truthy in Hrole, Htext.
  split.
  - destruct (Hrole {[ "reply_type" := PStr "admin";
                       "content" := PStr "hi" ]}) as [_ Habsent].
    rewrite Habsent; [reflexivity|].
    intros v Hv. vm_compute in Hv. discriminate Hv.
  - destruct (Htext {[ "role" := PStr "user"; "text" := PStr "hey" ]})
      as [Hpresent _].
    apply Hpresent; reflexivity.
Defined.

(** The records of the specification's example. *)
Example normalize_admin_content :
  let reply := PDict {[ "reply_type" := PStr "admin"; "content" := PStr "hi" ]}
  in resolve_role reply = Ok (PStr "admin")
     ∧ resolve_text reply = Ok (PStr "hi").
Proof. split; reflexivity. Qed.

Example normalize_user_text :
  let reply := PDict {[ "role" := PStr "user"; "text" := PStr "hey" ]}
  in resolve_role reply = Ok (PStr "user")
     ∧ resolve_text reply = Ok (PStr "hey").
Proof. split; reflexivity. Qed.

(** ** Rendering a reply of unknown role *)

Section Rendering.

Variable image_loads : pyval → bool.

Lemma unknown_role_tests role :
  known_role role = false →
  Py.eq_str role "user" = false ∧ Py.eq_str role "ai" = false
  ∧ Py.eq_str role "admin" = false.
Proof.
  unfold known_role. intros H.
  apply orb_false_iff in H as [H Hadmin].
  by apply orb_false_iff in H as [Huser Hai].
Qed.

Ltac run_page :=
  unfold try_except, st_image, st_markdown, emit, raise, lift,
    mbind, M_bind, mret, M_ret; simpl.

Ltac no_chat_message :=
  repeat (first [apply Forall_nil_2 | apply Forall_cons_2]);
  vm_compute; reflexivity.

(** The attachment of a reply, when the field is absent, falsy or a string:
    the display returns and draws no chat message. *)
Lemma render_reply_attachment_run (d : gmap string pyval) i w :
  attachment_well_typed d →
  ∃ i' shown,
    render_reply_attachment image_loads (PDict d) i w
    = (Ok i', World (calls w) (ui w ++ shown) (session_state w))
    ∧ Forall (λ e, is_chat_message e = false) shown.
Proof.
  unfold attachment_well_typed, render_reply_attachment,
    Attachment.attachment_kind.
  destruct (d !! "attachment_url") as [v|] eqn:Hv; run_page; rewrite Hv; simpl.
  - intros [Hfalsy | [url ->]].
    + rewrite Hfalsy. exists i, []. rewrite app_nil_r.
      split; [by destruct w | constructor].
    + destruct (Py.truthy (PStr url)) eqn:Ht.
      * repeat case_match; simplify_eq/=;
          eexists _, _; rewrite <- ?app_assoc; (split; [reflexivity|]);
          no_chat_message.
      * exists i, []. rewrite app_nil_r. split; [by destruct w | constructor].
  - intros _. exists i, []. rewrite app_nil_r.
    split; [by destruct w | constructor].
Qed.

Lemma render_role_message_unknown role time_str text :
  known_role role = false → render_role_message role time_str text = mret tt.
Proof.
  intros (Hu & Hai & Had)%unknown_role_tests. unfold render_role_message.
  by rewrite Hu, Hai, Had.
Qed.

Lemma admin_role_message_unknown role text :
  known_role role = false → admin_role_message role text = mret tt.
Proof.
  intros (Hu & Hai & Had)%unknown_role_tests. unfold admin_role_message.
  by rewrite Hu, Hai, Had.
Qed.

Lemma render_reply_unknown (d : gmap string pyval) role n i w :
  resolve_role (PDict d) = Ok role → known_role role = false →
  attachment_well_typed d →
  ∃ shown,
    render_reply image_loads n i (PDict d) w
    = (Ok tt, World (calls w) (ui w ++ shown) (session_state w))
    ∧ Forall (λ e, is_chat_message e = false) shown.
Proof.
  intros Hrole Hunknown Hatt. unfold render_reply.
  rewrite Hrole. unfold resolve_text, resolve_timestamp.
  rewrite !get_or_dict.
  rewrite (bind_Ok _ _ w role w eq_refl).
  rewrite (bind_Ok (lift (Ok _)) _ w _ w eq_refl).
  rewrite (bind_Ok (lift (Ok _)) _ w _ w eq_refl).
  cbv zeta. rewrite (render_role_message_unknown _ _ _ Hunknown).
  rewrite (bind_Ok (mret tt) _ w tt w eq_refl).
  destruct (render_reply_attachment_run d i w Hatt)
    as (i' & shown & Hrun & Hshown).
  rewrite (bind_Ok _ _ _ _ _ Hrun).
  destruct (Z.of_nat i' <? Z.of_nat n - 1)%Z.
  - exists (shown ++ [StMarkdown [Lit "<br>"]]). split.
    + unfold st_markdown, emit. simpl. by rewrite <- app_assoc.
    + apply Forall_app. split; [done|]. no_chat_message.
  - exists shown. by split.
Qed.

Lemma admin_render_reply_unknown (d : gmap string pyval) role w :
  resolve_role (PDict d) = Ok role → known_role role = false →
  attachment_well_typed d →
  ∃ shown,
    admin_render_reply image_loads (PDict d) w
    = (Ok tt, World (calls w) (ui w ++ shown) (session_state w))
    ∧ Forall (λ e, is_chat_message e = false) shown.
Proof.
  intros Hrole Hunknown Hatt. unfold admin_render_reply.
  rewrite Hrole. unfold resolve_text. rewrite !get_or_dict.
  rewrite (bind_Ok _ _ w role w eq_refl).
  rewrite (bind_Ok (lift (Ok _)) _ w _ w eq_refl).
  rewrite (admin_role_message_unknown _ _ Hunknown).
  rewrite (bind_Ok (mret tt) _ w tt w eq_refl).
  unfold attachment_well_typed in Hatt. unfold Attachment.attachment_kind.
  destruct (d !! "attachment_url") as [v|] eqn:Hv; run_page; rewrite Hv; simpl.
  - destruct Hatt as [Hfalsy | [url ->]].
    + rewrite Hfalsy. exists []. rewrite app_nil_r.
      split; [by destruct w | constructor].
    + destruct (Py.truthy (PStr url)) eqn:Ht.
      * repeat case_match; simplify_eq/=;
          eexists; rewrite <- ?app_assoc; (split; [reflexivity|]);
          no_chat_message.
      * exists []. rewrite app_nil_r. split; [by destruct w | constructor].
  - exists []. rewrite app_nil_r. split; [by destruct w | constructor].
Qed.

End Rendering.

(** X25.  For a reply whose resolved role is none of "user", "ai" and
    "admin", the branches on the role, in the ticket view and in the admin
    view, do nothing: they draw no message and raise nothing.  Rendering the
    whole reply then returns normally and draws no chat message, provided the
    reply's attachment field is absent, falsy or a string. *)
Theorem unknown_role_is_skipped (image_loads : pyval → bool) (role : pyval) :
  known_role role = false →
  (∀ time_str text, render_role_message role time_str text = mret tt)
  ∧ (∀ text, admin_role_message role text = mret tt)
  ∧ (∀ (d : gmap string pyval) n i w,
       resolve_role (PDict d) = Ok role → attachment_well_typed d →
       ∃ shown,
         render_reply image_loads n i (PDict d) w
         = (Ok tt, World (calls w) (ui w ++ shown) (session_state w))
         ∧ Forall (λ e, is_chat_message e = false) shown)
  ∧ (∀ (d : gmap string pyval) w,
       resolve_role (PDict d) = Ok role → attachment_well_typed d →
       ∃ shown,
         admin_render_reply image_loads (PDict d) w
         = (Ok tt, World (calls w) (ui w ++ shown) (session_state w))
         ∧ Forall (λ e, is_chat_message e = false) shown).
Proof.
  intros Hunknown. repeat split.
  - intros. by apply render_role_message_unknown.
  - intros. by apply admin_role_message_unknown.
  - intros. by eapply render_reply_unknown.
  - intros. by eapply admin_render_reply_unknown.
Qed.

Lemma unknown_role_is_skipped_witness :
  render_role_message (PStr "system") [] (PStr "maintenance at noon")
    fresh_world
  = (Ok tt, fresh_world)
  ∧ (render_reply (λ _, true) 1 0
       (PDict {[ "role" := PStr "system";
                 "text" := PStr "maintenance at noon" ]})
       fresh_world).1 = Ok tt.
Proof.
  destruct (unknown_role_is_skipped (λ _, true) (PStr "system") eq_refl)
    as (Hticket & _ & Hreply & _).
  split.
  - by rewrite Hticket.
  - pose (d := ({[ "role" := PStr "system";
                   "text" := PStr "maintenance at noon" ]}
                : gmap string pyval)).
    assert (Hrole : resolve_role (PDict d) = Ok (PStr "system"))
      by (vm_compute; reflexivity).
    assert (Hatt : attachment_well_typed d) by (vm_compute; exact I).
    destruct (Hreply d 1%nat 0%nat fresh_world Hrole Hatt)
      as (shown & Hrun & _).
    unfold d in Hrun. rewrite Hrun. reflexivity.
Defined.

(** C6.  A reply whose resolved role is "system" and whose attachment is the
    number 5.  The branches on the role do nothing, but the reply is not
    rendered: the file name falls back to "attachment" inside the [try], and
    the classification that follows, outside it as for the ticket's own
    attachment, raises in the ticket view and in the admin view. *)
Theorem unknown_role_reply_raises (image_loads : pyval → bool) :
  let reply : gmap string pyval :=
    {[ "role" := PStr "system"; "text" := PStr "maintenance at noon";
       "attachment_url" := PInt 5 ]} in
  resolve_role (PDict reply) = Ok (PStr "system")
  ∧ known_role (PStr "system") = false
  ∧ (Attachment.reply_file_name (PInt 5) 0).1 = "attachment"
  ∧ (render_reply image_loads 1 0 (PDict reply) fresh_world).1
    = Raise AttributeError
  ∧ (admin_render_reply image_loads (PDict reply) fresh_world).1
    = Raise AttributeError.
Proof. intros reply. repeat split; vm_compute; reflexivity. Qed.

(** ** Attachment file names *)

Lemma split_without_sep (c : ascii) (s : string) :
  PyStr.contains (String c EmptyString) s = false → PyStr.split c s = [s].
Proof.
  induction s as [|a s IH]; [done|]. cbn [PyStr.contains PyStr.split].
  intros [Hhead Htail]%orb_false_iff. cbn in Hhead.
  destruct (Ascii.eqb_spec c a) as [->|Hne].
  - destruct (ascii_dec a a); [by destruct s | done].
  - rewrite (IH Htail).
    destruct (Ascii.eqb_spec a c) as [->|_]; [done|reflexivity].
Qed.

Lemma three_parts_have_sep (s : string) :
  3 ≤ length (PyStr.split "_" s) → PyStr.contains "_" s = true.
Proof.
  intros Hlen. destruct (PyStr.contains "_" s) eqn:Hc; [done|].
  rewrite (split_without_sep "_" s Hc) in Hlen. simpl in Hlen. lia.
Qed.

Lemma first_ext_index_found pre p post :
  Forall (λ q, Attachment.has_file_ext q = false) pre →
  Attachment.has_file_ext p = true →
  Attachment.first_ext_index (pre ++ p :: post) = Some (length pre).
Proof.
  intros Hpre Hp. induction Hpre as [|q pre Hq _ IH]; simpl.
  - by rewrite Hp.
  - by rewrite Hq, IH.
Qed.

Lemma first_ext_index_none parts :
  Forall (λ q, Attachment.has_file_ext q = false) parts →
  Attachment.first_ext_index parts = None.
Proof.
  induction 1 as [|q parts Hq _ IH]; simpl; [done|]. by rewrite Hq, IH.
Qed.

Lemma last_nonempty (q : string) (l : list string) (d1 d2 : string) :
  List.last (q :: l) d1 = List.last (q :: l) d2.
Proof.
  revert q. induction l as [|x l IH]; intros q; [done|].
  change (List.last (x :: l) d1 = List.last (x :: l) d2). apply IH.
Qed.

Lemma recovers_extract url :
  recovers url (Attachment.extract url 0).1.
Proof.
  split; [intros i0|]; unfold Attachment.reply_file_name,
    Attachment.ticket_file_name, Attachment.extract,
    Attachment.name_of_path_part; simpl.
  - by case_match.
  - by destruct (PyStr.startswith "http" url).
Qed.

(** C3, as stated, fails: [zip] is not among the extensions the scan
    recognizes and an extension counts only with its dot, so for
    ["https://x/a_b.zip_c"] the code falls back to the last part ["c"] where
    the statement gives ["b.zip_c"]. *)
Lemma scan_ignores_zip :
  ¬ (∀ url : string,
       3 ≤ length (PyStr.split "_" (Attachment.path_part_of url)) →
       Attachment.ticket_file_name (PStr url)
       = claimed_name (PyStr.split "_" (Attachment.path_part_of url))).
Proof.
  intros H. specialize (H "https://x/a_b.zip_c").
  vm_compute in H. specialize (H ltac:(repeat constructor)).
  discriminate H.
Qed.

(** C3, amended.  For every URL whose final path segment (after stripping
    from the first '?') splits on '_' into at least 3 parts, the recovered file
    name is built from the first part, scanning left to right, that contains a
    '.' and whose lowercase form contains one of the dotted extensions .png,
    .jpg, .jpeg, .gif, .webp, .bmp, .svg, .pdf, .txt, .doc, .xlsx (so docx
    counts through .doc, and zip does not count): that part and the ones after
    it joined with '_'; when no part passes the test it is the last part.
    Then "%20" and "%2B" are replaced.  The ticket view does this only for a
    URL that starts with "http" and gives "attachment" otherwise. *)
Theorem file_name_from_parts (url : string) :
  let parts := PyStr.split "_" (Attachment.path_part_of url) in
  3 ≤ length parts →
  (∀ pre p post,
     parts = pre ++ p :: post →
     Forall (λ q, Attachment.has_file_ext q = false) pre →
     Attachment.has_file_ext p = true →
     recovers url (Attachment.clean (PyStr.join "_" (p :: post))))
  ∧ (Forall (λ q, Attachment.has_file_ext q = false) parts →
     recovers url (Attachment.clean (List.last parts EmptyString))).
Proof.
  intros parts Hlen.
  assert (Hname : (Attachment.extract url 0).1
                  = Attachment.clean (Attachment.name_from_parts parts).1).
  { unfold Attachment.extract, Attachment.name_of_path_part. fold parts.
    rewrite (three_parts_have_sep _ Hlen).
    by rewrite (proj2 (Nat.leb_le 3 (length parts)) Hlen). }
  pose proof (recovers_extract url) as Hrec. rewrite Hname in Hrec.
  unfold Attachment.name_from_parts in Hrec.
  split.
  - intros pre p post Hparts Hpre Hp.
    rewrite Hparts, (first_ext_index_found pre p post Hpre Hp) in Hrec.
    by rewrite drop_app_length in Hrec.
  - intros Hnone. rewrite (first_ext_index_none parts Hnone) in Hrec.
    unfold PyStr.last_or in Hrec. cbn [fst] in Hrec.
    destruct parts as [|q parts']; [simpl in Hlen; lia|].
    by rewrite (last_nonempty q parts' "attachment" EmptyString) in Hrec.
Qed.

Lemma file_name_from_parts_witness :
  Attachment.ticket_file_name
    (PStr "https://x/y/api_2025-09-04T14:30:50.602985+00:00_test.txt?sig=abc")
  = "test.txt".
Proof.
  destruct (file_name_from_parts
              "https://x/y/api_2025-09-04T14:30:50.602985+00:00_test.txt?sig=abc")
    as [Hfound _].
  - vm_compute. repeat constructor.
  - destruct (Hfound ["api"; "2025-09-04T14:30:50.602985+00:00"] "test.txt" [])
      as [_ Hticket].
    + reflexivity.
    + repeat constructor.
    + reflexivity.
    + exact Hticket.
Defined.

(** The resolver on the URLs of the specification's examples. *)
Example resolve_timestamped_name :
  let url :=
    PStr "https://x/y/api_2025-09-04T14:30:50.602985+00:00_test.txt?sig=abc" in
  Attachment.ticket_file_name url = "test.txt"
  ∧ Attachment.attachment_kind Attachment.IMAGE_EXTS url
    = Ok Attachment.document.
Proof. split; reflexivity. Qed.

Example resolve_photo :
  Attachment.ticket_file_name (PStr "https://x/photo.png") = "photo.png"
  ∧ Attachment.attachment_kind Attachment.IMAGE_EXTS
      (PStr "https://x/photo.png") = Ok Attachment.image.
Proof. split; reflexivity. Qed.

Example resolve_percent_20 :
  Attachment.ticket_file_name (PStr "https://x/a%20b_report.pdf")
  = "a b_report.pdf".
Proof. reflexivity. Qed.

Example resolve_empty :
  Attachment.ticket_file_name (PStr "") = "attachment"
  ∧ Attachment.attachment_kind Attachment.IMAGE_EXTS (PStr "")
    = Ok Attachment.document.
Proof. split; reflexivity. Qed.

(** C8.  On the empty URL the resolver gives "attachment" and a document.
    On an input that is not a string the file name falls back to "attachment",
    but the classification that follows is outside the [try]: it raises, and
    the ticket view raises with it. *)
Theorem non_string_attachment_raises (image_loads : pyval → bool) :
  Attachment.ticket_file_name (PInt 5) = "attachment"
  ∧ Attachment.attachment_kind Attachment.IMAGE_EXTS (PInt 5)
    = Raise AttributeError
  ∧ (show_ticket_attachment image_loads
       (PDict {[ "attachment_url" := PInt 5 ]}) fresh_world).1
    = Raise AttributeError.
Proof. repeat split; reflexivity. Qed.

(** The same for every truthy value that is not a string. *)
Lemma non_string_attachment_always_raises (image_loads : pyval → bool)
    (d : gmap string pyval) (v : pyval) (w : world) :
  d !! "attachment_url" = Some v → Py.truthy v = true →
  (∀ url, v ≠ PStr url) →
  Attachment.ticket_file_name v = "attachment"
  ∧ (show_ticket_attachment image_loads (PDict d) w).1 = Raise AttributeError.
Proof.
  intros Hv Ht Hns. unfold show_ticket_attachment,
    Attachment.ticket_file_name, Attachment.attachment_kind.
  unfold st_markdown, emit, lift, mbind, M_bind, mret, M_ret. simpl.
  rewrite Hv. simpl. rewrite Ht.
  destruct v; try done. by destruct (Hns s).
Qed.

(** ** The reply normalizer: order *)

(** The order of strings. *)
Lemma ascii_compare_refl (a : ascii) : Ascii.compare a a = Eq.
Proof. apply N.compare_refl. Qed.

Lemma ascii_compare_trans (a b c : ascii) :
  Ascii.compare a b = Lt → Ascii.compare b c = Lt → Ascii.compare a c = Lt.
Proof.
  unfold Ascii.compare. rewrite !N.compare_lt_iff. apply N.lt_trans.
Qed.

Lemma compare_refl (s : string) : String.compare s s = Eq.
Proof.
  induction s as [|a s IH]; [done|]. simpl. by rewrite ascii_compare_refl.
Qed.

Lemma compare_trans (s t u : string) :
  String.compare s t = Lt → String.compare t u = Lt →
  String.compare s u = Lt.
Proof.
  revert t u. induction s as [|a s IH]; intros [|b t] [|c u]; simpl; try done.
  destruct (Ascii.compare a b) eqn:Hab; [|clear IH|done].
  - apply Ascii.compare_eq_iff in Hab as ->.
    destruct (Ascii.compare b c) eqn:Hbc; [apply IH|done|done].
  - intros _. destruct (Ascii.compare b c) eqn:Hbc; [| |done].
    + apply Ascii.compare_eq_iff in Hbc as <-. by rewrite Hab.
    + by rewrite (ascii_compare_trans a b c Hab Hbc).
Qed.

Lemma ltb_leb (s t : string) : PyStr.ltb s t = true → PyStr.leb s t = true.
Proof.
  unfold PyStr.ltb, PyStr.leb, String.ltb, String.leb.
  by destruct (String.compare s t).
Qed.

Lemma not_ltb_leb (s t : string) :
  PyStr.ltb s t = false → PyStr.leb t s = true.
Proof.
  unfold PyStr.ltb, PyStr.leb, String.ltb, String.leb.
  rewrite (String.compare_antisym t s).
  by destruct (String.compare s t).
Qed.

Lemma ltb_irrefl (s : string) : PyStr.ltb s s = false.
Proof. unfold PyStr.ltb, String.ltb. by rewrite compare_refl. Qed.

Lemma leb_trans (s t u : string) :
  PyStr.leb s t = true → PyStr.leb t u = true → PyStr.leb s u = true.
Proof.
  unfold PyStr.leb, String.leb.
  destruct (String.compare s t) eqn:Hst; [| |done].
  - apply String.compare_eq_iff in Hst as ->. done.
  - intros _. destruct (String.compare t u) eqn:Htu; [| |done].
    + apply String.compare_eq_iff in Htu as <-. by rewrite Hst.
    + by rewrite (compare_trans s t u Hst Htu).
Qed.

#[local] Instance key_le_trans : Transitive key_le.
Proof. intros x y z. apply leb_trans. Qed.

(** The reference sort: a permutation, sorted, stable. *)
Lemma insert_by_key_perm x l : insert_by_key x l ≡ₚ x :: l.
Proof.
  induction l as [|y l IH]; simpl; [done|].
  destruct (PyStr.ltb (key_of y) (key_of x)); [|done].
  by rewrite IH, Permutation_swap.
Qed.

Lemma sort_by_key_perm l : sort_by_key l ≡ₚ l.
Proof.
  induction l as [|x l IH]; simpl; [done|].
  by rewrite insert_by_key_perm, IH.
Qed.

Lemma insert_by_key_sorted x l :
  StronglySorted key_le l → StronglySorted key_le (insert_by_key x l).
Proof.
  induction 1 as [|y l Hl IH Hy]; simpl.
  - repeat constructor.
  - destruct (PyStr.ltb (key_of y) (key_of x)) eqn:Hlt.
    + constructor; [done|].
      rewrite insert_by_key_perm. constructor; [|done].
      by apply ltb_leb.
    + apply not_ltb_leb in Hlt.
      constructor; [by constructor|].
      constructor; [done|].
      eapply Forall_impl; [exact Hy|]. intros z Hz. by etrans.
Qed.

Lemma sort_by_key_sorted l : StronglySorted key_le (sort_by_key l).
Proof.
  induction l as [|x l IH]; simpl; [constructor|].
  by apply insert_by_key_sorted.
Qed.

Lemma insert_by_key_stable (k : string) x l :
  filter (λ y, key_of y = k) (insert_by_key x l)
  = filter (λ y, key_of y = k) (x :: l).
Proof.
  induction l as [|y l IH]; simpl; [done|].
  destruct (PyStr.ltb (key_of y) (key_of x)) eqn:Hlt; [|done].
  rewrite !filter_cons in *.
  destruct (decide (key_of y = k)) as [Hy|Hy];
    destruct (decide (key_of x = k)) as [Hx|Hx]; rewrite IH; try done.
  rewrite Hy, Hx, ltb_irrefl in Hlt. done.
Qed.

Lemma sort_by_key_stable (k : string) l :
  filter (λ y, key_of y = k) (sort_by_key l) = filter (λ y, key_of y = k) l.
Proof.
  induction l as [|x l IH]; simpl; [done|].
  rewrite insert_by_key_stable, !filter_cons, IH. done.
Qed.

Section SortedReplies.

Variable list_lt : list pyval → list pyval → result bool.

Lemma str_key_sort_key x s : str_key x = Some s → sort_key x = Ok (PStr s).
Proof.
  unfold str_key. destruct (sort_key x) as [[]|]; naive_solver.
Qed.

Lemma with_keys_str l :
  Forall (λ x, is_Some (str_key x)) l →
  with_keys sort_key l = Ok (tag <$> l).
Proof.
  induction 1 as [|x l [s Hs] _ IH]; [done|].
  assert (Htag : tag x = (PStr s, x)) by (unfold tag, key_of; by rewrite Hs).
  cbn [with_keys]. rewrite (str_key_sort_key x s Hs), IH.
  by rewrite fmap_cons, Htag.
Qed.

Lemma insert_keyed_tag x l :
  insert_keyed list_lt (tag x) (tag <$> l) = Ok (tag <$> insert_by_key x l).
Proof.
  induction l as [|y l IH]; [done|].
  cbn [fmap list_fmap insert_keyed insert_by_key]. fold (tag <$> l).
  cbn [tag fst py_lt mbind result_bind].
  destruct (PyStr.ltb (key_of y) (key_of x)); [|done].
  by rewrite IH.
Qed.

Lemma sort_keyed_tag l :
  sort_keyed list_lt (tag <$> l) = Ok (tag <$> sort_by_key l).
Proof.
  induction l as [|x l IH]; [done|].
  cbn [fmap list_fmap sort_keyed sort_by_key]. fold (tag <$> l).
  rewrite IH. apply insert_keyed_tag.
Qed.

(** With string keys only, [sorted] returns the reference sort. *)
Lemma sorted_replies_str l :
  Forall (λ x, is_Some (str_key x)) l →
  sorted_replies list_lt l = sort_by_key l.
Proof.
  intros Hl. unfold sorted_replies, py_sorted.
  rewrite (with_keys_str l Hl). cbn [mbind result_bind].
  rewrite sort_keyed_tag. cbn [mbind result_bind mret result_ret].
  rewrite <- list_fmap_compose.
  generalize (sort_by_key l). clear.
  intros k. induction k as [|x k IH]; [done|]. rewrite fmap_cons, IH. done.
Qed.

(** A key that raises makes [sorted] raise. *)
Lemma with_keys_raise l x e :
  x ∈ l → sort_key x = Raise e → ∃ e', with_keys sort_key l = Raise e'.
Proof.
  intros Hx He. induction l as [|y l IH]; [by apply elem_of_nil in Hx|].
  cbn [with_keys]. destruct (sort_key y) as [k|e0] eqn:Hy; [|by eexists].
  apply elem_of_cons in Hx as [->|Hx]; [congruence|].
  destruct (IH Hx) as [e' ->]. by eexists.
Qed.

Lemma with_keys_elem l keyed x k :
  with_keys sort_key l = Ok keyed → x ∈ l → sort_key x = Ok k →
  (k, x) ∈ keyed.
Proof.
  revert keyed. induction l as [|y l IH]; intros keyed Hk Hx Hkey;
    [by apply elem_of_nil in Hx|].
  cbn [with_keys] in Hk.
  destruct (sort_key y) as [ky|] eqn:Hy; [|done].
  destruct (with_keys sort_key l) as [r|] eqn:Hr; [|done].
  cbn in Hk. injection Hk as <-.
  apply elem_of_cons in Hx as [->|Hx].
  - rewrite Hy in Hkey. injection Hkey as ->. apply elem_of_cons. by left.
  - apply elem_of_cons. right. by apply IH.
Qed.

(** Two keys that [<] can compare are both strings or both not. *)
Lemma py_lt_same_kind a b r :
  py_lt list_lt a b = Ok r → is_str a = is_str b.
Proof. destruct a, b; simpl; try done; by repeat case_match. Qed.

Lemma insert_keyed_perm kx l r :
  insert_keyed list_lt kx l = Ok r → r ≡ₚ kx :: l.
Proof.
  revert r. induction l as [|ky l IH]; intros r; cbn [insert_keyed].
  - by intros [= <-].
  - destruct (py_lt list_lt ky.1 kx.1) as [[]|]; cbn; [|by intros [= <-]|done].
    destruct (insert_keyed list_lt kx l) as [r'|]; cbn; [|done].
    intros [= <-]. by rewrite (IH r' eq_refl), Permutation_swap.
Qed.

Lemma sort_keyed_perm l s : sort_keyed list_lt l = Ok s → s ≡ₚ l.
Proof.
  revert s. induction l as [|kx l IH]; intros s; cbn [sort_keyed].
  - by intros [= <-].
  - destruct (sort_keyed list_lt l) as [s'|]; cbn; [|done].
    intros Hins%insert_keyed_perm. by rewrite Hins, (IH s' eq_refl).
Qed.

Lemma sort_keyed_same_kind l s :
  sort_keyed list_lt l = Ok s →
  ∀ p q, p ∈ l → q ∈ l → is_str p.1 = is_str q.1.
Proof.
  revert s. induction l as [|kx l IH]; intros s Hs p q Hp Hq;
    [by apply elem_of_nil in Hp|].
  cbn [sort_keyed] in Hs.
  destruct (sort_keyed list_lt l) as [s'|] eqn:Hs'; [|done]. cbn in Hs.
  assert (Hhead : ∀ z, z ∈ l → is_str kx.1 = is_str z.1).
  { intros z Hz. destruct s' as [|ky s''].
    - apply sort_keyed_perm in Hs'. apply Permutation_nil_l in Hs'.
      subst. by apply elem_of_nil in Hz.
    - cbn [insert_keyed] in Hs.
      destruct (py_lt list_lt ky.1 kx.1) as [b|] eqn:Hlt; [|done].
      apply py_lt_same_kind in Hlt.
      assert (ky ∈ l) as Hky.
      { rewrite <- (sort_keyed_perm _ _ Hs'). apply elem_of_cons. by left. }
      rewrite <- Hlt. by eapply IH. }
  apply elem_of_cons in Hp as [->|Hp]; apply elem_of_cons in Hq as [->|Hq].
  - done.
  - by apply Hhead.
  - symmetry. by apply Hhead.
  - by eapply IH.
Qed.

(** A string key next to a key that is not a string makes [sorted] raise. *)
Lemma sorted_replies_mixed l x y k :
  x ∈ l → y ∈ l → is_Some (str_key x) →
  sort_key y = Ok k → is_str k = false →
  sorted_replies list_lt l = l.
Proof.
  intros Hx Hy [s Hs%str_key_sort_key] Hk Hnot.
  unfold sorted_replies, py_sorted.
  destruct (with_keys sort_key l) as [keyed|] eqn:Hkeyed; [|done].
  cbn [mbind result_bind].
  destruct (sort_keyed list_lt keyed) as [sorted|] eqn:Hsorted; [|done].
  pose proof (sort_keyed_same_kind _ _ Hsorted (PStr s, x) (k, y)
                (with_keys_elem _ _ _ _ Hkeyed Hx Hs)
                (with_keys_elem _ _ _ _ Hkeyed Hy Hk)) as Hkind.
  simpl in Hkind. congruence.
Qed.

End SortedReplies.

Lemma sort_key_not_dict x :
  (∀ d, x ≠ PDict d) → sort_key x = Raise AttributeError.
Proof. intros Hx. destruct x; try done. by destruct (Hx d). Qed.

Lemma str_key_missing x : timestamp_missing x → str_key x = Some EmptyString.
Proof.
  intros (d & -> & Hc & Ht). unfold str_key, sort_key. simpl.
  by rewrite Hc, Ht.
Qed.

(** C1, as stated, fails: a reply with no timestamp does not switch the
    whole sequence back to arrival order; its key is the empty string and it
    is sorted first. *)
Lemma missing_timestamp_sorts_first :
  ¬ (∀ (list_lt : list pyval → list pyval → result bool)
       (replies : list pyval),
       (∃ x, x ∈ replies ∧ timestamp_missing x) →
       sorted_replies list_lt replies = replies).
Proof.
  intros H.
  pose (dated := ({[ "created_at" := PStr "2025-01-02T10:00:00" ]}
                  : gmap string pyval)).
  pose (undated := ({[ "text" := PStr "hello" ]} : gmap string pyval)).
  specialize (H (λ _ _, Raise TypeError) [PDict dated; PDict undated]).
  assert (Hkeys : key_of <$> sorted_replies (λ _ _, Raise TypeError)
                               [PDict dated; PDict undated]
                  = [EmptyString; "2025-01-02T10:00:00"])
    by (vm_compute; reflexivity).
  rewrite H in Hkeys.
  - vm_compute in Hkeys. discriminate Hkeys.
  - exists (PDict undated). split.
    + apply elem_of_cons. right. apply elem_of_cons. by left.
    + exists undated. repeat split; vm_compute; reflexivity.
Qed.

(** C1, amended.  The replies are ordered by the key [created_at] if the
    field is present, else [timestamp] if present, else the empty string,
    compared as strings without parsing.  When every key is a string, which
    includes replies with no timestamp (key ""), the output is the stable
    ascending sort of the input by that key.  The input order is kept for the
    whole sequence when sorting raises, as it does when some reply is not an
    object or when a string key meets a key that is not a string (a null, a
    number, ...). *)
Theorem replies_sorted_by_string_key
    (list_lt : list pyval → list pyval → result bool)
    (replies : list pyval) :
  (Forall (λ x, is_Some (str_key x)) replies →
   sorted_replies list_lt replies ≡ₚ replies
   ∧ StronglySorted key_le (sorted_replies list_lt replies)
   ∧ ∀ k, filter (λ x, key_of x = k) (sorted_replies list_lt replies)
          = filter (λ x, key_of x = k) replies)
  ∧ (∀ x, timestamp_missing x → str_key x = Some EmptyString)
  ∧ (∀ x, x ∈ replies → (∀ d, x ≠ PDict d) →
          sorted_replies list_lt replies = replies)
  ∧ (∀ x y k, x ∈ replies → y ∈ replies →
              is_Some (str_key x) → sort_key y = Ok k → is_str k = false →
              sorted_replies list_lt replies = replies).
Proof.
  repeat split.
  - rewrite (sorted_replies_str list_lt replies H). apply sort_by_key_perm.
  - rewrite (sorted_replies_str list_lt replies H). apply sort_by_key_sorted.
  - intros k. rewrite (sorted_replies_str list_lt replies H).
    apply sort_by_key_stable.
  - apply str_key_missing.
  - intros x Hx Hnd. unfold sorted_replies, py_sorted.
    destruct (with_keys_raise replies x _ Hx (sort_key_not_dict x Hnd))
      as [e' ->].
    done.
  - intros x y k. apply sorted_replies_mixed.
Qed.

Lemma replies_sorted_by_string_key_witness :
  let older := PDict {[ "timestamp" := PStr "2025-01-01T09:00:00" ]} in
  let newer := PDict {[ "created_at" := PStr "2025-01-02T10:00:00" ]} in
  let no_lists : list pyval → list pyval → result bool :=
    λ _ _, Raise TypeError in
  StronglySorted key_le (sorted_replies no_lists [newer; older])
  ∧ sorted_replies no_lists [newer; PInt 3] = [newer; PInt 3].
Proof.
  intros older newer no_lists. split.
  - apply (replies_sorted_by_string_key no_lists [newer; older]).
    repeat constructor; vm_compute; eexists; reflexivity.
  - apply (replies_sorted_by_string_key no_lists [newer; PInt 3])
      with (x := PInt 3).
    + apply elem_of_cons. right. apply elem_of_cons. by left.
    + intros d. discriminate.
Defined.

(** The order on the two replies above: the older one comes first. *)
Example sorted_replies_example :
  let older := PDict {[ "timestamp" := PStr "2025-01-01T09:00:00" ]} in
  let newer := PDict {[ "created_at" := PStr "2025-01-02T10:00:00" ]} in
  sorted_replies (λ _ _, Raise TypeError) [newer; older] = [older; newer].
Proof. vm_compute. reflexivity. Qed.

(** A null timestamp next to a string: arrival order. *)
Example sorted_replies_null_timestamp :
  let dated := PDict {[ "created_at" := PStr "2025-01-02T10:00:00" ]} in
  let null := PDict {[ "created_at" := PNone ]} in
  sorted_replies (λ _ _, Raise TypeError) [dated; null] = [dated; null].
Proof. vm_compute. reflexivity. Qed.

(** * Further properties *)

(** ** The helper functions never raise *)

(** X1.  The connectivity probe sends the one request GET /health with a
    wait of 10, shows nothing, never raises, and answers [True] exactly when
    the response code is 200; a transport failure gives [False]. *)
Theorem health_probe base net w :
  ∃ ok : bool,
    test_api_connection base net w = (Ok ok, after w (health_request base) [])
    ∧ (ok = true ↔
       ∃ r, net (calls w) (health_request base) = Responds r
            ∧ status_code r = 200%Z).
Proof.
  unfold test_api_connection, try_except, requests_get, send, after,
    mbind, M_bind, mret, M_ret.
  fold (health_request base).
  destruct (net (calls w) (health_request base)) as [d|r] eqn:Hnet;
    rewrite app_nil_r.
  - exists false. split; [done|]. split; [done|]. by intros (r & ? & _).
  - exists (status_code r =? 200)%Z. split; [done|].
    rewrite Z.eqb_eq. split; [by exists r|].
    by intros (r' & [= <-] & ?).
Qed.

(** X2.  None of the nine helpers raises, whatever the network does: each
    returns a value after sending exactly its own request, and only adds
    Streamlit calls. *)
Theorem helpers_never_raise base net :
  sends_one (get_all_tickets base net) (tickets_request base)
  ∧ (∀ ticket_data,
       sends_one (create_ticket base net ticket_data)
                 (create_request base ticket_data))
  ∧ (∀ ticket_id,
       sends_one (get_ticket_by_id base net ticket_id)
                 (ticket_request base ticket_id))
  ∧ (∀ f ticket_id,
       sends_one (upload_file_via_api base net (getvalue f) (file_name_of f)
                                      ticket_id)
                 (upload_request base ticket_id f))
  ∧ (∀ ticket_id message,
       sends_one (generate_ai_reply base net ticket_id message PNone PNone)
                 (ai_request base ticket_id message))
  ∧ (∀ ticket_id email_data,
       sends_one (send_email_via_api base net ticket_id email_data)
                 (email_request base ticket_id email_data))
  ∧ (∀ ticket_id reply_data,
       sends_one (add_reply_via_api base net ticket_id reply_data)
                 (reply_request base ticket_id reply_data))
  ∧ (∀ ticket_id,
       sends_one (get_ticket_replies base net ticket_id)
                 (ticket_request base ticket_id))
  ∧ (∀ ticket_id status,
       sends_one (update_ticket_status base net ticket_id status)
                 (status_request base ticket_id status)).
Proof.
  repeat split; intros.
  - intros w. rewrite get_all_tickets_run. cbv zeta.
    repeat case_match; eauto.
  - apply create_ticket_sends_one.
  - intros w. rewrite get_ticket_by_id_run. cbv zeta.
    repeat case_match; eauto.
  - apply upload_file_sends_one.
  - apply generate_ai_reply_sends_one.
  - apply send_email_sends_one.
  - intros w. rewrite add_reply_via_api_run. cbv zeta.
    repeat case_match; eauto.
  - intros w. rewrite get_ticket_replies_run. cbv zeta.
    repeat case_match; eauto.
  - intros w. rewrite update_ticket_status_run. cbv zeta.
    repeat case_match; eauto.
Qed.

(** ** The creation page: what stops it *)

(** X3.  When a required field (title, category, description, name) is empty
    the submitted form sends no request at all and shows one error; when the
    form is not submitted the page does nothing. *)
Theorem create_needs_required_fields base net (title category created_by
    priority email description : string) (files : list uploaded_file)
    (w : world) :
  title = "" ∨ category = "" ∨ description = "" ∨ created_by = "" →
  create_ticket_page base net title category created_by priority email
    description files true w
  = (Ok tt,
     World (calls w)
           (ui w ++ [StError [Lit "Please fill in all required fields (*)"]])
           (session_state w))
  ∧ create_ticket_page base net title category created_by priority email
      description files false w
    = (Ok tt, w).
Proof.
  intros Hempty. split; [|done].
  unfold create_ticket_page.
  assert (forallb Py.str_truthy [title; category; description; created_by]
          = false) as ->; [|done].
  destruct Hempty as [-> | [-> | [-> | ->]]]; cbn [forallb];
    change (Py.str_truthy "") with false;
    by rewrite ?andb_false_r, ?andb_false_l.
Qed.

Lemma create_needs_required_fields_witness :
  calls (create_ticket_page "http://api" (λ _ _, Fails "unreachable")
           "" "Technical" "Ana" "Low" "" "It is on fire" [] true
           fresh_world).2 = [].
Proof.
  destruct (create_needs_required_fields "http://api"
              (λ _ _, Fails "unreachable") "" "Technical" "Ana" "Low" ""
              "It is on fire" [] fresh_world (or_introl eq_refl)) as [-> _].
  reflexivity.
Defined.

(** X4.  When the create step returns a truthy payload from which the id
    cannot be read (an object without [id], or a value that is no object),
    the page raises right after the create request: nothing else is sent and
    no success message is shown. *)
Theorem created_ticket_without_id base net (title category created_by
    priority email description : string) (files : list uploaded_file)
    (w : world) (new_ticket : pyval) (e : exn) :
  forallb Py.str_truthy [title; category; description; created_by] = true →
  let ticket_data := ticket_data_of title description category in
  (create_ticket base net ticket_data w).1 = Ok new_ticket →
  Py.truthy new_ticket = true →
  Py.getitem new_ticket "id" = Raise e →
  create_ticket_page base net title category created_by priority email
    description files true w
  = (Raise e, (create_ticket base net ticket_data w).2)
  ∧ calls (create_ticket base net ticket_data w).2
    = calls w ++ [create_request base ticket_data].
Proof.
  intros Hvalid ticket_data Hnew Htruthy Hid.
  destruct (create_ticket_sends_one base net ticket_data w)
    as (v & shown & Hc).
  rewrite Hc in Hnew |- *. cbn [fst snd] in Hnew |- *.
  injection Hnew as ->. split; [|done].
  unfold create_ticket_page. rewrite Hvalid. cbn [negb].
  fold (ticket_data_of title description category). fold ticket_data.
  rewrite (bind_Ok _ _ _ _ _ Hc), Htruthy, Hid.
  reflexivity.
Qed.

Lemma created_ticket_without_id_witness :
  (create_ticket_page "http://api"
     (λ _ _, Responds (Response 201
                         (JsonOf (PDict {[ "title" := PStr "Printer" ]}))))
     "Printer" "Technical" "Ana" "Low" "" "It is on fire" [] true
     fresh_world).1
  = Raise KeyError.
Proof.
  pose (net := λ (_ : list request) (_ : request),
          Responds (Response 201
                      (JsonOf (PDict {[ "title" := PStr "Printer" ]})))).
  destruct (created_ticket_without_id "http://api" net
              "Printer" "Technical" "Ana" "Low" "" "It is on fire" []
              fresh_world (PDict {[ "title" := PStr "Printer" ]}) KeyError)
    as [Hrun _].
  - reflexivity.
  - reflexivity.
  - reflexivity.
  - reflexivity.
  - unfold net in Hrun. rewrite Hrun. reflexivity.
Defined.

(** ** Attachment names and kinds: further cases *)

(** X5.  When the final path segment splits on '_' into fewer than 3 parts,
    the recovered file name is the segment itself, with "%20" and "%2B"
    replaced. *)
Theorem short_segment_is_the_name (url : string) :
  length (PyStr.split "_" (Attachment.path_part_of url)) < 3 →
  recovers url (Attachment.clean (Attachment.path_part_of url)).
Proof.
  intros Hlen.
  assert (Hname : (Attachment.extract url 0).1
                  = Attachment.clean (Attachment.path_part_of url)).
  { unfold Attachment.extract, Attachment.name_of_path_part.
    rewrite (proj2 (Nat.leb_gt 3 _) Hlen). by rewrite andb_false_r. }
  rewrite <- Hname. apply recovers_extract.
Qed.

Lemma short_segment_is_the_name_witness :
  Attachment.ticket_file_name (PStr "https://x/a%20b_report.pdf")
  = "a b_report.pdf".
Proof.
  destruct (short_segment_is_the_name "https://x/a%20b_report.pdf")
    as [_ Hticket].
  - vm_compute. repeat constructor.
  - exact Hticket.
Defined.

Lemma any_ext_in_subset (small big : list string) (s : string) :
  small ⊆ big →
  Attachment.any_ext_in small s = true → Attachment.any_ext_in big s = true.
Proof.
  unfold Attachment.any_ext_in. rewrite !existsb_exists.
  intros Hsub (ext & Hin & Hc). exists ext. split; [|done].
  apply list_elem_of_In. apply Hsub. by apply list_elem_of_In.
Qed.

(** X6.  The admin panel and the ticket view classify with different lists:
    whatever the admin panel shows as an image the ticket view shows as an
    image too, and whatever the ticket view treats as a document the admin
    panel treats as a document; both raise on the same inputs. *)
Theorem admin_image_is_ticket_image (attachment_url : pyval) :
  (Attachment.attachment_kind Attachment.ADMIN_IMAGE_EXTS attachment_url
   = Ok Attachment.image →
   Attachment.attachment_kind Attachment.IMAGE_EXTS attachment_url
   = Ok Attachment.image)
  ∧ (Attachment.attachment_kind Attachment.IMAGE_EXTS attachment_url
     = Ok Attachment.document →
     Attachment.attachment_kind Attachment.ADMIN_IMAGE_EXTS attachment_url
     = Ok Attachment.document)
  ∧ (∀ e,
       Attachment.attachment_kind Attachment.IMAGE_EXTS attachment_url
       = Raise e ↔
       Attachment.attachment_kind Attachment.ADMIN_IMAGE_EXTS attachment_url
       = Raise e).
Proof.
  assert (Hsub : Attachment.ADMIN_IMAGE_EXTS ⊆ Attachment.IMAGE_EXTS).
  { unfold Attachment.ADMIN_IMAGE_EXTS, Attachment.IMAGE_EXTS.
    intros x. rewrite !elem_of_cons, !elem_of_nil. tauto. }
  unfold Attachment.attachment_kind.
  destruct attachment_url as [| | |url| |]; cbn [Py.as_str mbind result_bind];
    try done.
  pose proof (any_ext_in_subset _ _ url Hsub) as Himp.
  unfold mret, result_ret.
  destruct (Attachment.any_ext_in Attachment.ADMIN_IMAGE_EXTS url).
  - rewrite (Himp eq_refl). repeat split; done.
  - destruct (Attachment.any_ext_in Attachment.IMAGE_EXTS url);
      repeat split; done.
Qed.

Lemma admin_image_is_ticket_image_witness :
  Attachment.attachment_kind Attachment.IMAGE_EXTS
    (PStr "https://x/scan.JPG") = Ok Attachment.image.
Proof.
  apply (admin_image_is_ticket_image (PStr "https://x/scan.JPG")).
  reflexivity.
Defined.

(** A drawing the two views disagree on. *)
Example svg_is_image_in_ticket_view_only :
  Attachment.attachment_kind Attachment.IMAGE_EXTS (PStr "https://x/logo.svg")
  = Ok Attachment.image
  ∧ Attachment.attachment_kind Attachment.ADMIN_IMAGE_EXTS
      (PStr "https://x/logo.svg") = Ok Attachment.document.
Proof. split; reflexivity. Qed.

(** ** The admin panel: after the gate *)

(** X7.  Once the session is authenticated the panel runs the dashboard and
    nothing else: the credentials typed and the Login button play no part. *)
Theorem authenticated_admin_sees_dashboard (username password : string)
    (login : bool) (dashboard : M unit) (w : world) :
  authenticated w = true →
  admin_panel username password login dashboard w = dashboard w.
Proof.
  unfold authenticated, admin_panel, session_has, session_get, session_set,
    mbind, M_bind, mret, M_ret.
  destruct (session_state w !! "admin_authenticated") as [v|] eqn:Hv;
    [|done].
  intros Ht. simpl. by rewrite Hv, Ht.
Qed.

Lemma authenticated_admin_sees_dashboard_witness :
  admin_panel "" "" false (st_info [Lit "dashboard"])
    (World [] [] {[ "admin_authenticated" := PBool true ]})
  = st_info [Lit "dashboard"]
      (World [] [] {[ "admin_authenticated" := PBool true ]}).
Proof.
  apply (authenticated_admin_sees_dashboard "" "" false
           (st_info [Lit "dashboard"])
           (World [] [] {[ "admin_authenticated" := PBool true ]})).
  reflexivity.
Defined.

(** X8.  From an unauthenticated session the dashboard is never run in the
    same pass and no request is sent: a login with admin/admin shows the
    success message and asks for a rerun; any other login shows "Invalid
    credentials" and returns; without a login the page shows nothing. *)
Theorem login_attempt_outcome (username password : string) (login : bool)
    (dashboard : M unit) (w : world) :
  authenticated w = false →
  let run := admin_panel username password login dashboard w in
  calls run.2 = calls w
  ∧ (run.1, ui run.2)
    = (if login then
         if String.eqb username "admin" && String.eqb password "admin"
         then (Raise RerunException,
               ui w ++ [StSuccess [Lit "Logged in successfully!"]])
         else (Ok tt, ui w ++ [StError [Lit "Invalid credentials"]])
       else (Ok tt, ui w)).
Proof.
  unfold authenticated, admin_panel, session_has, session_get, session_set,
    st_success, st_error, st_rerun, emit, raise, mbind, M_bind, mret, M_ret.
  intros Hw. simpl.
  destruct (session_state w !! "admin_authenticated") as [v|] eqn:Hv; simpl.
  - rewrite Hv. simpl. rewrite Hw. simpl.
    destruct login; [|done].
    by destruct (String.eqb username "admin" && String.eqb password "admin").
  - rewrite lookup_insert_eq. simpl.
    destruct login; [|done].
    by destruct (String.eqb username "admin" && String.eqb password "admin").
Qed.

Lemma login_attempt_outcome_witness :
  (admin_panel "admin" "admin" true (st_info [Lit "dashboard"])
     fresh_world).1
  = Raise RerunException.
Proof.
  destruct (login_attempt_outcome "admin" "admin" true
              (st_info [Lit "dashboard"]) fresh_world eq_refl) as [_ Hrun].
  cbv zeta in Hrun. cbn [String.eqb Ascii.eqb Bool.eqb andb] in Hrun.
  exact (f_equal fst Hrun).
Defined.

(** ** The reply normalizer: nothing is lost *)

Lemma sorted_replies_perm
    (list_lt : list pyval → list pyval → result bool)
    (replies : list pyval) :
  sorted_replies list_lt replies ≡ₚ replies.
Proof.
  unfold sorted_replies, py_sorted.
  destruct (with_keys sort_key replies) as [keyed|] eqn:Hkeyed; [|done].
  cbn [mbind result_bind].
  destruct (sort_keyed list_lt keyed) as [sorted|] eqn:Hsorted; [|done].
  cbn [mbind result_bind mret result_ret].
  rewrite (sort_keyed_perm list_lt keyed sorted Hsorted).
  clear Hsorted sorted. revert keyed Hkeyed.
  induction replies as [|x replies IH]; intros keyed Hkeyed.
  - by injection Hkeyed as <-.
  - cbn [with_keys] in Hkeyed.
    destruct (sort_key x) as [k|]; [|done].
    destruct (with_keys sort_key replies) as [r|]; [|done].
    cbn in Hkeyed. injection Hkeyed as <-.
    rewrite fmap_cons. cbn [snd]. by rewrite (IH r eq_refl).
Qed.

(** X9.  Whatever the replies hold and whether sorting succeeds or falls
    back, the ordered sequence is a rearrangement of the replies fetched: no
    reply is dropped and none is shown twice. *)
Theorem sorted_replies_is_a_rearrangement
    (list_lt : list pyval → list pyval → result bool)
    (replies : list pyval) :
  sorted_replies list_lt replies ≡ₚ replies.
Proof. apply sorted_replies_perm. Qed.

(** ** Posting a reply *)

Section Replying.

Variable base : string.
Variable net : list request → request → outcome.

Lemma lift_Ok {A B} (r : result A) (a : A) (f : A → M B) w :
  r = Ok a → (lift r ≫= f) w = f a w.
Proof. by intros ->. Qed.

Lemma emit_then {B} (e : ui_event) (f : unit → M B) w :
  (emit e ≫= f) w = f tt (World (calls w) (ui w ++ [e]) (session_state w)).
Proof. done. Qed.

(** The upload step of both reply forms: one request when a file is
    attached, none otherwise; the value is what the upload returned. *)
Lemma attach_run ticket id (uploaded : option uploaded_file)
    (on_success : uploaded_file → M unit) (on_failure : M unit) w :
  Py.getitem ticket "id" = Ok id →
  (∀ f w', ∃ e, on_success f w'
                = (Ok tt, World (calls w') (ui w' ++ e) (session_state w'))) →
  (∀ w', ∃ e, on_failure w'
              = (Ok tt, World (calls w') (ui w' ++ e) (session_state w'))) →
  ∃ url shown,
    upload_returned base net id uploaded w url
    ∧ match uploaded with
      | Some f =>
          id ← lift (Py.getitem ticket "id");
          url ← upload_file_via_api base net (getvalue f) (file_name_of f)
                  id;
          (if Py.truthy url then on_success f else on_failure) ;;
          mret url
      | None => mret PNone
      end w
      = (Ok url,
         World (calls w ++ (upload_request base id <$> option_list uploaded))
               (ui w ++ shown) (session_state w)).
Proof.
  intros Hid Hs Hf. destruct uploaded as [f|]; simpl.
  - destruct (upload_file_sends_one base net f id w) as (url & shown & Hup).
    rewrite (lift_Ok _ id _ _ Hid), (bind_Ok _ _ _ _ _ Hup).
    exists url. rewrite Hup.
    destruct (Py.truthy url).
    + destruct (Hs f (after w (upload_request base id f) shown)) as [e He].
      rewrite (bind_Ok _ _ _ _ _ He). exists (shown ++ e). split; [done|].
      unfold mret, M_ret, after. simpl. by rewrite <- app_assoc.
    + destruct (Hf (after w (upload_request base id f) shown)) as [e He].
      rewrite (bind_Ok _ _ _ _ _ He). exists (shown ++ e). split; [done|].
      unfold mret, M_ret, after. simpl. by rewrite <- app_assoc.
  - exists PNone, []. split; [done|].
    unfold mret, M_ret. rewrite !app_nil_r. by destruct w.
Qed.

Lemma add_reply_sends_one ticket_id reply_data :
  sends_one (add_reply_via_api base net ticket_id reply_data)
            (reply_request base ticket_id reply_data).
Proof.
  intros w. rewrite add_reply_via_api_run. cbv zeta.
  repeat case_match; eauto.
Qed.

Lemma update_status_sends_one ticket_id status :
  sends_one (update_ticket_status base net ticket_id status)
            (status_request base ticket_id status).
Proof.
  intros w. rewrite update_ticket_status_run. cbv zeta.
  repeat case_match; eauto.
Qed.

Lemma emit_run (e : ui_event) w :
  ∃ shown, emit e w
           = (Ok tt, World (calls w) (ui w ++ shown) (session_state w)).
Proof. by exists [e]. Qed.

Lemma ret_run w :
  ∃ shown, (mret tt : M unit) w
           = (Ok tt, World (calls w) (ui w ++ shown) (session_state w)).
Proof. exists []. rewrite app_nil_r. by destruct w. Qed.

(** The posting step of both reply forms: exactly the reply request; the
    outcome is a normal return or the rerun signal. *)
Lemma post_run ticket id reply_data (on_sent on_failed : M unit) w :
  Py.getitem ticket "id" = Ok id →
  (∀ w', ∃ e, on_sent w'
              = (Ok tt, World (calls w') (ui w' ++ e) (session_state w'))) →
  (∀ w', ∃ e, on_failed w'
              = (Ok tt, World (calls w') (ui w' ++ e) (session_state w'))) →
  ∃ r shown,
    (id ← lift (Py.getitem ticket "id");
     sent ← add_reply_via_api base net id reply_data;
     if Py.truthy sent then on_sent ;; st_rerun else on_failed) w
    = (r, World (calls w ++ [reply_request base id reply_data])
                (ui w ++ shown) (session_state w))
    ∧ (r = Ok tt ∨ r = Raise RerunException).
Proof.
  intros Hid Hs Hf.
  destruct (add_reply_sends_one id reply_data w) as (sent & shown & Hsent).
  rewrite (lift_Ok _ id _ _ Hid), (bind_Ok _ _ _ _ _ Hsent).
  destruct (Py.truthy sent).
  - destruct (Hs (after w (reply_request base id reply_data) shown))
      as [e He].
    rewrite (bind_Ok _ _ _ _ _ He).
    exists (Raise RerunException), (shown ++ e). split; [|by right].
    unfold st_rerun, raise, after. simpl. by rewrite <- app_assoc.
  - destruct (Hf (after w (reply_request base id reply_data) shown))
      as [e He].
    rewrite He. exists (Ok tt), (shown ++ e). split; [|by left].
    unfold after. simpl. by rewrite <- app_assoc.
Qed.

(** X10.  In the ticket view, a reply that is blank after stripping, with no
    file attached, sends no request and shows one warning. *)
Theorem blank_reply_is_not_sent (ticket : pyval) (new_reply : string)
    (w : world) :
  PyStr.strip new_reply = "" →
  reply_form base net ticket new_reply None true false w
  = (Ok tt,
     World (calls w)
           (ui w ++ [StWarning
                       [Lit "⚠️ Please enter a reply or attach a file before sending."]])
           (session_state w)).
Proof.
  intros Hblank. unfold reply_form. rewrite Hblank. reflexivity.
Qed.

Lemma reply_form_run (ticket id : pyval) (new_reply : string)
    (uploaded : option uploaded_file) (refresh : bool) (w : world) :
  Py.getitem ticket "id" = Ok id →
  Py.str_truthy (PyStr.strip new_reply) || bool_decide (is_Some uploaded)
  = true →
  let text := if Py.str_truthy (PyStr.strip new_reply)
              then PyStr.strip new_reply else shared_file_text uploaded in
  ∃ url r shown,
    upload_returned base net id uploaded w url
    ∧ reply_form base net ticket new_reply uploaded true refresh w
      = (r, World (calls w ++ (upload_request base id <$> option_list uploaded)
                   ++ [reply_request base id (reply_data_of text "user" url)])
                  (ui w ++ shown) (session_state w))
    ∧ (r = Ok tt ∨ r = Raise RerunException).
Proof.
  intros Hid Hcontent text. unfold reply_form. rewrite Hcontent.
  destruct (attach_run ticket id uploaded
              (λ f, st_success [Lit "📎 File '"; Val (PStr (file_name_of f));
                                Lit "' uploaded successfully!"])
              (st_error [Lit "❌ Failed to upload file. Sending reply without attachment."])
              w Hid ltac:(intros; apply emit_run) ltac:(intros; apply emit_run))
    as (url & shown & Hurl & Hattach).
  exists url.
  unfold mbind at 1, M_bind at 1.
  rewrite (bind_Ok _ _ _ _ _ Hattach). cbv zeta. fold text.
  fold (reply_data_of text "user" url).
  match goal with
  | |- context [ _ (World ?c ?u ?s) ] =>
      destruct (post_run ticket id (reply_data_of text "user" url)
                  (if Py.truthy url
                   then st_success
                          [Lit "✅ Reply with attachment sent successfully!"]
                   else st_success [Lit "✅ Reply sent successfully!"])
                  (st_error [Lit "❌ Failed to send reply. Please try again."])
                  (World c u s) Hid
                  ltac:(intros; destruct (Py.truthy url); apply emit_run)
                  ltac:(intros; apply emit_run))
        as (r & shown' & Hpost & Hr)
  end.
  rewrite Hpost. cbn [calls ui session_state].
  destruct Hr as [-> | ->].
  - destruct refresh.
    + exists (Raise RerunException), (shown ++ shown').
      rewrite <- !app_assoc. unfold st_rerun, raise. eauto.
    + exists (Ok tt), (shown ++ shown').
      rewrite <- !app_assoc. unfold mret, M_ret. eauto.
  - exists (Raise RerunException), (shown ++ shown').
    rewrite <- !app_assoc. eauto.
Qed.

Lemma reply_data_of_fields (text role : string) (url : pyval) :
  reply_data_of text role url !! "role" = Some (JValue (PStr role))
  ∧ reply_data_of text role url !! "text" = Some (JValue (PStr text))
  ∧ reply_data_of text role url !! "attachment_url"
    = (if Py.truthy url then Some (JValue url) else None).
Proof.
  unfold reply_data_of. cbv zeta. destruct (Py.truthy url).
  - rewrite !lookup_insert_ne, lookup_insert_eq by done.
    repeat split; by simplify_map_eq.
  - repeat split; by simplify_map_eq.
Qed.

(** X11.  In the ticket view, a reply with text or with a file is always
    posted, with role "user": the page sends the upload request when a file
    is attached and then the reply request, whatever the upload returned; the
    reply carries the attachment URL exactly when the upload returned a
    truthy one; its text is the stripped text, or the "Shared a file" line
    when the text is blank.  The page then returns or asks for a rerun. *)
Theorem reply_is_posted (ticket id : pyval) (new_reply : string)
    (uploaded : option uploaded_file) (refresh : bool) (w : world) :
  Py.getitem ticket "id" = Ok id →
  Py.str_truthy (PyStr.strip new_reply) || bool_decide (is_Some uploaded)
  = true →
  let run := reply_form base net ticket new_reply uploaded true refresh w in
  let text := if Py.str_truthy (PyStr.strip new_reply)
              then PyStr.strip new_reply else shared_file_text uploaded in
  ∃ (url : pyval) (reply_data : gmap string jarg),
    upload_returned base net id uploaded w url
    ∧ calls run.2
      = calls w ++ (upload_request base id <$> option_list uploaded)
        ++ [reply_request base id reply_data]
    ∧ reply_data !! "role" = Some (JValue (PStr "user"))
    ∧ reply_data !! "text" = Some (JValue (PStr text))
    ∧ reply_data !! "attachment_url"
      = (if Py.truthy url then Some (JValue url) else None)
    ∧ (run.1 = Ok tt ∨ run.1 = Raise RerunException).
Proof.
  intros Hid Hcontent run text.
  destruct (reply_form_run ticket id new_reply uploaded refresh w Hid
              Hcontent) as (url & r & shown & Hurl & Hrun & Hr).
  exists url, (reply_data_of text "user" url).
  subst run. fold text in Hrun. rewrite Hrun.
  destruct (reply_data_of_fields text "user" url) as (? & ? & ?).
  by repeat split.
Qed.

Lemma admin_reply_form_run (ticket id : pyval) (admin_reply : string)
    (admin_file : option uploaded_file) (w : world) :
  Py.getitem ticket "id" = Ok id →
  Py.str_truthy admin_reply || bool_decide (is_Some admin_file) = true →
  let text := if Py.str_truthy admin_reply then admin_reply
              else shared_file_text admin_file in
  ∃ url r shown,
    upload_returned base net id admin_file w url
    ∧ admin_reply_form base net ticket admin_reply admin_file true w
      = (r, World (calls w
                   ++ (upload_request base id <$> option_list admin_file)
                   ++ [reply_request base id
                         (reply_data_of text "admin" url)])
                  (ui w ++ shown) (session_state w))
    ∧ (r = Ok tt ∨ r = Raise RerunException).
Proof.
  intros Hid Hcontent text. unfold admin_reply_form. rewrite Hcontent.
  destruct (attach_run ticket id admin_file
              (λ f, st_info [Lit "📎 File '"; Val (PStr (file_name_of f));
                             Lit "' uploaded!"])
              (mret tt)
              w Hid ltac:(intros; apply emit_run) ltac:(intros; apply ret_run))
    as (url & shown & Hurl & Hattach).
  exists url.
  rewrite (bind_Ok _ _ _ _ _ Hattach). cbv zeta. fold text.
  fold (reply_data_of text "admin" url).
  match goal with
  | |- context [ _ (World ?c ?u ?s) ] =>
      destruct (post_run ticket id (reply_data_of text "admin" url)
                  (if Py.truthy url
                   then st_success [Lit "✅ Admin reply with attachment sent!"]
                   else st_success [Lit "✅ Admin reply sent!"])
                  (mret tt)
                  (World c u s) Hid
                  ltac:(intros; destruct (Py.truthy url); apply emit_run)
                  ltac:(intros; apply ret_run))
        as (r & shown' & Hpost & Hr)
  end.
  rewrite Hpost. cbn [calls ui session_state].
  exists r, (shown ++ shown'). rewrite <- !app_assoc. eauto.
Qed.

(** X12.  In the admin panel, a reply with text or with a file is always
    posted, with role "admin", after the upload request of the attached file
    if any and whatever that upload returned; the text is sent as typed, not
    stripped, so a reply of spaces only is posted as it is. *)
Theorem admin_reply_is_posted (ticket id : pyval) (admin_reply : string)
    (admin_file : option uploaded_file) (w : world) :
  Py.getitem ticket "id" = Ok id →
  Py.str_truthy admin_reply || bool_decide (is_Some admin_file) = true →
  let run := admin_reply_form base net ticket admin_reply admin_file true w in
  let text := if Py.str_truthy admin_reply then admin_reply
              else shared_file_text admin_file in
  ∃ (url : pyval) (reply_data : gmap string jarg),
    upload_returned base net id admin_file w url
    ∧ calls run.2
      = calls w ++ (upload_request base id <$> option_list admin_file)
        ++ [reply_request base id reply_data]
    ∧ reply_data !! "role" = Some (JValue (PStr "admin"))
    ∧ reply_data !! "text" = Some (JValue (PStr text))
    ∧ reply_data !! "attachment_url"
      = (if Py.truthy url then Some (JValue url) else None)
    ∧ (run.1 = Ok tt ∨ run.1 = Raise RerunException).
Proof.
  intros Hid Hcontent run text.
  destruct (admin_reply_form_run ticket id admin_reply admin_file w Hid
              Hcontent) as (url & r & shown & Hurl & Hrun & Hr).
  exists url, (reply_data_of text "admin" url).
  subst run. fold text in Hrun. rewrite Hrun.
  destruct (reply_data_of_fields text "admin" url) as (? & ? & ?).
  by repeat split.
Qed.

(** X13.  Pressing "Update Status" on a ticket with an id sends exactly the
    PATCH request.  A 200 answer shows "Status updated!" and asks for a
    rerun; any other response code shows nothing at all and returns; a
    transport failure shows the helper's error and returns. *)
Theorem status_update_outcome (ticket id : pyval) (new_status : string)
    (w : world) :
  Py.getitem ticket "id" = Ok id →
  let req := status_request base id (PStr new_status) in
  let run := admin_update_status base net ticket new_status true w in
  calls run.2 = calls w ++ [req]
  ∧ (run.1, ui run.2)
    = match net (calls w) req with
      | Responds r =>
          if (status_code r =? 200)%Z
          then (Raise RerunException,
                ui w ++ [StSuccess [Lit "Status updated!"]])
          else (Ok tt, ui w)
      | Fails d =>
          (Ok tt,
           ui w ++ [StError [Lit "Error updating ticket status: ";
                             Exc (RequestException d)]])
      end.
Proof.
  intros Hid req run. subst run. unfold admin_update_status.
  rewrite (lift_Ok _ id _ _ Hid).
  unfold mbind, M_bind.
  rewrite update_ticket_status_run. cbv zeta. fold req.
  destruct (net (calls w) req) as [d|r]; cbn [Py.truthy].
  - unfold mret, M_ret, after. simpl. done.
  - destruct (status_code r =? 200)%Z.
    + unfold after. simpl. by rewrite app_nil_r.
    + unfold mret, M_ret, after. simpl. by rewrite app_nil_r.
Qed.

End Replying.

Lemma blank_reply_is_not_sent_witness :
  calls (reply_form "http://api" (λ _ _, Fails "unreachable")
           (PDict {[ "id" := PInt 7 ]}) "   " None true false
           fresh_world).2 = [].
Proof.
  rewrite (blank_reply_is_not_sent "http://api" (λ _ _, Fails "unreachable")
             (PDict {[ "id" := PInt 7 ]}) "   " fresh_world eq_refl).
  reflexivity.
Defined.

(** White space beyond ASCII is stripped too: a no-break space (C2 A0), an
    ideographic space (E3 80 80) and an em space (E2 80 83) around "é x". *)
Example strip_unicode_space :
  let nbsp := String "194" (String "160" "") in
  let ideographic := String "227" (String "128" (String "128" "")) in
  let em_space := String "226" (String "128" (String "131" "")) in
  let e_acute := String "195" (String "169" "") in
  PyStr.strip nbsp = ""
  ∧ PyStr.strip (" " +:+ ideographic +:+ e_acute +:+ " x" +:+ em_space
                 +:+ nbsp)
    = e_acute +:+ " x"
  ∧ (reply_form "http://api" (λ _ _, Fails "unreachable")
       (PDict {[ "id" := PInt 7 ]}) nbsp None true false fresh_world).2
    = World [] [StWarning
                  [Lit "⚠️ Please enter a reply or attach a file before sending."]]
            ∅.
Proof. vm_compute. repeat split. Qed.

Lemma reply_is_posted_witness :
  let net : list request → request → outcome := λ _ r,
    match req_body_of r with
    | FilesBody _ _ => Responds (Response 500 (NotJson "upload failed"))
    | _ => Responds (Response 200 (JsonOf (PDict {[ "id" := PInt 1 ]})))
    end in
  let photo := UploadedFile "photo.png" [] in
  ∃ reply_data : gmap string jarg,
    calls (reply_form "http://api" net (PDict {[ "id" := PInt 7 ]}) ""
             (Some photo) true false fresh_world).2
    = [upload_request "http://api" (PInt 7) photo;
       reply_request "http://api" (PInt 7) reply_data]
    ∧ reply_data !! "attachment_url" = None
    ∧ reply_data !! "text" = Some (JValue (PStr "📎 Shared a file: photo.png")).
Proof.
  intros net photo.
  assert (Hid : Py.getitem (PDict {[ "id" := PInt 7 ]}) "id" = Ok (PInt 7))
    by reflexivity.
  destruct (reply_is_posted "http://api" net (PDict {[ "id" := PInt 7 ]})
              (PInt 7) "" (Some photo) false fresh_world Hid eq_refl)
    as (url & reply_data & Hurl & Hcalls & _ & Htext & Hatt & _).
  exists reply_data. split; [exact Hcalls|].
  assert (url = PNone) as ->.
  { unfold upload_returned in Hurl. vm_compute in Hurl. congruence. }
  split; [exact Hatt | exact Htext].
Defined.

Lemma admin_reply_is_posted_witness :
  ∃ reply_data : gmap string jarg,
    calls (admin_reply_form "http://api" (λ _ _, Fails "unreachable")
             (PDict {[ "id" := PInt 7 ]}) "   " None true fresh_world).2
    = [reply_request "http://api" (PInt 7) reply_data]
    ∧ reply_data !! "text" = Some (JValue (PStr "   ")).
Proof.
  assert (Hid : Py.getitem (PDict {[ "id" := PInt 7 ]}) "id" = Ok (PInt 7))
    by reflexivity.
  destruct (admin_reply_is_posted "http://api" (λ _ _, Fails "unreachable")
              (PDict {[ "id" := PInt 7 ]}) (PInt 7) "   " None fresh_world
              Hid eq_refl)
    as (url & reply_data & _ & Hcalls & _ & Htext & _).
  exists reply_data. split; [exact Hcalls | exact Htext].
Defined.

Lemma status_update_outcome_witness :
  let run := admin_update_status "http://api"
               (λ _ _, Responds (Response 404 (NotJson "Not Found")))
               (PDict {[ "id" := PInt 7 ]}) "Closed" true fresh_world in
  (run.1, ui run.2) = (Ok tt, []).
Proof.
  intros run.
  assert (Hid : Py.getitem (PDict {[ "id" := PInt 7 ]}) "id" = Ok (PInt 7))
    by reflexivity.
  destruct (status_update_outcome "http://api"
              (λ _ _, Responds (Response 404 (NotJson "Not Found")))
              (PDict {[ "id" := PInt 7 ]}) (PInt 7) "Closed" fresh_world
              Hid) as [_ Hrun].
  exact Hrun.
Defined.

(** ** The conversation: one message per reply of a known role *)

Section Conversation.

Variable list_lt : list pyval → list pyval → result bool.
Variable image_loads : pyval → bool.

Lemma chat_messages_app l1 l2 :
  chat_messages (l1 ++ l2) = chat_messages l1 + chat_messages l2.
Proof. unfold chat_messages. by rewrite filter_app, length_app. Qed.

Lemma chat_messages_none l :
  Forall (λ e, is_chat_message e = false) l → chat_messages l = 0.
Proof.
  unfold chat_messages. induction 1 as [|e l He _ IH]; [done|].
  rewrite filter_cons. destruct (decide (is_chat_message e = true)); [|done].
  congruence.
Qed.

Lemma render_role_message_known role time_str text w :
  known_role role = true →
  ∃ e, render_role_message role time_str text w
       = (Ok tt, World (calls w) (ui w ++ [e]) (session_state w))
       ∧ is_chat_message e = true.
Proof.
  unfold known_role, render_role_message. intros Hk.
  destruct (Py.eq_str role "user"); [eexists; split; [reflexivity|done]|].
  destruct (Py.eq_str role "ai"); [eexists; split; [reflexivity|done]|].
  destruct (Py.eq_str role "admin"); [eexists; split; [reflexivity|done]|].
  done.
Qed.

Lemma render_reply_messages (d : gmap string pyval) n i w :
  attachment_well_typed d →
  ∃ shown,
    render_reply image_loads n i (PDict d) w
    = (Ok tt, World (calls w) (ui w ++ shown) (session_state w))
    ∧ chat_messages shown = (if role_known (PDict d) then 1 else 0).
Proof.
  intros Hatt. unfold render_reply, role_known, resolve_role, resolve_text,
    resolve_timestamp.
  rewrite !get_or_dict.
  set (role := if Py.truthy (default PNone (d !! "role")) then _ else _).
  rewrite (lift_Ok _ role _ _ eq_refl).
  rewrite (lift_Ok (Ok _) _ _ _ eq_refl).
  rewrite (lift_Ok (Ok _) _ _ _ eq_refl).
  cbv zeta.
  assert (∃ msg,
            render_role_message role
              (time_str_of
                 (if Py.truthy (default PNone (d !! "created_at"))
                  then default PNone (d !! "created_at")
                  else default (PStr "") (d !! "timestamp")))
              (if Py.truthy (default PNone (d !! "text"))
               then default PNone (d !! "text")
               else default (PStr "") (d !! "content")) w
            = (Ok tt, World (calls w) (ui w ++ msg) (session_state w))
            ∧ chat_messages msg = (if known_role role then 1 else 0))
    as (msg & Hmsg & Hcount).
  { destruct (known_role role) eqn:Hk.
    - edestruct (render_role_message_known role) as (e & -> & He);
        [exact Hk|].
      exists [e]. split; [done|]. unfold chat_messages.
      rewrite filter_cons. by destruct (decide (is_chat_message e = true)).
    - rewrite (render_role_message_unknown _ _ _ Hk). exists [].
      rewrite app_nil_r. split; [by destruct w | done]. }
  rewrite (bind_Ok _ _ _ _ _ Hmsg).
  match goal with
  | |- context [ _ (World ?c ?u ?s) ] =>
      destruct (render_reply_attachment_run image_loads d i (World c u s) Hatt)
        as (i' & shown & Hrun & Hshown)
  end.
  rewrite (bind_Ok _ _ _ _ _ Hrun). cbn [calls ui session_state].
  destruct (Z.of_nat i' <? Z.of_nat n - 1)%Z.
  - exists (msg ++ shown ++ [StMarkdown [Lit "<br>"]]). split.
    + unfold st_markdown, emit. simpl. by rewrite <- !app_assoc.
    + rewrite !chat_messages_app, Hcount, (chat_messages_none _ Hshown).
      rewrite (chat_messages_none [StMarkdown [Lit "<br>"]]); [lia|].
      repeat constructor.
  - exists (msg ++ shown). split.
    + unfold mret, M_ret. by rewrite <- !app_assoc.
    + rewrite !chat_messages_app, Hcount, (chat_messages_none _ Hshown). lia.
Qed.

Lemma render_loop_messages (pairs : list (nat * pyval)) n w :
  Forall (λ ir, renderable ir.2) pairs →
  ∃ shown,
    for_each pairs (λ ir, render_reply image_loads n ir.1 ir.2) w
    = (Ok tt, World (calls w) (ui w ++ shown) (session_state w))
    ∧ chat_messages shown
      = length (filter (λ x, role_known x = true) (pairs.*2)).
Proof.
  intros Hpairs. revert w.
  induction Hpairs as [|[i reply] pairs (d & Hd & Hatt) _ IH]; intros w.
  - exists []. rewrite app_nil_r. split; [by destruct w | done].
  - simpl in Hd. subst reply. cbn [for_each fst snd].
    destruct (render_reply_messages d n i w Hatt) as (shown & Hrun & Hcount).
    rewrite (bind_Ok _ _ _ _ _ Hrun).
    destruct (IH (World (calls w) (ui w ++ shown) (session_state w)))
      as (shown' & -> & Hcount').
    exists (shown ++ shown'). cbn [calls ui session_state].
    rewrite <- app_assoc. split; [done|].
    rewrite chat_messages_app, Hcount, Hcount', fmap_cons, filter_cons.
    cbn [snd]. by destruct (decide (role_known (PDict d) = true)) as [->|Hn];
      [|apply not_true_is_false in Hn; rewrite Hn].
Qed.

Lemma imap_index_snd (l : list pyval) (f : nat → nat) :
  (imap (λ i reply, (f i, reply)) l).*2 = l.
Proof.
  revert f. induction l as [|x l IH]; intros f; [done|].
  cbn [imap]. rewrite fmap_cons. cbn [snd]. f_equal. apply (IH (f ∘ S)).
Qed.

(** X14.  When every reply is an object whose attachment field is absent,
    falsy or a string, the conversation renders without raising, sends no
    request, and draws exactly one chat message for each reply whose resolved
    role is "user", "ai" or "admin", and none for the others; with no reply
    at all it draws none. *)
Theorem conversation_draws_known_roles (replies : list pyval) (w : world) :
  Forall renderable replies →
  ∃ shown,
    show_conversation list_lt image_loads replies w
    = (Ok tt, World (calls w) (ui w ++ shown) (session_state w))
    ∧ chat_messages shown
      = length (filter (λ x, role_known x = true) replies).
Proof.
  intros Hall. unfold show_conversation.
  destruct replies as [|x replies].
  - eexists. split; [reflexivity|]. done.
  - set (l := x :: replies) in *.
    replace (Py.truthy (PList l) && (0 <? length l)%nat) with true by done.
    unfold st_success. rewrite emit_then. cbv zeta.
    assert (Hsorted : Forall renderable (sorted_replies list_lt l))
      by (by rewrite sorted_replies_perm).
    match goal with
    | |- context [ for_each ?pairs _ (World ?c ?u ?s) ] =>
        destruct (render_loop_messages pairs
                    (length (sorted_replies list_lt l)) (World c u s))
          as (shown & -> & Hcount)
    end.
    { apply (Forall_fmap snd renderable).
      by rewrite (imap_index_snd _ id). }
    eexists. cbn [calls ui session_state]. rewrite <- app_assoc.
    split; [reflexivity|].
    rewrite chat_messages_app, Hcount, (imap_index_snd _ id).
    rewrite (chat_messages_none [_]) by (repeat constructor).
    by rewrite sorted_replies_perm.
Qed.

End Conversation.

Lemma conversation_draws_known_roles_witness :
  let hello : gmap string pyval :=
    {[ "role" := PStr "user"; "text" := PStr "hello" ]} in
  let notice : gmap string pyval :=
    {[ "role" := PStr "system"; "text" := PStr "maintenance at noon" ]} in
  ∃ shown,
    show_conversation (λ _ _, Raise TypeError) (λ _, true)
      [PDict hello; PDict notice] fresh_world
    = (Ok tt, World [] shown ∅)
    ∧ chat_messages shown = 1.
Proof.
  intros hello notice.
  destruct (conversation_draws_known_roles (λ _ _, Raise TypeError)
              (λ _, true) [PDict hello; PDict notice] fresh_world)
    as (shown & Hrun & Hcount).
  - repeat constructor.
    + exists hello. split; [reflexivity|]. vm_compute. exact I.
    + exists notice. split; [reflexivity|]. vm_compute. exact I.
  - exists shown. split; [exact Hrun|].
    rewrite Hcount. vm_compute. reflexivity.
Defined.

(** ** Attachment names: the escapes are gone *)

Section Replace.

Variables a b n x y : ascii.
Hypothesis Hx : x ≠ "%"%char ∧ x ≠ n.
Hypothesis Hy : y ≠ "%"%char ∧ y ≠ n.
Hypothesis Hn : n ≠ "%"%char.

Let P : string := String "%" (String a (String b EmptyString)).
Let N : string := String n EmptyString.
Let Q : string := String "%" (String x (String y EmptyString)).

Lemma prefix_cons c1 s1 c2 s2 :
  String.prefix (String c1 s1) (String c2 s2)
  = bool_decide (c1 = c2) && String.prefix s1 s2.
Proof. simpl. destruct (ascii_dec c1 c2); by case_bool_decide. Qed.

Lemma prefix_nil s : String.prefix EmptyString s = true.
Proof. by destruct s. Qed.

Lemma append_one c t : String c EmptyString +:+ t = String c t.
Proof. done. Qed.

Lemma replace_head1 (z : ascii) s :
  z ≠ n →
  String.prefix (String z EmptyString) (PyStr.replace_from P N 0 s) = true →
  String.prefix (String z EmptyString) s = true.
Proof.
  intros Hz. destruct s as [|c s]; [done|].
  cbn [PyStr.replace_from].
  destruct (String.prefix P (String c s)).
  - unfold N. rewrite append_one, prefix_cons.
    case_bool_decide; [naive_solver|done].
  - rewrite !prefix_cons, !prefix_nil. done.
Qed.

Lemma replace_head2 s :
  String.prefix (String x (String y EmptyString))
                (PyStr.replace_from P N 0 s) = true →
  String.prefix (String x (String y EmptyString)) s = true.
Proof.
  destruct s as [|c s]; [done|].
  cbn [PyStr.replace_from].
  destruct (String.prefix P (String c s)).
  - unfold N. rewrite append_one, prefix_cons.
    case_bool_decide; [naive_solver|done].
  - rewrite !prefix_cons. intros [Hc Hrest]%andb_true_iff.
    rewrite Hc. simpl. apply replace_head1; naive_solver.
Qed.

Lemma contains_cons q c s :
  PyStr.contains q (String c s)
  = String.prefix q (String c s) || PyStr.contains q s.
Proof. done. Qed.

Lemma replace_keeps_absent k s :
  PyStr.contains Q s = false →
  PyStr.contains Q (PyStr.replace_from P N k s) = false.
Proof.
  revert k. induction s as [|c s IH]; intros k; [done|].
  rewrite contains_cons. intros [Hhead Htail]%orb_false_iff.
  cbn [PyStr.replace_from]. destruct k as [|k]; [|by apply IH].
  destruct (String.prefix P (String c s)).
  - unfold N. rewrite append_one, contains_cons.
    apply orb_false_iff. split; [|by apply IH].
    unfold Q. rewrite prefix_cons. case_bool_decide; [naive_solver|done].
  - rewrite contains_cons. apply orb_false_iff. split; [|by apply IH].
    unfold Q in *. rewrite prefix_cons in Hhead |- *.
    case_bool_decide; [|done]. simpl in *.
    destruct (String.prefix (String x (String y "")) (PyStr.replace_from P N 0 s))
      eqn:Hp; [|done].
    apply replace_head2 in Hp. congruence.
Qed.

End Replace.

Lemma replace_removes (a b n : ascii) k s :
  a ≠ "%"%char ∧ a ≠ n → b ≠ "%"%char ∧ b ≠ n → n ≠ "%"%char →
  let P := String "%" (String a (String b EmptyString)) in
  PyStr.contains P (PyStr.replace_from P (String n EmptyString) k s) = false.
Proof.
  intros Ha Hb Hn P. revert k. induction s as [|c s IH]; intros k; [done|].
  cbn [PyStr.replace_from]. destruct k as [|k]; [|by apply IH].
  destruct (String.prefix P (String c s)) eqn:Hm.
  - rewrite append_one, contains_cons.
    apply orb_false_iff. split; [|by apply IH].
    unfold P. rewrite prefix_cons. case_bool_decide; [congruence|done].
  - rewrite contains_cons. apply orb_false_iff. split; [|by apply IH].
    unfold P in *. rewrite prefix_cons in Hm |- *.
    case_bool_decide; [|done]. simpl in *.
    destruct (String.prefix (String a (String b ""))
                (PyStr.replace_from (String "%" (String a (String b "")))
                   (String n "") 0 s)) eqn:Hp; [|done].
    apply (replace_head2 a b n a b Ha Hb) in Hp. congruence.
Qed.

(** X15.  Whatever the attachment value, the file name shown contains
    neither "%20" nor "%2B": both are replaced everywhere, and replacing the
    second does not bring the first back. *)
Theorem file_name_has_no_escapes (attachment : pyval) (i0 : nat) :
  let shown_in := λ name : string,
    PyStr.contains "%20" name = false ∧ PyStr.contains "%2B" name = false in
  shown_in (Attachment.ticket_file_name attachment)
  ∧ shown_in (Attachment.reply_file_name attachment i0).1.
Proof.
  assert (Hclean : ∀ name,
            PyStr.contains "%20" (Attachment.clean name) = false
            ∧ PyStr.contains "%2B" (Attachment.clean name) = false).
  { intros name. unfold Attachment.clean, PyStr.replace. split.
    - apply (replace_keeps_absent "2" "B" "+" "2" "0"); [done..|].
      by apply (replace_removes "2" "0" " ").
    - by apply (replace_removes "2" "B" "+"). }
  intros shown_in. subst shown_in. cbv beta.
  unfold Attachment.ticket_file_name, Attachment.reply_file_name,
    Attachment.extract.
  destruct attachment as [| | |url| |]; cbn [Py.as_str mbind result_bind];
    try done.
  split.
  - destruct (PyStr.startswith "http" url); [apply Hclean | done].
  - apply Hclean.
Qed.

(** ** The entry point *)

(** X16.  When the connectivity probe does not get a 200 answer, [main]
    draws the style sheet, an error and an info, sends nothing but the probe,
    and runs none of the pages, whichever was chosen. *)
Theorem unreachable_api_runs_no_page base net (page : string)
    (show_dashboard create_ticket_page my_tickets_page search_tickets_page
     admin_panel : M unit) (w : world) :
  (∀ r, net (calls w) (health_request base) = Responds r →
        status_code r ≠ 200%Z) →
  main base net page show_dashboard create_ticket_page my_tickets_page
       search_tickets_page admin_panel w
  = (Ok tt,
     World (calls w ++ [health_request base])
           (ui w ++ [StMarkdown [Lit CUSTOM_CSS];
                     StError [Lit "⚠️ Cannot connect to API at ";
                              Val (PStr base)];
                     StInfo [Lit "Please check if the API is running and the URL is correct."]])
           (session_state w)).
Proof.
  intros Hfail. unfold main, st_markdown. rewrite emit_then.
  unfold test_api_connection, try_except, requests_get, send,
    st_error, st_info, st_success, emit, mbind, M_bind, mret, M_ret.
  fold (health_request base). cbn [calls ui session_state].
  destruct (net (calls w) (health_request base)) as [d|r] eqn:Hnet.
  - cbn. by rewrite <- !app_assoc.
  - specialize (Hfail r eq_refl). apply Z.eqb_neq in Hfail.
    cbn. rewrite Hfail. cbn. by rewrite <- !app_assoc.
Qed.

Lemma unreachable_api_runs_no_page_witness :
  calls (main "http://api" (λ _ _, Fails "connection refused")
           "👨‍💼 Admin Panel" st_rerun st_rerun st_rerun st_rerun st_rerun
           fresh_world).2
  = [health_request "http://api"].
Proof.
  rewrite (unreachable_api_runs_no_page "http://api"
             (λ _ _, Fails "connection refused") "👨‍💼 Admin Panel"
             st_rerun st_rerun st_rerun st_rerun st_rerun fresh_world).
  - reflexivity.
  - intros r Hr. discriminate Hr.
Defined.

(** X17.  When the probe gets a 200 answer, [main] shows the success line
    and then runs exactly the page chosen in the sidebar, from the world the
    probe left; a label that is none of the five runs nothing. *)
Theorem reachable_api_runs_chosen_page base net (page : string)
    (show_dashboard create_ticket_page my_tickets_page search_tickets_page
     admin_panel : M unit) (w : world) (r : response) :
  net (calls w) (health_request base) = Responds r →
  status_code r = 200%Z →
  let w' := World (calls w ++ [health_request base])
                  (ui w ++ [StMarkdown [Lit CUSTOM_CSS];
                            StSuccess [Lit "✅ Connected to API: ";
                                       Val (PStr base)]])
                  (session_state w) in
  main base net page show_dashboard create_ticket_page my_tickets_page
       search_tickets_page admin_panel w
  = (if String.eqb page "🏠 Dashboard" then show_dashboard w'
     else if String.eqb page "➕ Create Ticket" then create_ticket_page w'
     else if String.eqb page "👤 My Tickets" then my_tickets_page w'
     else if String.eqb page "🔍 Search Tickets" then search_tickets_page w'
     else if String.eqb page "👨‍💼 Admin Panel" then admin_panel w'
     else (Ok tt, w')).
Proof.
  intros Hnet Hcode w'. unfold main, st_markdown. rewrite emit_then.
  unfold test_api_connection, try_except, requests_get, send,
    st_error, st_info, st_success, emit, mbind, M_bind, mret, M_ret.
  fold (health_request base). cbn [calls ui session_state].
  rewrite Hnet, Hcode. cbn. rewrite <- !app_assoc. cbn. fold w'.
  repeat case_match; done.
Qed.

Lemma reachable_api_runs_chosen_page_witness :
  main "http://api" (λ _ _, Responds (Response 200 (NotJson "ok")))
       "👤 My Tickets" (st_info [Lit "dashboard"]) (st_info [Lit "create"])
       (st_info [Lit "mine"]) (st_info [Lit "search"]) (st_info [Lit "admin"])
       fresh_world
  = st_info [Lit "mine"]
      (World [health_request "http://api"]
             [StMarkdown [Lit CUSTOM_CSS];
              StSuccess [Lit "✅ Connected to API: "; Val (PStr "http://api")]]
             ∅).
Proof.
  rewrite (reachable_api_runs_chosen_page "http://api"
             (λ _ _, Responds (Response 200 (NotJson "ok")))
             "👤 My Tickets" (st_info [Lit "dashboard"])
             (st_info [Lit "create"]) (st_info [Lit "mine"])
             (st_info [Lit "search"]) (st_info [Lit "admin"])
             fresh_world (Response 200 (NotJson "ok")) eq_refl eq_refl).
  reflexivity.
Defined.

(** ** The ticket statistics *)

Lemma count_status_raise status tickets e :
  count_status status tickets = Raise e →
  ∃ l1 t l2,
    tickets = l1 ++ t :: l2 ∧ Forall has_status l1
    ∧ Py.getitem t "status" = Raise e.
Proof.
  induction tickets as [|t tickets IH]; [done|]. cbn [count_status].
  destruct (Py.getitem t "status") as [s|e'] eqn:Hs; cbn.
  - destruct (count_status status tickets) as [n|e'] eqn:Hn; cbn; [done|].
    intros [= ->]. destruct (IH eq_refl) as (l1 & t' & l2 & -> & Hl1 & Ht').
    exists (t :: l1), t', l2. split; [done|]. split; [|done].
    constructor; [by exists s|done].
  - intros [= ->]. exists [], t, tickets. split; [done|].
    split; [constructor|done].
Qed.

Lemma count_status_has_status status tickets n :
  count_status status tickets = Ok n → Forall has_status tickets.
Proof.
  revert n. induction tickets as [|t tickets IH]; intros n; [constructor|].
  cbn [count_status].
  destruct (Py.getitem t "status") as [s|] eqn:Hs; cbn; [|done].
  destruct (count_status status tickets) as [m|] eqn:Hm; cbn; [|done].
  intros _. constructor; [by exists s | by eapply IH].
Qed.

Lemma counts_sum tickets o p c :
  count_status "Open" tickets = Ok o →
  count_status "In Progress" tickets = Ok p →
  count_status "Closed" tickets = Ok c →
  o + p + c = length (filter (λ t, tracked t = true) tickets).
Proof.
  revert o p c.
  induction tickets as [|t tickets IH]; intros o p c.
  - by intros [= <-] [= <-] [= <-].
  - cbn [count_status]. rewrite filter_cons.
    assert (Htracked : ∀ s, Py.getitem t "status" = Ok s →
              tracked t = Py.eq_str s "Open" || Py.eq_str s "In Progress"
                          || Py.eq_str s "Closed")
      by (intros s Hs; unfold tracked; by rewrite Hs).
    destruct (Py.getitem t "status") as [s|]; cbn; [|done].
    specialize (Htracked s eq_refl).
    destruct (count_status "Open" tickets) as [o'|]; cbn; [|done].
    destruct (count_status "In Progress" tickets) as [p'|]; cbn; [|done].
    destruct (count_status "Closed" tickets) as [c'|]; cbn; [|done].
    intros [= <-] [= <-] [= <-].
    specialize (IH o' p' c' eq_refl eq_refl eq_refl).
    destruct (decide (tracked t = true)) as [Ht|Ht]; rewrite Htracked in Ht;
      cbn [length]; destruct s as [| | |s| |]; cbn in Ht |- *; try done;
      try lia.
    + destruct (String.eqb_spec s "Open") as [->|_]; cbn in Ht |- *; [lia|].
      destruct (String.eqb_spec s "In Progress") as [->|_]; cbn in Ht |- *;
        [lia|].
      destruct (String.eqb_spec s "Closed") as [->|_]; cbn in Ht |- *;
        [lia|done].
    + destruct (String.eqb s "Open"); [done|].
      destruct (String.eqb s "In Progress"); [done|].
      destruct (String.eqb s "Closed"); [done|]. cbn. lia.
Qed.

Lemma filter_all_iff {A} (P : A → Prop) `{∀ x, Decision (P x)} (l : list A) :
  length (filter P l) ≤ length l
  ∧ (length (filter P l) = length l ↔ Forall P l).
Proof.
  induction l as [|x l [IHle IHiff]]; [by split|].
  rewrite filter_cons. destruct (decide (P x)) as [Hx|Hx]; cbn.
  - split; [lia|]. rewrite Forall_cons. split.
    + intros Hlen. split; [done|]. apply IHiff. lia.
    + intros [_ Hl]. f_equal. by apply IHiff.
  - split; [lia|]. rewrite Forall_cons. split; [lia|]. by intros [? _].
Qed.

(** X18.  The four figures of the dashboard and of the admin panel: they are
    computed exactly when every ticket has a readable status, otherwise the
    error raised is that of the first ticket whose status cannot be read; the
    total is the number of tickets; open, in progress and closed never add up
    to more than the total, and add up to it exactly when every status is
    "Open", "In Progress" or "Closed" (compared exactly, letter case
    included). *)
Theorem ticket_counts_add_up (tickets : list pyval) :
  match ticket_counts tickets with
  | Ok (total, open_tickets, in_progress, closed_tickets) =>
      Forall has_status tickets
      ∧ total = length tickets
      ∧ open_tickets + in_progress + closed_tickets ≤ total
      ∧ (open_tickets + in_progress + closed_tickets = total
         ↔ Forall (λ t, tracked t = true) tickets)
  | Raise e =>
      ∃ l1 t l2,
        tickets = l1 ++ t :: l2 ∧ Forall has_status l1
        ∧ Py.getitem t "status" = Raise e
  end.
Proof.
  unfold ticket_counts.
  destruct (count_status "Open" tickets) as [o|e] eqn:Ho; cbn;
    [|by eapply count_status_raise].
  destruct (count_status "In Progress" tickets) as [p|e] eqn:Hp; cbn;
    [|by eapply count_status_raise].
  destruct (count_status "Closed" tickets) as [c|e] eqn:Hc; cbn;
    [|by eapply count_status_raise].
  split; [by eapply count_status_has_status|]. split; [done|].
  rewrite (counts_sum tickets o p c Ho Hp Hc).
  apply filter_all_iff.
Qed.

Example ticket_counts_example :
  ticket_counts [PDict {[ "status" := PStr "Open" ]};
                 PDict {[ "status" := PStr "Closed" ]};
                 PDict {[ "status" := PStr "open" ]}]
  = Ok (3, 1, 0, 1)%nat.
Proof. vm_compute. reflexivity. Qed.

(** ** The tickets of a user *)

Lemma contains_in_empty (x : string) :
  PyStr.contains x "" = true → x = "".
Proof. by destruct x. Qed.

Section MyTicketsFacts.

Variable str_lower : string → string.

Lemma my_tickets_of_filter user_name tickets r :
  my_tickets_of str_lower user_name tickets = Ok r →
  r = filter (λ t, created_by_matches str_lower user_name t = true) tickets
  ∧ Forall (λ t, is_Some (creator_of t)) tickets.
Proof.
  revert r. induction tickets as [|t tickets IH]; intros r.
  - intros [= <-]. split; [done|constructor].
  - cbn [my_tickets_of]. rewrite filter_cons, Forall_cons.
    assert (Hm : ∀ creator,
              Py.get t "created_by" (PStr "") = Ok (PStr creator) →
              created_by_matches str_lower user_name t
              = PyStr.contains (str_lower user_name) (str_lower creator)
              ∧ is_Some (creator_of t)).
    { intros creator Hc. unfold created_by_matches, creator_of.
      rewrite Hc. eauto. }
    destruct (Py.get t "created_by" (PStr "")) as [created_by|]; cbn; [|done].
    destruct created_by as [| | |creator| |]; cbn; try done.
    destruct (Hm creator eq_refl) as [Hmatch Hsome]. clear Hm.
    destruct (my_tickets_of str_lower user_name tickets) as [others|]; cbn;
      [|done].
    destruct (IH others eq_refl) as [-> Hall].
    intros [= <-]. split; [|done].
    destruct (decide (created_by_matches str_lower user_name t = true))
      as [Hd|Hd]; rewrite Hmatch in Hd;
      by destruct (PyStr.contains (str_lower user_name) (str_lower creator)).
Qed.

Lemma my_tickets_of_raise user_name tickets e :
  my_tickets_of str_lower user_name tickets = Raise e →
  e = AttributeError ∧ ∃ t, t ∈ tickets ∧ creator_of t = None.
Proof.
  induction tickets as [|t tickets IH]; [done|].
  cbn [my_tickets_of]. destruct (creator_of t) as [creator|] eqn:Hc.
  - unfold creator_of in Hc.
    destruct (Py.get t "created_by" (PStr "")) as [[]|]; simplify_eq. cbn.
    destruct (my_tickets_of str_lower user_name tickets) as [others|e'];
      cbn; [done|].
    intros [= ->]. destruct (IH eq_refl) as (-> & t' & Hin & Ht').
    split; [done|]. exists t'. split; [|done]. apply elem_of_cons. by right.
  - intros Hraise. split.
    + unfold creator_of in Hc.
      destruct (Py.get t "created_by" (PStr "")) as [[]|e'] eqn:Hget;
        cbn in Hraise; simplify_eq; try done.
      destruct t; by simplify_eq/=.
    + exists t. split; [|done]. apply elem_of_cons. by left.
Qed.

(** X19.  The list of a user's tickets is computed when every ticket is an
    object whose [created_by] is a string or absent, and raises an
    AttributeError otherwise.  When computed, it is exactly the tickets whose
    creator contains the name typed, both lowered, in their order and as many
    times as they occur; a ticket with no [created_by] field is not listed
    for a name whose lowered form is not empty; and two names with the same
    lowered form give the same list. *)
Theorem my_tickets_are_the_matching_ones (user_name : string)
    (tickets : list pyval) :
  str_lower "" = "" →
  match my_tickets_of str_lower user_name tickets with
  | Ok r =>
      r = filter (λ t, created_by_matches str_lower user_name t = true)
                 tickets
      ∧ Forall (λ t, is_Some (creator_of t)) tickets
      ∧ (str_lower user_name ≠ "" →
         ∀ t, t ∈ r →
              ∃ (d : gmap string pyval) creator,
                t = PDict d ∧ d !! "created_by" = Some (PStr creator))
  | Raise e => e = AttributeError ∧ ∃ t, t ∈ tickets ∧ creator_of t = None
  end
  ∧ ∀ other_name,
      str_lower other_name = str_lower user_name →
      my_tickets_of str_lower other_name tickets
      = my_tickets_of str_lower user_name tickets.
Proof.
  intros Hempty. split.
  - destruct (my_tickets_of str_lower user_name tickets) as [r|e] eqn:Hr;
      [|by eapply my_tickets_of_raise].
    destruct (my_tickets_of_filter _ _ _ Hr) as [-> Hall].
    split; [done|]. split; [done|].
    intros Hname t [Hmatch Hin]%list_elem_of_filter.
    unfold created_by_matches, creator_of in Hmatch.
    destruct t as [| | | | |d]; try done. cbn in Hmatch.
    destruct (d !! "created_by") as [v|] eqn:Hv; cbn in Hmatch.
    + destruct v as [| | |creator| |]; cbn in Hmatch; try done.
      by exists d, creator.
    + rewrite Hempty in Hmatch. by apply contains_in_empty in Hmatch.
  - intros other_name Hsame.
    induction tickets as [|t tickets IH]; [done|].
    cbn [my_tickets_of]. by rewrite IH, Hsame.
Qed.

End MyTicketsFacts.

Lemma my_tickets_are_the_matching_ones_witness :
  let ana := PDict {[ "created_by" := PStr "Ana Lima" ]} in
  let bob := PDict {[ "created_by" := PStr "Bob" ]} in
  let anonymous := PDict {[ "title" := PStr "Printer" ]} in
  my_tickets_of PyStr.lower "ana" [anonymous; ana; bob; ana] = Ok [ana; ana].
Proof.
  intros ana bob anonymous.
  destruct (my_tickets_are_the_matching_ones PyStr.lower "ANA"
              [anonymous; ana; bob; ana] eq_refl) as [_ Hcase].
  rewrite (Hcase "ana" eq_refl). vm_compute. reflexivity.
Defined.

(** ** The conversation section when the fetch fails *)

(** X20.  When fetching the replies of a ticket fails, by a response code
    other than 200 or by a transport failure, the ticket view shows the same
    "No conversation messages yet" line as for a ticket without replies,
    after the helper's error message in the transport case and after nothing
    in the other; it does not raise. *)
Theorem failed_fetch_shows_no_messages base net
    (list_lt : list pyval → list pyval → result bool)
    (image_loads : pyval → bool) (ticket id : pyval) (w : world) :
  Py.getitem ticket "id" = Ok id →
  fetch_failed (net (calls w) (ticket_request base id)) →
  ∃ errors,
    conversation_section base net list_lt image_loads ticket w
    = (Ok tt,
       World (calls w ++ [ticket_request base id])
             (ui w ++ errors
              ++ [StMarkdown [Lit "---"];
                  StInfo [Lit "💭 No conversation messages yet. Be the first to add a reply!"]])
             (session_state w))
    ∧ errors
      = match net (calls w) (ticket_request base id) with
        | Fails d => [StError [Lit "Error fetching replies: ";
                               Exc (RequestException d)]]
        | Responds _ => []
        end.
Proof.
  intros Hid Hfail. unfold conversation_section.
  rewrite (lift_Ok _ id _ _ Hid).
  unfold mbind at 1, M_bind at 1. rewrite get_ticket_replies_run. cbv zeta.
  destruct (net (calls w) (ticket_request base id)) as [d|r].
  - eexists. split; [|reflexivity].
    unfold after, st_markdown, emit, mbind, M_bind. cbn.
    unfold st_info, emit. cbn. by rewrite <- !app_assoc.
  - cbn in Hfail. apply Z.eqb_neq in Hfail. rewrite Hfail.
    eexists. split; [|reflexivity].
    unfold after, st_markdown, emit, mbind, M_bind. cbn.
    unfold st_info, emit. cbn. by rewrite app_nil_r, <- !app_assoc.
Qed.

Lemma failed_fetch_shows_no_messages_witness :
  ui (conversation_section "http://api"
        (λ _ _, Responds (Response 503 (NotJson "Service Unavailable")))
        (λ _ _, Raise TypeError) (λ _, true)
        (PDict {[ "id" := PInt 7 ]}) fresh_world).2
  = [StMarkdown [Lit "---"];
     StInfo [Lit "💭 No conversation messages yet. Be the first to add a reply!"]].
Proof.
  assert (Hid : Py.getitem (PDict {[ "id" := PInt 7 ]}) "id" = Ok (PInt 7))
    by reflexivity.
  destruct (failed_fetch_shows_no_messages "http://api"
              (λ _ _, Responds (Response 503 (NotJson "Service Unavailable")))
              (λ _ _, Raise TypeError) (λ _, true)
              (PDict {[ "id" := PInt 7 ]}) (PInt 7) fresh_world Hid)
    as (errors & Hrun & Herrors).
  - cbn. lia.
  - rewrite Hrun. cbn in Herrors. subst errors. reflexivity.
Defined.

(** ** The separator after a reply *)

Lemma reply_file_name_three_parts (url : string) (i1 i2 : nat) :
  3 ≤ length (PyStr.split "_" (Attachment.path_part_of url)) →
  Attachment.reply_file_name (PStr url) i1
  = Attachment.reply_file_name (PStr url) i2.
Proof.
  intros Hlen. unfold Attachment.reply_file_name, Attachment.extract,
    Attachment.name_of_path_part. cbn [Py.as_str mbind result_bind mret
    result_ret].
  rewrite (three_parts_have_sep _ Hlen).
  by rewrite (proj2 (Nat.leb_le 3 _) Hlen).
Qed.

(** X21.  The file-name loop of line 548 reuses the loop variable [i] of the
    conversation.  So for a reply whose attachment URL has a final segment of
    at least 3 '_'-parts, what is drawn, the separator included, does not
    depend on the position of the reply in the conversation. *)
Theorem separator_ignores_position (image_loads : pyval → bool)
    (d : gmap string pyval) (url : string) (n i1 i2 : nat) (w : world) :
  d !! "attachment_url" = Some (PStr url) →
  3 ≤ length (PyStr.split "_" (Attachment.path_part_of url)) →
  render_reply image_loads n i1 (PDict d) w
  = render_reply image_loads n i2 (PDict d) w.
Proof.
  intros Hatt Hlen.
  assert (Hsame : render_reply_attachment image_loads (PDict d) i1
                  = render_reply_attachment image_loads (PDict d) i2).
  { pose proof (reply_file_name_three_parts url i1 i2 Hlen) as Hname.
    unfold render_reply_attachment. cbn [Py.get Py.getitem].
    rewrite Hatt. cbn [default].
    unfold lift, mbind, M_bind. rewrite Hname.
    destruct url as [|c url]; [vm_compute in Hlen; lia|].
    reflexivity. }
  unfold render_reply. by rewrite Hsame.
Qed.

Lemma separator_ignores_position_witness :
  let reply : gmap string pyval :=
    {[ "role" := PStr "user"; "text" := PStr "see attached";
       "attachment_url" := PStr "https://x/api_2025_photo.png" ]} in
  render_reply (λ _, true) 3 2 (PDict reply) fresh_world
  = render_reply (λ _, true) 3 0 (PDict reply) fresh_world.
Proof.
  intros reply.
  apply (separator_ignores_position (λ _, true) reply
           "https://x/api_2025_photo.png" 3 2 0 fresh_world).
  - reflexivity.
  - vm_compute. repeat constructor.
Defined.

(** A conversation of two replies: the first has an attachment whose name is
    found in part 2, so no separator follows it; without the attachment one
    does. *)
Example separator_between_two_replies :
  let plain : gmap string pyval :=
    {[ "role" := PStr "user"; "text" := PStr "first" ]} in
  let attached : gmap string pyval :=
    <[ "attachment_url" := PStr "https://x/api_2025_notes.txt" ]> plain in
  StMarkdown [Lit "<br>"]
    ∈ ui (render_reply (λ _, true) 2 0 (PDict plain) fresh_world).2
  ∧ StMarkdown [Lit "<br>"]
    ∉ ui (render_reply (λ _, true) 2 0 (PDict attached) fresh_world).2.
Proof.
  intros plain attached. split.
  - vm_compute. repeat (apply elem_of_cons; first [by left | right]).
  - vm_compute. intros Hin.
    repeat (apply elem_of_cons in Hin as [Hin|Hin]; [discriminate|]).
    by apply elem_of_nil in Hin.
Qed.

(** ** The "Generate AI Reply" button *)

Section AIButton.

Variable base : string.
Variable net : list request → request → outcome.
Variable str_title : string → string.

Lemma context_line_speaker (reply : pyval) :
  (has_speaker reply ∧ ∃ line, context_line str_title reply = Ok line)
  ∨ (¬ has_speaker reply
     ∧ context_line str_title reply = Raise AttributeError).
Proof.
  destruct reply as [| | | | |d];
    try (right; split; [by intros (? & ? & _)|done]).
  unfold context_line. cbn [Py.get mbind result_bind].
  destruct (d !! "role") as [v|] eqn:Hrole; cbn [default].
  - destruct v; cbn [Py.as_str mbind result_bind];
      try (right; split; [|done]; intros (d' & Hd & Hstr);
           simplify_eq; by specialize (Hstr _ Hrole));
      left; split; eauto.
    exists d. split; [done|]. intros v Hv. by simplify_eq.
  - left. split; [|by eauto]. exists d. split; [done|]. intros v Hv.
    by simplify_eq.
Qed.

Lemma context_lines_speakers (l : list pyval) :
  (Forall has_speaker l ∧ ∃ lines, context_lines str_title l = Ok lines)
  ∨ (¬ Forall has_speaker l
     ∧ context_lines str_title l = Raise AttributeError).
Proof.
  induction l as [|reply l IH]; [left; eauto|].
  cbn [context_lines].
  destruct (context_line_speaker reply) as [[Hs [line ->]]|[Hs ->]].
  - cbn [mbind result_bind].
    destruct IH as [[Hl [lines ->]]|[Hl ->]].
    + left. split; [by constructor|by eauto].
    + right. split; [|done]. intros H. apply Hl. by inversion H.
  - right. split; [|done]. intros H. apply Hs. by inversion H.
Qed.

Lemma get_replies_sends_one (ticket_id : pyval) :
  sends_one (get_ticket_replies base net ticket_id)
            (ticket_request base ticket_id).
Proof.
  intros w. rewrite get_ticket_replies_run. cbv zeta.
  repeat case_match; eauto.
Qed.

(** The button up to the prompt: the ticket is fetched once, and the lines
    of the conversation are computed from what came back. *)
Lemma ai_reply_fetch (ticket title description id replies : pyval)
    (k : pyval → pyval → fstring → M unit) (w : world) :
  Py.getitem ticket "title" = Ok title →
  Py.getitem ticket "description" = Ok description →
  Py.getitem ticket "id" = Ok id →
  (get_ticket_replies base net id w).1 = Ok replies →
  (title ← lift (Py.getitem ticket "title");
   description ← lift (Py.getitem ticket "description");
   id ← lift (Py.getitem ticket "id");
   replies ← get_ticket_replies base net id;
   lines ← lift (conversation_lines str_title replies);
   k title description lines) w
  = match conversation_lines str_title replies with
    | Ok lines =>
        k title description lines (get_ticket_replies base net id w).2
    | Raise e => (Raise e, (get_ticket_replies base net id w).2)
    end.
Proof.
  intros Htitle Hdescription Hid Hfetch.
  rewrite (lift_Ok _ title _ _ Htitle),
    (lift_Ok _ description _ _ Hdescription), (lift_Ok _ id _ _ Hid).
  destruct (get_replies_sends_one id w) as (v & shown & Hrun).
  rewrite Hrun in Hfetch. simpl in Hfetch. simplify_eq.
  rewrite (bind_Ok _ _ _ _ _ Hrun), Hrun. simpl.
  by destruct (conversation_lines str_title replies).
Qed.

(** X22.  The "Generate AI Reply" button on a ticket with a title, a
    description and an id, when the lines of the conversation can be written:
    it fetches the ticket, then posts one prompt made of the instruction, the
    title, the description and those lines.  A 200 answer with a truthy JSON
    value shows the two messages and asks for a rerun; every other outcome
    returns after "Failed to generate AI reply. Please try again.", which
    follows the helper's own error unless the answer was a falsy JSON value
    with code 200. *)
Theorem ai_reply_outcome (ticket title description id replies : pyval)
    (lines : fstring) (w : world) :
  Py.getitem ticket "title" = Ok title →
  Py.getitem ticket "description" = Ok description →
  Py.getitem ticket "id" = Ok id →
  (get_ticket_replies base net id w).1 = Ok replies →
  conversation_lines str_title replies = Ok lines →
  let fetch := ticket_request base id in
  let fetched := (get_ticket_replies base net id w).2 in
  let req := ai_request base id (ai_prompt title description lines) in
  let failed := StError [Lit "Failed to generate AI reply. Please try again."] in
  let run := admin_ai_reply base net str_title ticket true w in
  calls run.2 = calls w ++ [fetch; req]
  ∧ (run.1, ui run.2)
    = match net (calls w ++ [fetch]) req with
      | Responds r =>
          if (status_code r =? 200)%Z then
            match content r with
            | JsonOf v =>
                if Py.truthy v then
                  (Raise RerunException,
                   ui fetched
                   ++ [StSuccess
                         [Lit "🤖 AI reply automatically generated and added to the conversation!"];
                       StInfo
                         [Lit "💡 The AI analyzed the ticket content and conversation history to provide an intelligent, contextual response."]])
                else (Ok tt, ui fetched ++ [failed])
            | NotJson d =>
                (Ok tt,
                 ui fetched
                 ++ [StError [Lit "Error generating AI reply: ";
                              Exc (JSONDecodeError d)];
                     failed])
            end
          else
            (Ok tt,
             ui fetched
             ++ [StError [Lit "Failed to generate AI reply: ";
                          Val (PInt (status_code r))];
                 failed])
      | Fails d =>
          (Ok tt,
           ui fetched
           ++ [StError [Lit "Error generating AI reply: ";
                        Exc (RequestException d)];
               failed])
      end.
Proof.
  intros Htitle Hdescription Hid Hfetch Hlines fetch fetched req failed run.
  subst run. unfold admin_ai_reply.
  cbv zeta.
  rewrite (ai_reply_fetch ticket title description id replies
             (λ title description lines,
                id ← lift (Py.getitem ticket "id");
                ai_response ←
                  generate_ai_reply base net id
                    (ai_prompt title description lines) PNone PNone;
                if Py.truthy ai_response then
                  st_success
                    [Lit "🤖 AI reply automatically generated and added to the conversation!"] ;;
                  st_info
                    [Lit "💡 The AI analyzed the ticket content and conversation history to provide an intelligent, contextual response."] ;;
                  st_rerun
                else
                  st_error
                    [Lit "Failed to generate AI reply. Please try again."])
             w Htitle Hdescription Hid Hfetch), Hlines.
  fold fetched. cbv zeta.
  destruct (get_replies_sends_one id w) as (got & shown & Hrun).
  assert (Hcalls : calls fetched = calls w ++ [fetch])
    by (subst fetched; by rewrite Hrun).
  assert (Hstate : session_state fetched = session_state w)
    by (subst fetched; by rewrite Hrun).
  rewrite (lift_Ok _ id _ _ Hid).
  unfold mbind, M_bind. rewrite generate_ai_reply_run. cbv zeta.
  fold (ai_prompt title description lines). fold req. rewrite Hcalls.
  destruct (net (calls w ++ [fetch]) req) as [d|r]; cbn [Py.truthy].
  - unfold st_error, emit, after. simpl. rewrite Hcalls.
    by rewrite <- !app_assoc.
  - destruct (status_code r =? 200)%Z.
    + destruct (content r) as [d|v]; cbn [Py.truthy].
      * unfold st_error, emit, after. simpl. rewrite Hcalls.
        by rewrite <- !app_assoc.
      * destruct (Py.truthy v).
        -- unfold st_success, st_info, st_rerun, raise, emit, after. simpl.
           rewrite Hcalls. by rewrite app_nil_r, <- !app_assoc.
        -- unfold st_error, emit, after. simpl. rewrite Hcalls.
           by rewrite app_nil_r, <- !app_assoc.
    + unfold st_error, emit, after. simpl. rewrite Hcalls.
      by rewrite <- !app_assoc.
Qed.

(** X23.  When one of the fetched replies is not an object, or has a role
    that is present and not a string (null, say), the button raises an
    AttributeError once the ticket is fetched: no prompt is posted and
    nothing is shown beyond what the fetch showed. *)
Theorem ai_reply_needs_speakers (ticket title description id : pyval)
    (l : list pyval) (w : world) :
  Py.getitem ticket "title" = Ok title →
  Py.getitem ticket "description" = Ok description →
  Py.getitem ticket "id" = Ok id →
  (get_ticket_replies base net id w).1 = Ok (PList l) →
  ¬ Forall has_speaker l →
  let run := admin_ai_reply base net str_title ticket true w in
  run.1 = Raise AttributeError
  ∧ calls run.2 = calls w ++ [ticket_request base id]
  ∧ ui run.2 = ui (get_ticket_replies base net id w).2.
Proof.
  intros Htitle Hdescription Hid Hfetch Hbad run. subst run.
  unfold admin_ai_reply.
  cbv zeta.
  rewrite (ai_reply_fetch ticket title description id (PList l)
             (λ title description lines,
                id ← lift (Py.getitem ticket "id");
                ai_response ←
                  generate_ai_reply base net id
                    (ai_prompt title description lines) PNone PNone;
                if Py.truthy ai_response then
                  st_success
                    [Lit "🤖 AI reply automatically generated and added to the conversation!"] ;;
                  st_info
                    [Lit "💡 The AI analyzed the ticket content and conversation history to provide an intelligent, contextual response."] ;;
                  st_rerun
                else
                  st_error
                    [Lit "Failed to generate AI reply. Please try again."])
             w Htitle Hdescription Hid Hfetch).
  assert (Hraise : conversation_lines str_title (PList l)
                   = Raise AttributeError).
  { unfold conversation_lines.
    destruct (context_lines_speakers l) as [[Hall _]|[_ Hlines]]; [done|].
    destruct l as [|reply l]; [by destruct Hbad|].
    cbn [Py.truthy length Nat.eqb negb]. by rewrite Hlines. }
  rewrite Hraise.
  destruct (get_replies_sends_one id w) as (v & shown & Hrun).
  rewrite Hrun. done.
Qed.

End AIButton.

Lemma ai_reply_outcome_witness :
  let conversation : gmap string pyval :=
    {[ "replies" :=
         PList [PDict {[ "role" := PStr "admin"; "text" := PStr "On it" ]};
                PDict {[ "text" := PStr "thanks" ]}] ]} in
  let answer : gmap string pyval := {[ "reply" := PStr "We are on it" ]} in
  let net : list request → request → outcome := λ _ r,
    match req_method r with
    | GET => Responds (Response 200 (JsonOf (PDict conversation)))
    | _ => Responds (Response 200 (JsonOf (PDict answer)))
    end in
  let ticket : gmap string pyval :=
    {[ "id" := PInt 7; "title" := PStr "Printer";
       "description" := PStr "No toner" ]} in
  let lines :=
    [Lit ("Previous conversation:" +:+ nl);
     Val (PStr "Admin"); Lit ": "; Val (PStr "On it"); Lit nl;
     Val (PStr "User"); Lit ": "; Val (PStr "thanks"); Lit nl] in
  let run := admin_ai_reply "http://api" net ascii_title (PDict ticket) true
               fresh_world in
  run.1 = Raise RerunException
  ∧ calls run.2
    = [ticket_request "http://api" (PInt 7);
       ai_request "http://api" (PInt 7)
         (ai_prompt (PStr "Printer") (PStr "No toner") lines)].
Proof.
  intros conversation answer net ticket lines run.
  pose (replies :=
          PList [PDict {[ "role" := PStr "admin"; "text" := PStr "On it" ]};
                 PDict {[ "text" := PStr "thanks" ]}]).
  assert (Htitle : Py.getitem (PDict ticket) "title" = Ok (PStr "Printer"))
    by reflexivity.
  assert (Hdescription :
            Py.getitem (PDict ticket) "description" = Ok (PStr "No toner"))
    by reflexivity.
  assert (Hid : Py.getitem (PDict ticket) "id" = Ok (PInt 7)) by reflexivity.
  assert (Hfetch :
            (get_ticket_replies "http://api" net (PInt 7) fresh_world).1
            = Ok replies) by (vm_compute; reflexivity).
  assert (Hlines : conversation_lines ascii_title replies = Ok lines)
    by (vm_compute; reflexivity).
  destruct (ai_reply_outcome "http://api" net ascii_title (PDict ticket)
              (PStr "Printer")
              (PStr "No toner") (PInt 7) replies lines fresh_world
              Htitle Hdescription Hid Hfetch Hlines) as [Hcalls Hrun].
  split; [exact (f_equal fst Hrun)|exact Hcalls].
Defined.

Lemma ai_reply_needs_speakers_witness :
  let conversation : gmap string pyval :=
    {[ "replies" :=
         PList [PDict {[ "role" := PNone; "text" := PStr "hello" ]}] ]} in
  let net : list request → request → outcome := λ _ r,
    match req_method r with
    | GET => Responds (Response 200 (JsonOf (PDict conversation)))
    | _ => Responds (Response 200 (JsonOf (PStr "unused")))
    end in
  let ticket : gmap string pyval :=
    {[ "id" := PInt 7; "title" := PStr "Printer";
       "description" := PStr "No toner" ]} in
  let run := admin_ai_reply "http://api" net ascii_title (PDict ticket) true
               fresh_world in
  run.1 = Raise AttributeError
  ∧ calls run.2 = [ticket_request "http://api" (PInt 7)].
Proof.
  intros conversation net ticket run.
  pose (reply := ({[ "role" := PNone; "text" := PStr "hello" ]}
                  : gmap string pyval)).
  assert (Htitle : Py.getitem (PDict ticket) "title" = Ok (PStr "Printer"))
    by reflexivity.
  assert (Hdescription :
            Py.getitem (PDict ticket) "description" = Ok (PStr "No toner"))
    by reflexivity.
  assert (Hid : Py.getitem (PDict ticket) "id" = Ok (PInt 7)) by reflexivity.
  assert (Hfetch :
            (get_ticket_replies "http://api" net (PInt 7) fresh_world).1
            = Ok (PList [PDict reply])) by (vm_compute; reflexivity).
  assert (Hrole : reply !! "role" = Some PNone) by reflexivity.
  assert (Hbad : ¬ Forall has_speaker [PDict reply]).
  { intros Hall. apply Forall_cons in Hall as [(d & Hd & Hstr) _].
    injection Hd as <-. by specialize (Hstr PNone Hrole). }
  destruct (ai_reply_needs_speakers "http://api" net ascii_title
              (PDict ticket)
              (PStr "Printer") (PStr "No toner") (PInt 7) [PDict reply]
              fresh_world Htitle Hdescription Hid Hfetch Hbad)
    as (Hraise & Hcalls & _).
  split; [exact Hraise|exact Hcalls].
Defined.

(** ** The tickets listed on the dashboard *)

Section RecentTickets.

Variable list_lt : list pyval → list pyval → result bool.







End RecentTickets.


(** Eleven tickets: the oldest one is left out. *)
Example recent_tickets_leave_out_the_oldest :
  let ticket (day : string) : pyval :=
    PDict {[ "created_at" := PStr ("2025-01-" +:+ day) ]} in
  recent_tickets (λ _ _, Raise TypeError)
    (ticket <$> ["05"; "01"; "11"; "02"; "03"; "04"; "06"; "07"; "08"; "09";
                 "10"])
  = Ok (ticket <$> ["11"; "10"; "09"; "08"; "07"; "06"; "05"; "04"; "03";
                    "02"]).
Proof. vm_compute. reflexivity. Qed.
